(** * make_data: weather stations, nearest station, daily observations

    A shallow embedding of [src/Data/make_data.py] and the properties of
    its three functions [scrape_weather_stations],
    [closest_weather_station] and [weather_data].

    The Python code is glue between three libraries.  They are modelled
    as follows.
    - pandas: a [DataFrame] is an ordered list of column names and an
      ordered list of labelled rows; every method the source calls is a
      function on such frames ([Module pd]).  Frames are objects: the
      program state holds a store of frames, methods that return a new
      frame allocate, methods called with [inplace=True] (and [insert])
      overwrite.
    - requests, geopy and [pd.to_datetime]: class [Externals].  The
      remote API is an arbitrary state machine; every exchange with it is
      recorded in a trace.
    - Python floats are read as rationals ([Q]); exceptions are values
      of type [exn] and propagate through the monad [M]. *)

From Stdlib Require Import ZArith QArith Qabs.
From stdpp Require Import base option list strings.

Open Scope string_scope.
Open Scope list_scope.
Open Scope Z_scope.

(** ** Python values *)

(** [datetime.date]: compared field by field, year first. *)
Record date : Type := { year : Z; month : Z; day : Z }.

(** A cell of a frame or a value of a dict.  [NaN] is the missing number
    (also Python's [None] in a numeric column), [NaT] the missing time.
    A [Timestamp] is a calendar day and the nanoseconds elapsed in it. *)
Inductive value : Type :=
| NaN
| NaT
| Int (z : Z)
| Float (q : Q)
| Str (s : string)
| Timestamp (d : date) (ns : Z).

(** The exceptions the three functions can let escape. *)
Inductive exn : Type :=
| ConnectionError
| JSONDecodeError
| KeyError (key : string)
| IndexError
| ValueError
| TypeError
| UndefinedVariableError (name : string).

(** A Python expression either returns or raises. *)
Inductive result (A : Type) : Type :=
| Ok (a : A)
| Raise (e : exn).
Arguments Ok {A} a.
Arguments Raise {A} e.

#[export] Instance result_ret : MRet result := fun _ a => Ok a.
#[export] Instance result_bind : MBind result := fun _ _ f m =>
  match m with
  | Ok a => f a
  | Raise e => Raise e
  end.
#[export] Instance result_fmap : FMap result := fun _ _ f m =>
  match m with
  | Ok a => Ok (f a)
  | Raise e => Raise e
  end.

(** Python dicts keep insertion order: association lists. *)
Definition dict : Type := list (string * value).

Fixpoint dict_get (k : string) (d : dict) : option value :=
  match d with
  | [] => None
  | (k', v) :: d' => if decide (k = k') then Some v else dict_get k d'
  end.

(** [d[k]] *)
Definition getitem (k : string) (d : dict) : result value :=
  match dict_get k d with
  | Some v => Ok v
  | None => Raise (KeyError k)
  end.

(** [d[k] = v]: an existing key keeps its place, a new one goes last. *)
Fixpoint dict_set (k : string) (v : value) (d : dict) : dict :=
  match d with
  | [] => [(k, v)]
  | (k', v') :: d' =>
      if decide (k = k') then (k, v) :: d' else (k', v') :: dict_set k v d'
  end.

Definition keys (d : dict) : list string := d.*1.

(** Time order.  A [datetime.date] stands for its midnight. *)
Definition date_ltb (a b : date) : bool :=
  (year a <? year b)
  || ((year a =? year b)
      && ((month a <? month b)
          || ((month a =? month b) && (day a <? day b)))).

Definition date_eqb (a b : date) : bool :=
  (year a =? year b) && (month a =? month b) && (day a =? day b).

Definition instant : Type := date * Z.

Definition midnight (d : date) : instant := (d, 0).

Definition instant_ltb (a b : instant) : bool :=
  date_ltb a.1 b.1 || (date_eqb a.1 b.1 && (a.2 <? b.2)).

(** ** pandas *)

Record DataFrame : Type := {
  columns : list string;
  rows : list (Z * dict)        (* index label, cells by column name *)
}.

(** A [Series]: index labels and values. *)
Definition Series : Type := list (Z * value).

Module pd.

(** The cell of a row under a column; an absent entry reads as [NaN]. *)
Definition cell (c : string) (row : dict) : value :=
  default NaN (dict_get c row).

(** Column names in order of first appearance. *)
Fixpoint add_keys (cols ks : list string) : list string :=
  match ks with
  | [] => cols
  | k :: ks' => add_keys (if decide (k ∈ cols) then cols else cols ++ [k]) ks'
  end.

(** A row laid out on the given columns. *)
Definition reindex (cols : list string) (row : dict) : dict :=
  (fun c => (c, cell c row)) <$> cols.

(** [pd.DataFrame()] *)
Definition DataFrame_empty : DataFrame :=
  {| columns := []; rows := [] |}.

(** [pd.DataFrame(data)] for a list of dicts: one row per dict, labelled
    0, 1, ...; the columns are the keys in order of first appearance. *)
Definition DataFrame_of_records (data : list dict) : DataFrame :=
  let cols := foldl (fun cols d => add_keys cols (keys d)) [] data in
  {| columns := cols;
     rows := imap (fun i d => (Z.of_nat i, reindex cols d)) data |}.

(** [pd.DataFrame(d, index=index)] for a dict of scalars: every index
    label gets a row holding the scalars. *)
Definition DataFrame_of_scalars (d : dict) (index : list Z) : DataFrame :=
  {| columns := keys d; rows := (fun l => (l, d)) <$> index |}.

(** [pd.concat([a, b])]: rows of [a], then rows of [b], labels kept;
    outer join of the columns. *)
Definition concat (a b : DataFrame) : DataFrame :=
  let cols := add_keys (columns a) (columns b) in
  {| columns := cols;
     rows := (fun r => (r.1, reindex cols r.2)) <$> (rows a ++ rows b) |}.

(** [df.reset_index(drop=True)]: labels become positions. *)
Definition reset_index (df : DataFrame) : DataFrame :=
  {| columns := columns df;
     rows := imap (fun i r => (Z.of_nat i, r.2)) (rows df) |}.

(** [df.shape[0]] *)
Definition shape0 (df : DataFrame) : Z := Z.of_nat (length (rows df)).

(** [df[c]] *)
Definition column (c : string) (df : DataFrame) : result Series :=
  if decide (c ∈ columns df)
  then Ok ((fun r => (r.1, cell c r.2)) <$> rows df)
  else Raise (KeyError c).

(** [df[c] = vals], [vals] holding one value per row of [df], in row
    order (a Series computed from [df] itself has [df]'s labels, so
    that alignment on labels is alignment on positions). *)
Definition set_column (c : string) (vals : list value) (df : DataFrame)
  : DataFrame :=
  {| columns := if decide (c ∈ columns df) then columns df
                else columns df ++ [c];
     rows := zip_with (fun r v => (r.1, dict_set c v r.2)) (rows df) vals |}.

(** [df.assign(k1=f1, k2=f2, ...)]: the columns are set one after the
    other, each callable seeing the columns set before it. *)
Fixpoint assign (kwargs : list (string * (DataFrame → result (list value))))
    (df : DataFrame) : result DataFrame :=
  match kwargs with
  | [] => Ok df
  | (k, f) :: kwargs' =>
      vals ← f df;
      assign kwargs' (set_column k vals df)
  end.

(** [series / d] with a float [d] *)
Definition truediv (d : Q) (v : value) : result value :=
  match v with
  | Int z => Ok (Float (inject_Z z / d))
  | Float q => Ok (Float (q / d))
  | NaN => Ok NaN
  | _ => Raise TypeError
  end.

(** The expressions [df.query] is called with: comparisons of a
    datetime column with a local variable holding a date, joined by
    [and]. *)
Inductive expr : Type :=
| Lt (column : string) (local : date)
| Gt (column : string) (local : date)
| And (e1 e2 : expr).

(** A comparison with [NaT] is false; a cell that holds no time cannot
    be compared with a date. *)
Definition lt_date (v : value) (d : date) : result bool :=
  match v with
  | Timestamp d' ns => Ok (instant_ltb (d', ns) (midnight d))
  | NaT => Ok false
  | _ => Raise TypeError
  end.

Definition gt_date (v : value) (d : date) : result bool :=
  match v with
  | Timestamp d' ns => Ok (instant_ltb (midnight d) (d', ns))
  | NaT => Ok false
  | _ => Raise TypeError
  end.

(** Expressions are evaluated on whole columns. *)
Fixpoint eval (e : expr) (df : DataFrame) : result (list bool) :=
  match e with
  | Lt c d =>
      if decide (c ∈ columns df)
      then mapM (fun r : Z * dict => lt_date (cell c r.2) d) (rows df)
      else Raise (UndefinedVariableError c)
  | Gt c d =>
      if decide (c ∈ columns df)
      then mapM (fun r : Z * dict => gt_date (cell c r.2) d) (rows df)
      else Raise (UndefinedVariableError c)
  | And e1 e2 =>
      m1 ← eval e1 df;
      m2 ← eval e2 df;
      Ok (zip_with andb m1 m2)
  end.

(** The rows whose entry in the mask is true, in order. *)
Fixpoint select {A : Type} (l : list A) (mask : list bool) : list A :=
  match l, mask with
  | x :: l', b :: mask' => if b then x :: select l' mask' else select l' mask'
  | _, _ => []
  end.

(** [df.query(e)] *)
Definition query (e : expr) (df : DataFrame) : result DataFrame :=
  mask ← eval e df;
  Ok {| columns := columns df; rows := select (rows df) mask |}.

(** A numeric cell; [None] for [NaN]. *)
Definition number (v : value) : result (option Q) :=
  match v with
  | Float q => Ok (Some q)
  | Int z => Ok (Some (inject_Z z))
  | NaN => Ok None
  | _ => Raise TypeError
  end.

(** The label of the first entry that is smaller than all before it
    and not larger than any after it. *)
Fixpoint argmin (best : Z * Q) (s : list (Z * option Q)) : Z :=
  match s with
  | [] => best.1
  | (_, None) :: s' => argmin best s'
  | (l, Some q) :: s' =>
      if Qlt_le_dec q best.2 then argmin (l, q) s' else argmin best s'
  end.

Fixpoint first_number (s : list (Z * option Q)) : option ((Z * Q) * list (Z * option Q)) :=
  match s with
  | [] => None
  | (_, None) :: s' => first_number s'
  | (l, Some q) :: s' => Some ((l, q), s')
  end.

(** [series.idxmin()]: the label of the first minimum, [NaN] skipped;
    raises when there is nothing to take the minimum of. *)
Definition idxmin (s : Series) : result Z :=
  nums ← mapM (fun lv : Z * value => q ← number lv.2; Ok (lv.1, q)) s;
  match first_number nums with
  | Some (best, rest) => Ok (argmin best rest)
  | None => Raise ValueError
  end.

(** [df.iloc[i]]: the row at a position, counted from the end when
    negative, as a Series indexed by the columns. *)
Definition iloc (i : Z) (df : DataFrame) : result (Z * dict) :=
  let n := Z.of_nat (length (rows df)) in
  let pos := if i <? 0 then i + n else i in
  if (0 <=? pos) && (pos <? n)
  then match rows df !! Z.to_nat pos with
       | Some r => Ok (r.1, reindex (columns df) r.2)
       | None => Raise IndexError
       end
  else Raise IndexError.

(** [row.to_dict()] *)
Definition to_dict (row : Z * dict) : dict := row.2.

(** [df[[c1, c2, ...]]] *)
Definition getitem_columns (cs : list string) (df : DataFrame)
  : result DataFrame :=
  match list_find (fun c => c ∉ columns df) cs with
  | Some (_, c) => Raise (KeyError c)
  | None =>
      Ok {| columns := cs;
            rows := (fun r => (r.1, reindex cs r.2)) <$> rows df |}
  end.

(** [df.drop(labels, axis=1)] *)
Definition drop_columns (labels : list string) (df : DataFrame)
  : result DataFrame :=
  match list_find (fun c => c ∉ columns df) labels with
  | Some (_, c) => Raise (KeyError c)
  | None =>
      Ok {| columns := filter (fun c => c ∉ labels) (columns df);
            rows := (fun r : Z * dict =>
                       (r.1, filter (fun kv : string * value => kv.1 ∉ labels) r.2))
                    <$> rows df |}
  end.

(** Python's [list.insert] for a position within the list. *)
Definition list_insert_at {A : Type} (loc : nat) (x : A) (l : list A)
  : list A :=
  take loc l ++ x :: drop loc l.

(** [df.insert(loc, column, value)] with a scalar [value]: refuses a
    column that exists and a position past the last column. *)
Definition insert (loc : nat) (c : string) (v : value) (df : DataFrame)
  : result DataFrame :=
  if decide (c ∈ columns df) then Raise ValueError
  else if decide (loc ≤ length (columns df))%nat
  then Ok {| columns := list_insert_at loc c (columns df);
             rows := (fun r => (r.1, list_insert_at loc (c, v) r.2))
                     <$> rows df |}
  else Raise IndexError.

End pd.

(** ** The outside world *)

(** What the API answers.  The source reads
    [response.json()["features"]] and, of every feature,
    [row["properties"]]; an entry that is absent is [None] here. *)
Record feature : Type := { properties : option dict }.

Record body : Type := { features : option (list feature) }.

Inductive response : Type :=
| Unreachable               (* [requests.get] raises *)
| Undecodable               (* [response.json()] raises *)
| Json (b : body).

(** One call of [requests.get] and what came back. *)
Record exchange : Type := {
  url : string;
  params : dict;
  reply : response
}.

(** The libraries whose code is not part of the repository: the remote
    API behind [requests.get], [pd.to_datetime] on one cell, and geopy's
    [distance.distance(p, q).km]. *)
Class Externals : Type := {
  World : Type;
  requests_get : string → dict → World → response * World;
  to_datetime : value → result value;
  distance_km : Q * Q → value * value → result Q
}.

(** ** Program state and the monad of the embedding *)

Definition ref : Type := nat.

Record state `{Externals} : Type := {
  store : list DataFrame;       (* the frames alive, by reference *)
  world : World;
  trace : list exchange         (* the exchanges so far, oldest first *)
}.

(** How a call ends: it returns, it raises, the loop bound of the model
    is used up, or it was handed a reference to no frame. *)
Inductive outcome (A : Type) : Type :=
| Ret (a : A)
| Exn (e : exn)
| Timeout
| Dangling.
Arguments Ret {A} a.
Arguments Exn {A} e.
Arguments Timeout {A}.
Arguments Dangling {A}.

Definition M `{Externals} (A : Type) : Type := state → outcome A * state.

#[export] Instance M_ret `{Externals} : MRet M := fun _ a s => (Ret a, s).
#[export] Instance M_bind `{Externals} : MBind M := fun _ _ f m s =>
  match m s with
  | (Ret a, s') => f a s'
  | (Exn e, s') => (Exn e, s')
  | (Timeout, s') => (Timeout, s')
  | (Dangling, s') => (Dangling, s')
  end.

Section Program.
Context `{Externals}.

Definition lift {A : Type} (r : result A) : M A := fun s =>
  match r with
  | Ok a => (Ret a, s)
  | Raise e => (Exn e, s)
  end.

Definition timeout {A : Type} : M A := fun s => (Timeout, s).

Definition with_store (frames : list DataFrame) (s : state) : state :=
  {| store := frames; world := world s; trace := trace s |}.

(** A new frame object. *)
Definition new (df : DataFrame) : M ref := fun s =>
  (Ret (length (store s)), with_store (store s ++ [df]) s).

Definition load (r : ref) : M DataFrame := fun s =>
  match store s !! r with
  | Some df => (Ret df, s)
  | None => (Dangling, s)
  end.

(** The object behind [r] changes. *)
Definition save (r : ref) (df : DataFrame) : M unit := fun s =>
  (Ret (), with_store (<[r := df]> (store s)) s).

(** A method that leaves its frame alone and returns a new one. *)
Definition method (f : DataFrame → result DataFrame) (r : ref) : M ref :=
  df ← load r;
  df' ← lift (f df);
  new df'.

(** A method that changes its frame. *)
Definition method_inplace (f : DataFrame → result DataFrame) (r : ref)
  : M unit :=
  df ← load r;
  df' ← lift (f df);
  save r df'.

(** [requests.get(url, params=params)] *)
Definition get (url : string) (params : dict) : M response := fun s =>
  let (reply, w) := requests_get url params (world s) in
  let s' := {| store := store s; world := w;
               trace := trace s ++ [{| url := url; params := params; reply := reply |}] |} in
  match reply with
  | Unreachable => (Exn ConnectionError, s')
  | _ => (Ret reply, s')
  end.

(** [response.json()] *)
Definition json (r : response) : result body :=
  match r with
  | Json b => Ok b
  | Undecodable => Raise JSONDecodeError
  | Unreachable => Raise ConnectionError
  end.

Definition item {A : Type} (k : string) (o : option A) : result A :=
  match o with
  | Some a => Ok a
  | None => Raise (KeyError k)
  end.

(** [[row["properties"] for row in response.json()["features"]]] *)
Definition features_properties (r : response) : result (list dict) :=
  b ← json r;
  fs ← item "features" (features b);
  mapM (fun row => item "properties" (properties row)) fs.

(** Lines 41-44 and 136-137: the request and the properties of the
    features it returns. *)
Definition get_properties (url : string) (params : dict) : M (list dict) :=
  response ← get url params;
  lift (features_properties response).

(** [v + k] for an integer [k] *)
Definition add (k : Z) (v : value) : result value :=
  match v with
  | Int z => Ok (Int (z + k))
  | Float q => Ok (Float (q + inject_Z k))
  | NaN => Ok NaN
  | _ => Raise TypeError
  end.

Definition values (s : Series) : list value := s.*2.

(** [df.apply(f, axis=1)]: [f] is given every row in turn, as a Series
    indexed by the columns. *)
Definition apply_rows {A : Type} (f : (string → result value) → result A)
    (df : DataFrame) : result (list A) :=
  mapM (fun r : Z * dict =>
          f (fun c => if decide (c ∈ columns df) then Ok (pd.cell c r.2)
                      else Raise (KeyError c)))
       (rows df).

(** ** The source *)

Definition weather_api_url : string := "https://api.weather.gc.ca".

(** Lines 40-52, the [while True] loop; [fuel] bounds the number of
    pages. *)
Fixpoint scrape_pages (fuel : nat) (query_url : string) (params : dict)
    (all_weather_stations : ref) : M ref :=
  match fuel with
  | O => timeout
  | S fuel' =>
      weather_stations ← get_properties query_url params;
      weather_stations ← new (pd.DataFrame_of_records weather_stations);
      all_weather_stations ←
        (a ← load all_weather_stations;
         b ← load weather_stations;
         new (pd.concat a b));
      n ← (df ← load weather_stations; mret (pd.shape0 df));
      if decide (n = 500)
      then
        startindex ← lift (getitem "startindex" params ≫= add 500);
        scrape_pages fuel' query_url (dict_set "startindex" startindex params)
          all_weather_stations
      else mret all_weather_stations
  end.

(** Lines 36-52, the loop over the provinces. *)
Fixpoint scrape_provinces (fuel : nat) (query_url : string)
    (provinces : list string) (all_weather_stations : ref) : M ref :=
  match provinces with
  | [] => mret all_weather_stations
  | province :: provinces' =>
      let params := [("f", Str "json"); ("ENG_PROV_NAME", Str province);
                     ("startindex", Int 1)] in
      all_weather_stations ←
        scrape_pages fuel query_url params all_weather_stations;
      scrape_provinces fuel query_url provinces' all_weather_stations
  end.

(** Lines 33-54: all pages of all provinces in one frame, relabelled. *)
Definition scrape_all (fuel : nat) (provinces : list string) : M ref :=
  let query_url := weather_api_url +:+ "/collections/climate-stations/items" in
  all_weather_stations ← new pd.DataFrame_empty;
  all_weather_stations ←
    scrape_provinces fuel query_url provinces all_weather_stations;
  method_inplace (fun df => Ok (pd.reset_index df)) all_weather_stations;;
  mret all_weather_stations.

(** Lines 56-64, "Fix some column types". *)
Definition fix_column_types (all_weather_stations : ref) : M ref :=
  method
    (pd.assign
       [("LONGITUDE", fun x => pd.column "LONGITUDE" x ≫= fun s => mapM (pd.truediv 10e6) (values s));
        ("LATITUDE", fun x => pd.column "LATITUDE" x ≫= fun s => mapM (pd.truediv 10e6) (values s));
        ("DLY_FIRST_DATE", fun x => pd.column "DLY_FIRST_DATE" x ≫= fun s => mapM to_datetime (values s));
        ("DLY_LAST_DATE", fun x => pd.column "DLY_LAST_DATE" x ≫= fun s => mapM to_datetime (values s));
        ("FIRST_DATE", fun x => pd.column "FIRST_DATE" x ≫= fun s => mapM to_datetime (values s));
        ("LAST_DATE", fun x => pd.column "LAST_DATE" x ≫= fun s => mapM to_datetime (values s))])
    all_weather_stations.

Definition scrape_weather_stations (fuel : nat)
    (provinces : string + list string) : M ref :=
  let provinces :=
    match provinces with
    | inl province => [province]
    | inr provinces => provinces
    end in
  all_weather_stations ← scrape_all fuel provinces;
  all_weather_stations ← fix_column_types all_weather_stations;
  mret all_weather_stations.

Definition closest_weather_station (latitude longitude : Q) (date_ : date)
    (weather_stations : ref) : M dict :=
  weather_stations ←
    method (pd.query (pd.And (pd.Lt "FIRST_DATE" date_)
                             (pd.Gt "LAST_DATE" date_)))
      weather_stations;
  weather_stations ←
    method (fun df => Ok (pd.reset_index df)) weather_stations;
  distances ←
    (df ← load weather_stations;
     lift (apply_rows (A := Q)
             (fun x =>
                lat ← x "LATITUDE";
                lon ← x "LONGITUDE";
                distance_km (latitude, longitude) (lat, lon))
             df));
  weather_stations ←
    method (pd.assign [("DISTANCE_WEATHER_STATION_KM",
                        fun _ => Ok (Float <$> distances))])
      weather_stations;
  df ← load weather_stations;
  closest_station ←
    lift (s ← pd.column "DISTANCE_WEATHER_STATION_KM" df;
          i ← pd.idxmin s;
          pd.to_dict <$> pd.iloc i df);
  mret closest_station.

Definition weather_data (latitude longitude : Q) (date_ : date)
    (weather_stations : ref) : M ref :=
  closest_station ←
    closest_weather_station latitude longitude date_ weather_stations;
  let query_url := weather_api_url +:+ "/collections/climate-daily/items" in
  climate_identifier ← lift (getitem "CLIMATE_IDENTIFIER" closest_station);
  let params := [("f", Str "json");
                 ("CLIMATE_IDENTIFIER", climate_identifier);
                 ("LOCAL_DAY", Int (day date_));
                 ("LOCAL_MONTH", Int (month date_));
                 ("LOCAL_YEAR", Int (year date_))] in
  weather_list ← get_properties query_url params;
  if decide (length weather_list = 0%nat)
  then
    weather ← new (pd.DataFrame_of_scalars closest_station [0]);
    weather ←
      method (pd.getitem_columns
                ["STATION_NAME"; "STN_ID"; "CLIMATE_IDENTIFIER";
                 "DISTANCE_WEATHER_STATION_KM"])
        weather;
    mret weather
  else
    weather ← new (pd.DataFrame_of_records weather_list);
    weather ←
      method (pd.drop_columns
                ["LOCAL_DATE"; "LOCAL_DAY"; "LOCAL_MONTH"; "LOCAL_YEAR";
                 "ID"; "PROVINCE_CODE"])
        weather;
    distance ← lift (getitem "DISTANCE_WEATHER_STATION_KM" closest_station);
    method_inplace (pd.insert 1 "DISTANCE_WEATHER_STATION_KM" distance) weather;;
    stn_id ← lift (getitem "STN_ID" closest_station);
    method_inplace (pd.insert 1 "STN_ID" stn_id) weather;;
    mret weather.

End Program.

(** ** Vocabulary of the properties *)

(** A time before, and a time after, the midnight that opens a date. *)
Definition before (date_ : date) (v : value) : bool :=
  match v with
  | Timestamp d n => instant_ltb (d, n) (midnight date_)
  | _ => false
  end.

Definition after (date_ : date) (v : value) : bool :=
  match v with
  | Timestamp d n => instant_ltb (midnight date_) (d, n)
  | _ => false
  end.

(** "first-date < query date < last-date": both cells hold a time, the
    first one before the query date, the last one after it. *)
Definition eligible (date_ : date) (row : dict) : bool :=
  before date_ (pd.cell "FIRST_DATE" row)
  && after date_ (pd.cell "LAST_DATE" row).

(** The eligible stations of a catalog, in catalog order. *)
Definition eligible_stations (date_ : date) (catalog : DataFrame)
  : list (Z * dict) :=
  filter (fun r : Z * dict => eligible date_ r.2) (rows catalog).

(** A cell of a datetime column. *)
Definition is_time (v : value) : Prop :=
  match v with
  | Timestamp _ _ | NaT => True
  | _ => False
  end.

(** A catalog [df.query] can filter on its two date columns. *)
Definition dated (catalog : DataFrame) : Prop :=
  "FIRST_DATE" ∈ columns catalog ∧ "LAST_DATE" ∈ columns catalog
  ∧ Forall (fun r : Z * dict =>
              is_time (pd.cell "FIRST_DATE" r.2)
              ∧ is_time (pd.cell "LAST_DATE" r.2))
      (rows catalog).

(** The record the resolver hands back for a station at distance [q]:
    the station's cells, then the distance. *)
Definition with_distance (catalog : DataFrame) (station : dict) (q : Q)
  : dict :=
  pd.reindex
    (if decide ("DISTANCE_WEATHER_STATION_KM" ∈ columns catalog)
     then columns catalog
     else columns catalog ++ ["DISTANCE_WEATHER_STATION_KM"])
    (dict_set "DISTANCE_WEATHER_STATION_KM" (Float q) station).

(** The columns of the fallback record, and the columns taken out of
    the observations. *)
Definition fallback_columns : list string :=
  ["STATION_NAME"; "STN_ID"; "CLIMATE_IDENTIFIER";
   "DISTANCE_WEATHER_STATION_KM"].

Definition redundant_columns : list string :=
  ["LOCAL_DATE"; "LOCAL_DAY"; "LOCAL_MONTH"; "LOCAL_YEAR"; "ID";
   "PROVINCE_CODE"].

(** The query [weather_data] sends for a station and a date. *)
Definition daily_params (climate_identifier : value) (date_ : date) : dict :=
  [("f", Str "json");
   ("CLIMATE_IDENTIFIER", climate_identifier);
   ("LOCAL_DAY", Int (day date_));
   ("LOCAL_MONTH", Int (month date_));
   ("LOCAL_YEAR", Int (year date_))].

Definition daily_url : string :=
  "https://api.weather.gc.ca/collections/climate-daily/items".

(** The query [scrape_weather_stations] sends for a province and a
    start index, and where it sends it. *)
Definition station_params (province : string) (startindex : Z) : dict :=
  [("f", Str "json"); ("ENG_PROV_NAME", Str province);
   ("startindex", Int startindex)].

Definition stations_url : string :=
  "https://api.weather.gc.ca/collections/climate-stations/items".

(** A collection of [records] served in pages of 500: the page that
    starts at the 1-based [startindex], and the answer that carries it. *)
Definition page (records : list dict) (startindex : Z) : list dict :=
  take 500 (drop (Z.to_nat (startindex - 1)) records).

Definition page_reply (records : list dict) (startindex : Z) : response :=
  Json {| features :=
            Some ((fun d => {| properties := Some d |})
                  <$> page records startindex) |}.

(** The start indexes of the first [n] pages: 1, 501, 1001, ... *)
Definition start_indexes (n : nat) : list Z :=
  (fun k => 1 + 500 * Z.of_nat k) <$> seq 0 n.

(** The columns [pd.DataFrame] gives a list of records. *)
Definition columns_of (records : list dict) : list string :=
  foldl (fun cols d => pd.add_keys cols (keys d)) [] records.

(** A frame that holds [records], in order, under whatever labels. *)
Definition holds (records : list dict) (df : DataFrame) : Prop :=
  columns df = columns_of records
  ∧ (rows df).*2 = pd.reindex (columns_of records) <$> records.

Section Vocabulary.
Context `{Externals}.

(** The API serves [records] in pages, whatever its state. *)
Definition serves (records : list dict) : Prop :=
  ∀ url province startindex w,
    (requests_get url (station_params province startindex) w).1
    = page_reply records startindex.

(** The state after one exchange. *)
Definition exchanged (url : string) (params : dict) (s : state) : state :=
  {| store := store s;
     world := (requests_get url params (world s)).2;
     trace := trace s ++ [{| url := url; params := params;
                             reply := (requests_get url params (world s)).1 |}] |}.

(** The records an exchange would bring from state [s]. *)
Definition answer (url : string) (params : dict) (s : state)
  : result (list dict) :=
  features_properties (requests_get url params (world s)).1.

(** A computation that only adds frames to the store: whatever it was
    handed is found again, unchanged, at the same reference. *)
Definition allocates {A : Type} (m : M A) : Prop :=
  ∀ s, store s `prefix_of` store (m s).2.

(** The distance, as the resolver computes it, from a point to a
    station of the catalog. *)
Definition station_distance (latitude longitude : Q) (station : dict)
  : result Q :=
  distance_km (latitude, longitude)
    (pd.cell "LATITUDE" station, pd.cell "LONGITUDE" station).

(** What the resolver computes from the catalog it is handed: lines
    85-104 read as one expression in the frame behind [weather_stations]. *)
Definition nearest (latitude longitude : Q) (date_ : date)
    (catalog : DataFrame) : result dict :=
  selected ← pd.query (pd.And (pd.Lt "FIRST_DATE" date_)
                              (pd.Gt "LAST_DATE" date_)) catalog;
  let selected := pd.reset_index selected in
  distances ← apply_rows (A := Q)
                (fun x => lat ← x "LATITUDE"; lon ← x "LONGITUDE";
                          distance_km (latitude, longitude) (lat, lon))
                selected;
  selected ← pd.assign [("DISTANCE_WEATHER_STATION_KM",
                         fun _ => Ok (Float <$> distances))] selected;
  s ← pd.column "DISTANCE_WEATHER_STATION_KM" selected;
  i ← pd.idxmin s;
  pd.to_dict <$> pd.iloc i selected.

(** The exception an exchange makes the caller raise, if any: the
    request failed, or its answer cannot be decoded into records. *)
Definition failure (x : exchange) : option exn :=
  match features_properties (reply x) with
  | Ok _ => None
  | Raise e => Some e
  end.

(** A computation that does not survive a failed exchange: the
    exchanges it adds to the trace all succeeded, or all but the last
    did and the exception of the last is its outcome. *)
Definition guarded {A : Type} (m : M A) : Prop :=
  ∀ s, ∃ new,
    trace (m s).2 = trace s ++ new
    ∧ (Forall (fun x => failure x = None) new
       ∨ ∃ pre x e,
           new = pre ++ [x]
           ∧ Forall (fun x => failure x = None) pre
           ∧ failure x = Some e
           ∧ (m s).1 = Exn e).

(** One keyword of [fix_column_types] at work on one row: the cell
    under [c] is replaced by what [f] makes of it. *)
Definition cell_mapped (c : string) (f : value → result value)
    (raw row : Z * dict) : Prop :=
  row.1 = raw.1
  ∧ ∃ v, f (pd.cell c raw.2) = Ok v ∧ row.2 = dict_set c v raw.2.

(** A station record as fetched and as returned: both coordinates
    divided by 10,000,000, the four dates parsed, every other cell
    kept. *)
Definition fixed (raw row : Z * dict) : Prop :=
  row.1 = raw.1
  ∧ pd.truediv 10000000 (pd.cell "LONGITUDE" raw.2)
    = Ok (pd.cell "LONGITUDE" row.2)
  ∧ pd.truediv 10000000 (pd.cell "LATITUDE" raw.2)
    = Ok (pd.cell "LATITUDE" row.2)
  ∧ to_datetime (pd.cell "DLY_FIRST_DATE" raw.2)
    = Ok (pd.cell "DLY_FIRST_DATE" row.2)
  ∧ to_datetime (pd.cell "DLY_LAST_DATE" raw.2)
    = Ok (pd.cell "DLY_LAST_DATE" row.2)
  ∧ to_datetime (pd.cell "FIRST_DATE" raw.2)
    = Ok (pd.cell "FIRST_DATE" row.2)
  ∧ to_datetime (pd.cell "LAST_DATE" raw.2)
    = Ok (pd.cell "LAST_DATE" row.2)
  ∧ ∀ c, c ∉ ["LONGITUDE"; "LATITUDE"; "DLY_FIRST_DATE"; "DLY_LAST_DATE";
              "FIRST_DATE"; "LAST_DATE"] →
         pd.cell c row.2 = pd.cell c raw.2.

(** A raised exception as the outcome of a call. *)
Definition outcome_of {A : Type} (r : result A) : outcome A :=
  match r with
  | Ok a => Ret a
  | Raise e => Exn e
  end.

End Vocabulary.

(** ** Vocabulary of the further properties *)

(** A request for a page of the stations of one of the [provinces]:
    it goes to the station collection, asks for JSON, names the
    province, and starts at 1, 501, 1001, ... *)
Definition station_request (provinces : list string) (x : exchange) : Prop :=
  url x = stations_url
  ∧ ∃ (province : string) (k : nat),
      province ∈ provinces
      ∧ params x = station_params province (1 + 500 * Z.of_nat k).

(** The requests that fetch [n] records of [province]: one per page up
    to the first short one. *)
Definition province_requests (province : string) (n : nat) : list dict :=
  station_params province <$> start_indexes (n / 500 + 1).

(** The columns [scrape_weather_stations] computes anew. *)
Definition fixed_columns : list string :=
  ["LONGITUDE"; "LATITUDE"; "DLY_FIRST_DATE"; "DLY_LAST_DATE";
   "FIRST_DATE"; "LAST_DATE"].

(** A cell of a float column. *)
Definition is_float (v : value) : Prop :=
  match v with
  | Float _ | NaN => True
  | _ => False
  end.

Section VocabularyOfRuns.
Context `{Externals}.

(** A computation that makes no request: the trace and the API are as
    they were. *)
Definition silent {A : Type} (m : M A) : Prop :=
  ∀ s, trace (m s).2 = trace s ∧ world (m s).2 = world s.

(** A computation all of whose requests satisfy [P]. *)
Definition asks {A : Type} (P : exchange → Prop) (m : M A) : Prop :=
  ∀ s, ∃ new, trace (m s).2 = trace s ++ new ∧ Forall P new.

(** The API serves, for every province, the records [records] gives
    it, in pages, whatever its state. *)
Definition serves_by (records : string → list dict) : Prop :=
  ∀ url province startindex w,
    (requests_get url (station_params province startindex) w).1
    = page_reply (records province) startindex.

(** A computation that leaves the first [n] frames of the store as
    they are. *)
Definition keeps {A : Type} (n : nat) (m : M A) : Prop :=
  ∀ s, (n ≤ length (store s))%nat →
       take n (store (m s).2) = take n (store s)
       ∧ (n ≤ length (store (m s).2))%nat.

(** A computation whose result, a reference, is none of the first [n]
    frames. *)
Definition fresh (n : nat) (m : M ref) : Prop :=
  ∀ s r, (n ≤ length (store s))%nat → (m s).1 = Ret r → (n ≤ r)%nat.

End VocabularyOfRuns.

(** ** Fixtures *)

(** Stand-ins for the libraries, simple enough to run.  The distance
    between two points is counted along a meridian and a parallel; a
    raw date is a year number and is read as the first of January. *)
Definition grid_km (p : Q * Q) (q : value * value) : result Q :=
  match q with
  | (Float lat, Float lon) => Ok (Qabs (p.1 - lat) + Qabs (p.2 - lon))%Q
  | _ => Raise ValueError
  end.

Definition new_year (y : Z) : date := {| year := y; month := 1; day := 1 |}.

Definition year_to_datetime (v : value) : result value :=
  match v with
  | Int y => Ok (Timestamp (new_year y) 0)
  | NaN | NaT => Ok NaT
  | Timestamp d ns => Ok (Timestamp d ns)
  | _ => Raise ValueError
  end.

(** An API without state that answers as [serve] says. *)
Definition offline (serve : string → dict → response) : Externals :=
  {| World := unit;
     requests_get := fun url params w => (serve url params, w);
     to_datetime := year_to_datetime;
     distance_km := grid_km |}.

(** The station collection holding [records], served in pages. *)
Definition stations_api (records : list dict) (url : string) (params : dict)
  : response :=
  match dict_get "startindex" params with
  | Some (Int startindex) => page_reply records startindex
  | _ => Undecodable
  end.

(** A station as the API lists it. *)
Definition raw_station (i : Z) : dict :=
  [("STN_ID", Int i);
   ("STATION_NAME", Str "OTTAWA");
   ("CLIMATE_IDENTIFIER", Str "6105976");
   ("LONGITUDE", Int (-757000000 + i));
   ("LATITUDE", Int 454000000);
   ("FIRST_DATE", Int 1990);
   ("LAST_DATE", Int 2020);
   ("DLY_FIRST_DATE", Int 1991);
   ("DLY_LAST_DATE", Int 2019)].

Definition raw_stations (n : nat) : list dict :=
  (fun i => raw_station (Z.of_nat i)) <$> seq 0 n.

(** A station of a catalog. *)
Definition station (id : Z) (latitude longitude : Q) (first last : Z) : dict :=
  [("STN_ID", Int id);
   ("STATION_NAME", Str "STATION");
   ("CLIMATE_IDENTIFIER", Str "6105976");
   ("LATITUDE", Float latitude);
   ("LONGITUDE", Float longitude);
   ("FIRST_DATE", Timestamp (new_year first) 0);
   ("LAST_DATE", Timestamp (new_year last) 0)].

(** Four stations around the point (45, -75).  On the first of January
    2000 the nearest one, station 1, opens that very day; stations 2
    and 3 are open and at the same distance; station 4 is open and
    farther. *)
Definition sample_catalog : DataFrame :=
  pd.DataFrame_of_records
    [station 1 45 (-75) 2000 2010;
     station 2 46 (-76) 1990 2010;
     station 3 44 (-74) 1990 2010;
     station 4 48 (-75) 1990 2010].

(** Stations none of which is open on the first of January 2000: one
    opens and one closes that day. *)
Definition boundary_catalog : DataFrame :=
  pd.DataFrame_of_records
    [station 1 45 (-75) 2000 2010;
     station 2 46 (-76) 1990 2000].

(** A daily observation as the API lists it. *)
Definition observation : dict :=
  [("STATION_NAME", Str "STATION");
   ("CLIMATE_IDENTIFIER", Str "6105976");
   ("ID", Str "6105976.2000.1.1");
   ("LOCAL_DATE", Str "2000-01-01 00:00:00");
   ("PROVINCE_CODE", Str "ON");
   ("LOCAL_YEAR", Int 2000);
   ("LOCAL_MONTH", Int 1);
   ("LOCAL_DAY", Int 1);
   ("MEAN_TEMPERATURE", Float (-12.5));
   ("TOTAL_PRECIPITATION", Float 0.4)].

Definition daily_api (observations : list dict) (url : string)
    (params : dict) : response :=
  Json {| features :=
            Some ((fun d => {| properties := Some d |}) <$> observations) |}.

(** An API whose second page of stations does not decode. *)
Definition failing_api (url : string) (params : dict) : response :=
  match dict_get "startindex" params with
  | Some (Int 1) => page_reply (raw_stations 500) 1
  | _ => Undecodable
  end.

(** The stations of [sample_catalog] the resolver selects from on the
    first of January 2000. *)
Definition sample_selected : DataFrame :=
  {| columns := columns sample_catalog;
     rows := eligible_stations (new_year 2000) sample_catalog |}.

(** The record the resolver returns for the point (45, -75) on that
    day: station 2, two units away. *)
Definition sample_nearest : dict :=
  with_distance sample_catalog (station 2 46 (-76) 1990 2010) 2.

(** The least number of pages of 500 that hold [n] records. *)
Definition pages_needed (n : nat) : nat := ((n + 499) / 500)%nat.

(** The program state at the start: the frames given, no exchange yet. *)
Definition initial (serve : string → dict → response)
    (frames : list DataFrame) : state (H := offline serve) :=
  {| store := frames; world := (tt : World (Externals := offline serve));
     trace := [] |}.

(** An API that holds the stations of each province. *)
Definition provinces_api (records : string → list dict) (url : string)
    (params : dict) : response :=
  match dict_get "ENG_PROV_NAME" params, dict_get "startindex" params with
  | Some (Str province), Some (Int startindex) =>
      page_reply (records province) startindex
  | _, _ => Undecodable
  end.

(** The stations of two provinces; the API lists none for the others. *)
Definition by_province (province : string) : list dict :=
  if bool_decide (province = "ONTARIO") then raw_stations 2
  else if bool_decide (province = "QUEBEC") then raw_stations 1
  else [].

Definition nowhere (province : string) : list dict := [].

(** [sample_catalog] as a caller may have left it after filtering and
    sorting: the same records in the same order under other labels. *)
Definition relabelled_catalog : DataFrame :=
  {| columns := columns sample_catalog;
     rows := (fun r : Z * dict => (10 * r.1 + 7, r.2))
             <$> rows sample_catalog |}.

(** Catalogs that miss a column the code reads: the dates, the
    latitude, the climate identifier. *)
Definition undated_catalog : DataFrame :=
  pd.DataFrame_of_records
    [[("STN_ID", Int 1); ("LATITUDE", Float 45); ("LONGITUDE", Float (-75))]].

Definition unplaced_catalog : DataFrame :=
  pd.DataFrame_of_records
    [[("STN_ID", Int 1); ("LONGITUDE", Float (-75));
      ("FIRST_DATE", Timestamp (new_year 1990) 0);
      ("LAST_DATE", Timestamp (new_year 2010) 0)]].

Definition unnamed_catalog : DataFrame :=
  pd.DataFrame_of_records
    [[("STN_ID", Int 1); ("LATITUDE", Float 46); ("LONGITUDE", Float (-76));
      ("FIRST_DATE", Timestamp (new_year 1990) 0);
      ("LAST_DATE", Timestamp (new_year 2010) 0)]].

(** Observations [weather_data] cannot lay out: one without a province
    code, one that already names its station. *)
Definition partial_observation : dict :=
  [("STATION_NAME", Str "STATION");
   ("ID", Str "6105976.2000.1.1");
   ("LOCAL_DATE", Str "2000-01-01 00:00:00");
   ("LOCAL_YEAR", Int 2000);
   ("LOCAL_MONTH", Int 1);
   ("LOCAL_DAY", Int 1);
   ("MEAN_TEMPERATURE", Float (-12.5))].

Definition labelled_observation : dict :=
  ("STN_ID", Int 2) :: observation.

(** [sample_catalog] without the station that opens on the first of
    January 2000. *)
Definition open_catalog : DataFrame :=
  pd.DataFrame_of_records
    [station 2 46 (-76) 1990 2010;
     station 3 44 (-74) 1990 2010;
     station 4 48 (-75) 1990 2010].

(** A catalog whose stations have no name. *)
Definition nameless_catalog : DataFrame :=
  pd.DataFrame_of_records
    [[("STN_ID", Int 1); ("CLIMATE_IDENTIFIER", Str "6105976");
      ("LATITUDE", Float 46); ("LONGITUDE", Float (-76));
      ("FIRST_DATE", Timestamp (new_year 1990) 0);
      ("LAST_DATE", Timestamp (new_year 2010) 0)]].

(** * Properties *)

Section Frame.
Context `{Externals}.

Lemma allocates_ret {A : Type} (a : A) : allocates (mret a).
Proof. intros s. reflexivity. Qed.

Lemma allocates_bind {A B : Type} (m : M A) (f : A → M B) :
  allocates m → (∀ a, allocates (f a)) → allocates (m ≫= f).
Proof.
  intros Hm Hf s. specialize (Hm s).
  unfold mbind, M_bind. destruct (m s) as [[a|e| |] s1]; simpl in *; try done.
  etrans; [exact Hm | apply Hf].
Qed.

Lemma allocates_lift {A : Type} (r : result A) : allocates (lift r).
Proof. intros s. unfold lift. by destruct r. Qed.

Lemma allocates_new (df : DataFrame) : allocates (new df).
Proof. intros s. simpl. by apply prefix_app_r. Qed.

Lemma allocates_load (r : ref) : allocates (load r).
Proof. intros s. unfold load. by destruct (store s !! r). Qed.

Lemma allocates_method (f : DataFrame → result DataFrame) (r : ref) :
  allocates (method f r).
Proof.
  unfold method.
  apply allocates_bind; [apply allocates_load | intros df].
  apply allocates_bind; [apply allocates_lift | intros df'].
  apply allocates_new.
Qed.

Lemma closest_weather_station_allocates latitude longitude date_ r :
  allocates (closest_weather_station latitude longitude date_ r).
Proof.
  unfold closest_weather_station.
  repeat first
    [ apply allocates_method | apply allocates_load | apply allocates_lift
    | apply allocates_ret | apply allocates_bind; [| intros ?] ].
Qed.

(** C10. After [closest_weather_station] has returned or failed, the
    frame the caller passed in is the frame it was before the call:
    the same columns and the same rows with the same cells. *)
Theorem closest_weather_station_keeps_catalog
    (latitude longitude : Q) (date_ : date) (weather_stations : ref)
    (s : state) (catalog : DataFrame) :
  store s !! weather_stations = Some catalog →
  store (closest_weather_station latitude longitude date_ weather_stations s).2
    !! weather_stations = Some catalog.
Proof.
  intros Hcat.
  eapply prefix_lookup_Some; [exact Hcat |].
  apply closest_weather_station_allocates.
Qed.

End Frame.

(** ** pandas: filtering on the date columns *)

Section Query.

Lemma mapM_Ok {A B : Type} (f : A → result B) (g : A → B) (l : list A) :
  (∀ x, x ∈ l → f x = Ok (g x)) → mapM f l = Ok (g <$> l).
Proof.
  induction l as [|x l IH]; intros Hf; [done|].
  cbn. rewrite (Hf x) by left. cbn.
  rewrite IH; [done|]. intros y Hy. apply Hf. by right.
Qed.

Lemma mapM_Ok_inv {A B : Type} (f : A → result B) (l : list A) (k : list B) :
  mapM f l = Ok k → Forall2 (fun x y => f x = Ok y) l k.
Proof.
  revert k. induction l as [|x l IH]; intros k Hk; cbn in Hk.
  - injection Hk as <-. constructor.
  - destruct (f x) as [y|] eqn:Hx; cbn in Hk; [|done].
    destruct (mapM f l) as [k'|]; cbn in Hk; [|done].
    injection Hk as <-. constructor; auto.
Qed.

Lemma mapM_Raise {A B : Type} (f : A → result B) (l : list A) (e : exn) :
  mapM f l = Raise e → ∃ x, x ∈ l ∧ f x = Raise e.
Proof.
  induction l as [|x l IH]; intros Hk; cbn in Hk; [done|].
  destruct (f x) as [y|e'] eqn:Hx; cbn in Hk.
  - destruct (mapM f l) as [k'|e'']; cbn in Hk; [done|].
    injection Hk as ->. destruct IH as (z & Hz & Hfz); [done|].
    exists z. split; [by right | done].
  - injection Hk as ->. exists x. split; [by left | done].
Qed.

Lemma select_fmap {A : Type} (p : A → bool) (l : list A) :
  pd.select l (p <$> l) = filter (fun x => p x) l.
Proof.
  induction l as [|x l IH]; [done|].
  rewrite filter_cons, <- IH, fmap_cons. simpl.
  destruct (p x); by case_decide.
Qed.

Lemma lt_date_time (date_ : date) (v : value) :
  is_time v → pd.lt_date v date_ = Ok (before date_ v).
Proof. by destruct v. Qed.

Lemma gt_date_time (date_ : date) (v : value) :
  is_time v → pd.gt_date v date_ = Ok (after date_ v).
Proof. by destruct v. Qed.

(** On a catalog with well-typed date columns the query of the
    resolver keeps the eligible rows, in order. *)
Lemma query_dated (date_ : date) (catalog : DataFrame) :
  dated catalog →
  pd.query (pd.And (pd.Lt "FIRST_DATE" date_) (pd.Gt "LAST_DATE" date_))
    catalog
  = Ok {| columns := columns catalog;
          rows := eligible_stations date_ catalog |}.
Proof.
  intros (Hfirst & Hlast & Hcells). rewrite Forall_forall in Hcells.
  unfold pd.query. cbn [pd.eval].
  rewrite !decide_True by done.
  rewrite (mapM_Ok (fun r : Z * dict =>
                      pd.lt_date (pd.cell "FIRST_DATE" r.2) date_)
             (fun r => before date_ (pd.cell "FIRST_DATE" r.2)))
    by (intros r Hr; apply lt_date_time, Hcells, Hr).
  rewrite (mapM_Ok (fun r : Z * dict =>
                      pd.gt_date (pd.cell "LAST_DATE" r.2) date_)
             (fun r => after date_ (pd.cell "LAST_DATE" r.2)))
    by (intros r Hr; apply gt_date_time, Hcells, Hr).
  cbn. do 2 f_equal.
  rewrite zip_with_fmap_l, zip_with_fmap_r, zip_with_diag, select_fmap.
  done.
Qed.

(** A query that returns has kept the eligible rows, whatever the
    catalog. *)
Lemma query_Ok (date_ : date) (catalog df : DataFrame) :
  pd.query (pd.And (pd.Lt "FIRST_DATE" date_) (pd.Gt "LAST_DATE" date_))
    catalog = Ok df →
  df = {| columns := columns catalog;
          rows := eligible_stations date_ catalog |}.
Proof.
  intros Hq. rewrite query_dated in Hq; [congruence|].
  unfold pd.query in Hq. cbn [pd.eval] in Hq.
  destruct (decide ("FIRST_DATE" ∈ columns catalog)); [|done].
  destruct (decide ("LAST_DATE" ∈ columns catalog));
    [| by destruct (mapM _ _)].
  split_and!; [done..|]. apply Forall_forall. intros r Hr.
  destruct (mapM (fun r => pd.lt_date _ _) _) as [m1|] eqn:H1; [|done].
  destruct (mapM (fun r => pd.gt_date _ _) _) as [m2|] eqn:H2; [|done].
  apply mapM_Ok_inv in H1, H2.
  apply list_elem_of_lookup in Hr as [i Hi].
  destruct (Forall2_lookup_l _ _ _ _ _ H1 Hi) as (b1 & _ & Hb1).
  destruct (Forall2_lookup_l _ _ _ _ _ H2 Hi) as (b2 & _ & Hb2).
  cbn in Hb1, Hb2. split.
  - by destruct (pd.cell "FIRST_DATE" r.2).
  - by destruct (pd.cell "LAST_DATE" r.2).
Qed.

End Query.

(** ** Running the monad *)

Section Run.
Context `{Externals}.

Lemma bind_run {A B : Type} (m : M A) (f : A → M B) (s s1 : state) (a : A) :
  m s = (Ret a, s1) → (m ≫= f) s = f a s1.
Proof. intros Hm. unfold mbind, M_bind. by rewrite Hm. Qed.

Lemma bind_exn {A B : Type} (m : M A) (f : A → M B) (s s1 : state) (e : exn) :
  m s = (Exn e, s1) → (m ≫= f) s = (Exn e, s1).
Proof. intros Hm. unfold mbind, M_bind. by rewrite Hm. Qed.

Lemma run_load (r : ref) (s : state) (df : DataFrame) :
  store s !! r = Some df → load r s = (Ret df, s).
Proof. intros Hr. unfold load. by rewrite Hr. Qed.

Lemma run_method (f : DataFrame → result DataFrame) (r : ref) (s : state)
    (df df' : DataFrame) :
  store s !! r = Some df → f df = Ok df' →
  method f r s = (Ret (length (store s)), with_store (store s ++ [df']) s).
Proof.
  intros Hr Hf. unfold method.
  rewrite (bind_run _ _ _ _ _ (run_load _ _ _ Hr)).
  unfold mbind, M_bind, lift. by rewrite Hf.
Qed.

Lemma run_method_raise (f : DataFrame → result DataFrame) (r : ref)
    (s : state) (df : DataFrame) (e : exn) :
  store s !! r = Some df → f df = Raise e → method f r s = (Exn e, s).
Proof.
  intros Hr Hf. unfold method.
  rewrite (bind_run _ _ _ _ _ (run_load _ _ _ Hr)).
  unfold mbind, M_bind, lift. by rewrite Hf.
Qed.

Lemma lookup_new (s : state) (df : DataFrame) :
  store (with_store (store s ++ [df]) s) !! length (store s) = Some df.
Proof. simpl. by rewrite list_lookup_middle. Qed.

(** The first frame a computation allocates stays where it is when
    the rest of the computation allocates only. *)
Lemma first_frame {B : Type} (f : DataFrame → result DataFrame) (r : ref)
    (rest : ref → M B) (s : state) (df df' : DataFrame) :
  store s !! r = Some df →
  (∀ a, allocates (rest a)) →
  store ((method f r ≫= rest) s).2 !! length (store s) = Some df' →
  f df = Ok df'.
Proof.
  intros Hr Hrest Hlook.
  destruct (f df) as [d|e] eqn:Hf.
  - rewrite (bind_run _ _ _ _ _ (run_method _ _ _ _ _ Hr Hf)) in Hlook.
    pose proof (prefix_lookup_Some _ _ _ _ (lookup_new s d)
                  (Hrest (length (store s)) _)) as Hd.
    congruence.
  - rewrite (bind_exn _ _ _ _ _ (run_method_raise _ _ _ _ _ Hr Hf)) in Hlook.
    simpl in Hlook. rewrite lookup_ge_None_2 in Hlook; [done | lia].
Qed.

End Run.

(** ** The nearest-station resolver *)

Section Resolver.
Context `{Externals}.

Lemma instant_ltb_irrefl (i : instant) : instant_ltb i i = false.
Proof.
  unfold instant_ltb, date_ltb.
  rewrite !Z.ltb_irrefl, !andb_false_r. done.
Qed.

(** The frame the resolver selects from, the first one it builds, is
    the result of its query on the catalog. *)
Lemma closest_weather_station_selects_from latitude longitude date_
    (weather_stations : ref) (s : state) (catalog df : DataFrame) :
  store s !! weather_stations = Some catalog →
  store (closest_weather_station latitude longitude date_ weather_stations s).2
    !! length (store s) = Some df →
  df = {| columns := columns catalog;
          rows := eligible_stations date_ catalog |}.
Proof.
  intros Hcat Hdf. apply query_Ok.
  unfold closest_weather_station in Hdf.
  eapply first_frame; [exact Hcat | | exact Hdf].
  intros a.
  repeat first
    [ apply allocates_method | apply allocates_load | apply allocates_lift
    | apply allocates_ret | apply allocates_bind; [| intros ?] ].
Qed.

(** C2. The stations the resolver selects from (the frame it builds
    first, by its query on the catalog) are the stations of the
    catalog with FIRST_DATE < query date and LAST_DATE > query date,
    both strict: a station whose FIRST_DATE or LAST_DATE is the query
    date itself is not among them. *)
Theorem eligible_iff_strictly_inside
    (latitude longitude : Q) (date_ : date) (weather_stations : ref)
    (s : state) (catalog selected : DataFrame) :
  store s !! weather_stations = Some catalog →
  store (closest_weather_station latitude longitude date_ weather_stations s).2
    !! length (store s) = Some selected →
  (∀ station,
     station ∈ rows selected
     ↔ station ∈ rows catalog
       ∧ before date_ (pd.cell "FIRST_DATE" station.2) = true
       ∧ after date_ (pd.cell "LAST_DATE" station.2) = true)
  ∧ (∀ station,
       station ∈ rows catalog →
       pd.cell "FIRST_DATE" station.2 = Timestamp date_ 0
       ∨ pd.cell "LAST_DATE" station.2 = Timestamp date_ 0 →
       station ∉ rows selected).
Proof.
  intros Hcat Hsel.
  rewrite (closest_weather_station_selects_from _ _ _ _ _ _ _ Hcat Hsel).
  cbn [rows]. unfold eligible_stations.
  assert (Hiff : ∀ station : Z * dict,
             station ∈ filter (fun r : Z * dict => eligible date_ r.2)
                        (rows catalog)
             ↔ station ∈ rows catalog
               ∧ before date_ (pd.cell "FIRST_DATE" station.2) = true
               ∧ after date_ (pd.cell "LAST_DATE" station.2) = true).
  { intros station. rewrite list_elem_of_filter. unfold eligible.
    rewrite andb_True, !Is_true_true. tauto. }
  split; [exact Hiff|].
  intros station Hin Hedge [_ [Hb Ha]]%Hiff.
  destruct Hedge as [Heq | Heq]; rewrite Heq in *; cbn in Hb, Ha.
  - unfold midnight in Hb. by rewrite instant_ltb_irrefl in Hb.
  - unfold midnight in Ha. by rewrite instant_ltb_irrefl in Ha.
Qed.

End Resolver.

(** ** pandas: the first minimum *)

Section Idxmin.

(** [argmin] returns the label of an entry that is strictly below all
    entries before it and not above any entry after it. *)
Lemma argmin_split (best : Z * Q) (s : list (Z * option Q)) :
  ∃ pre q post,
    (best.1, Some best.2) :: s = pre ++ (pd.argmin best s, Some q) :: post
    ∧ Forall (fun x => ∀ q', x.2 = Some q' → (q < q')%Q) pre
    ∧ Forall (fun x => ∀ q', x.2 = Some q' → (q <= q')%Q) post.
Proof.
  revert best. induction s as [|[l [q0|]] s IH]; intros [bl bq]; cbn.
  - exists [], bq, []. split_and!; [done | constructor..].
  - destruct (Qlt_le_dec q0 bq) as [Hlt | Hle].
    + destruct (IH (l, q0)) as (pre & q & post & Heq & Hpre & Hpost).
      cbn in Heq. exists ((bl, Some bq) :: pre), q, post.
      split_and!; [cbn; f_equal; exact Heq | | done].
      constructor; [|done]. cbn. intros q' [= <-].
      destruct pre as [|p pre].
      * injection Heq as _ <- _. done.
      * injection Heq as <- _. apply Forall_cons_1 in Hpre as [Hp _].
        eapply Qlt_trans; [apply Hp; done | done].
    + destruct (IH (bl, bq)) as (pre & q & post & Heq & Hpre & Hpost).
      cbn in Heq. destruct pre as [|p pre].
      * injection Heq as Hl <- <-.
        exists [], bq, ((l, Some q0) :: s).
        split_and!; [by rewrite <- Hl | constructor |].
        constructor; [|done]. cbn. by intros q' [= <-].
      * injection Heq as <- Hs.
        apply Forall_cons_1 in Hpre as [Hp Hpre].
        exists ((bl, Some bq) :: (l, Some q0) :: pre), q, post.
        split_and!; [cbn; do 2 f_equal; exact Hs | | done].
        constructor; [exact Hp|]. constructor; [|done].
        cbn. intros q' [= <-].
        eapply Qlt_le_trans; [apply Hp; done | done].
  - destruct (IH (bl, bq)) as (pre & q & post & Heq & Hpre & Hpost).
    cbn in Heq. destruct pre as [|p pre].
    + injection Heq as Hl <- <-.
      exists [], bq, ((l, None) :: s).
      split_and!; [by rewrite <- Hl | constructor |].
      constructor; [|done]. by cbn.
    + injection Heq as <- Hs.
      apply Forall_cons_1 in Hpre as [Hp Hpre].
      exists ((bl, Some bq) :: (l, None) :: pre), q, post.
      split_and!; [cbn; do 2 f_equal; exact Hs | | done].
      constructor; [exact Hp|]. constructor; [|done]. by cbn.
Qed.

(** On a column of floats labelled by position, [idxmin] is the
    position of the first minimum. *)
Lemma idxmin_floats (qs : list Q) :
  qs ≠ [] →
  ∃ i q,
    pd.idxmin (imap (fun i q => (Z.of_nat i, Float q)) qs) = Ok (Z.of_nat i)
    ∧ qs !! i = Some q
    ∧ (∀ j q', qs !! j = Some q' → (q <= q')%Q)
    ∧ (∀ j q', (j < i)%nat → qs !! j = Some q' → (q < q')%Q).
Proof.
  intros Hne. unfold pd.idxmin.
  rewrite (mapM_Ok _ (fun lv : Z * value =>
                        (lv.1, match lv.2 with Float q => Some q | _ => None end))).
  2:{ intros [l v] (i & q & -> & _)%elem_of_lookup_imap. done. }
  rewrite fmap_imap. cbn.
  set (nums := imap _ qs).
  assert (Hnums : ∀ i, nums !! i = (fun q => (Z.of_nat i, Some q)) <$> qs !! i).
  { intros i. unfold nums. by rewrite list_lookup_imap. }
  destruct qs as [|q0 qs]; [done|].
  destruct nums as [|x rest] eqn:Hn; [by specialize (Hnums 0%nat)|].
  pose proof (Hnums 0%nat) as H0. cbn in H0. injection H0 as ->. cbn.
  destruct (argmin_split (0, q0) rest) as (pre & q & post & Heq & Hpre & Hpost).
  cbn [fst snd] in Heq.
  assert (Hi : ((Z.of_nat 0, Some q0) :: rest) !! length pre
               = Some (pd.argmin (0, q0) rest, Some q)).
  { change (Z.of_nat 0) with 0. rewrite Heq. by rewrite list_lookup_middle. }
  rewrite Hnums in Hi.
  destruct ((q0 :: qs) !! length pre) as [qi|] eqn:Hqi; [|done].
  cbn in Hi. injection Hi as Harg <-.
  exists (length pre), qi.
  change (Z.of_nat 0) with 0 in *.
  split_and!; [by rewrite <- Harg | done | |].
  - intros j q' Hj.
    assert (Hj' : ((0, Some q0) :: rest) !! j = Some (Z.of_nat j, Some q')).
    { by rewrite Hnums, Hj. }
    rewrite Heq in Hj'.
    destruct (decide (j < length pre)%nat) as [Hlt|Hge].
    + rewrite lookup_app_l in Hj' by done.
      apply Qlt_le_weak.
      eapply (Forall_lookup_1 _ _ _ _ Hpre Hj'). done.
    + rewrite lookup_app_r in Hj' by lia.
      destruct (j - length pre)%nat as [|k] eqn:Hk; cbn in Hj'.
      * injection Hj' as _ ->. apply Qle_refl.
      * eapply (Forall_lookup_1 _ _ _ _ Hpost Hj'). done.
  - intros j q' Hlt Hj.
    assert (Hj' : ((0, Some q0) :: rest) !! j = Some (Z.of_nat j, Some q')).
    { by rewrite Hnums, Hj. }
    rewrite Heq in Hj'. rewrite lookup_app_l in Hj' by done.
    eapply (Forall_lookup_1 _ _ _ _ Hpre Hj'). done.
Qed.

End Idxmin.


(** ** The nearest of the eligible stations *)

Section Nearest.
Context `{Externals}.

Lemma mapM_ext {A B : Type} (f g : A → result B) (l : list A) :
  (∀ x, x ∈ l → f x = g x) → mapM f l = mapM g l.
Proof.
  induction l as [|x l IH]; intros Hfg; [done|].
  cbn. rewrite (Hfg x) by left. rewrite IH; [done|].
  intros y Hy. apply Hfg. by right.
Qed.

Lemma mapM_total {A B : Type} (f : A → result B) (l : list A) :
  (∀ x, x ∈ l → ∃ y, f x = Ok y) → ∃ k, mapM f l = Ok k.
Proof.
  induction l as [|x l IH]; intros Hf; [by exists []|].
  destruct (Hf x) as [y Hy]; [left|].
  destruct IH as [k Hk]; [intros z Hz; apply Hf; by right|].
  exists (y :: k). cbn. rewrite Hy. cbn. by rewrite Hk.
Qed.

Lemma cell_dict_set (c : string) (v : value) (d : dict) :
  pd.cell c (dict_set c v d) = v.
Proof.
  unfold pd.cell. induction d as [|[k w] d IH]; cbn.
  - by rewrite decide_True.
  - destruct (decide (c = k)) as [->|Hne]; cbn.
    + by rewrite decide_True.
    + by rewrite decide_False.
Qed.

(** With both coordinate columns present, the function the resolver
    applies to a row is the distance to that station. *)
Lemma apply_rows_distance (latitude longitude : Q) (df : DataFrame) :
  "LATITUDE" ∈ columns df → "LONGITUDE" ∈ columns df →
  apply_rows (A := Q)
    (fun x => lat ← x "LATITUDE"; lon ← x "LONGITUDE";
              distance_km (latitude, longitude) (lat, lon)) df
  = mapM (fun r : Z * dict => station_distance latitude longitude r.2)
      (rows df).
Proof.
  intros Hlat Hlon. unfold apply_rows. apply mapM_ext. intros r _.
  by rewrite !decide_True.
Qed.

(** Lines 96-104 on a frame labelled by position: the selected record is
    the row of the first minimum of the distances, with its distance. *)
Lemma nearest_of_distances (df : DataFrame) (qs : list Q) :
  (∀ i r, rows df !! i = Some r → r.1 = Z.of_nat i) →
  length qs = length (rows df) →
  qs ≠ [] →
  let df' := pd.set_column "DISTANCE_WEATHER_STATION_KM" (Float <$> qs) df in
  ∃ i q r,
    (s ← pd.column "DISTANCE_WEATHER_STATION_KM" df';
     i ← pd.idxmin s;
     pd.to_dict <$> pd.iloc i df')
    = Ok (pd.reindex (columns df')
            (dict_set "DISTANCE_WEATHER_STATION_KM" (Float q) r.2))
    ∧ rows df !! i = Some r
    ∧ qs !! i = Some q
    ∧ (∀ j q', qs !! j = Some q' → (q <= q')%Q)
    ∧ (∀ j q', (j < i)%nat → qs !! j = Some q' → (q < q')%Q).
Proof.
  intros Hlabels Hlen Hne df'.
  assert (Hrows : ∀ i, rows df' !! i
                       = (r ← rows df !! i; q ← qs !! i;
                          Some (r.1, dict_set "DISTANCE_WEATHER_STATION_KM"
                                       (Float q) r.2))).
  { intros i. unfold df'. cbn [rows pd.set_column].
    rewrite lookup_zip_with, list_lookup_fmap.
    destruct (rows df !! i); cbn; [|done]. by destruct (qs !! i). }
  assert (Hcol : pd.column "DISTANCE_WEATHER_STATION_KM" df'
                 = Ok (imap (fun i q => (Z.of_nat i, Float q)) qs)).
  { unfold pd.column. rewrite decide_True.
    2:{ unfold df'. cbn [columns pd.set_column].
        case_decide; [done|]. apply elem_of_app. right. by left. }
    f_equal. apply list_eq. intros i.
    rewrite list_lookup_fmap, Hrows, list_lookup_imap.
    destruct (rows df !! i) as [r|] eqn:Hr; cbn.
    - destruct (qs !! i) as [q|]; cbn; [|done].
      rewrite (Hlabels _ _ Hr). do 2 f_equal. apply cell_dict_set.
    - apply lookup_ge_None_1 in Hr.
      rewrite lookup_ge_None_2; [done | lia]. }
  destruct (idxmin_floats qs Hne) as (i & q & Hidx & Hq & Hmin & Hfirst).
  assert (Hi : (i < length (rows df))%nat).
  { rewrite <- Hlen. by eapply lookup_lt_Some. }
  destruct (lookup_lt_is_Some_2 _ _ Hi) as [r Hr].
  exists i, q, r. split_and!; try done.
  rewrite Hcol. cbn. rewrite Hidx. cbn.
  unfold pd.iloc.
  assert (Hn : length (rows df') = length (rows df)).
  { unfold df'. cbn [rows pd.set_column].
    rewrite length_zip_with, length_fmap. lia. }
  rewrite Hn.
  destruct (Z.ltb_spec (Z.of_nat i) 0) as [?|_]; [lia|].
  destruct (Z.leb_spec 0 (Z.of_nat i)) as [_|?]; [|lia].
  destruct (Z.ltb_spec (Z.of_nat i) (Z.of_nat (length (rows df)))) as [_|?];
    [|lia].
  cbn. rewrite Nat2Z.id, Hrows, Hr, Hq. done.
Qed.

End Nearest.


(** ** The resolver, run *)

Section ResolverRun.
Context `{Externals}.

Lemma run_load_new (s : state) (df : DataFrame) :
  load (length (store s)) (with_store (store s ++ [df]) s)
  = (Ret df, with_store (store s ++ [df]) s).
Proof. apply run_load, lookup_new. Qed.

Lemma run_lift {A : Type} (r : result A) (s : state) :
  lift r s = (outcome_of r, s).
Proof. by destruct r. Qed.

(** The resolver returns what [nearest] computes from the catalog. *)
Lemma closest_weather_station_run latitude longitude date_
    (weather_stations : ref) (s : state) (catalog : DataFrame) :
  store s !! weather_stations = Some catalog →
  (closest_weather_station latitude longitude date_ weather_stations s).1
  = outcome_of (nearest latitude longitude date_ catalog).
Proof.
  intros Hcat. unfold closest_weather_station, nearest.
  destruct (pd.query _ catalog) as [dfq|e] eqn:Hq; cbn [mbind result_bind].
  2:{ by rewrite (bind_exn _ _ _ _ _ (run_method_raise _ _ _ _ _ Hcat Hq)). }
  rewrite (bind_run _ _ _ _ _ (run_method _ _ _ _ _ Hcat Hq)).
  set (s1 := with_store (store s ++ [dfq]) s).
  rewrite (bind_run _ _ _ _ _
             (run_method (fun df => Ok (pd.reset_index df)) _ _ _ _
                (lookup_new s dfq) eq_refl)).
  fold s1. set (df2 := pd.reset_index dfq).
  set (s2 := with_store (store s1 ++ [df2]) s1).
  destruct (apply_rows _ df2) as [qs|e] eqn:Hqs.
  2:{ erewrite bind_exn; [done|].
      erewrite bind_run by apply run_load_new. by rewrite Hqs. }
  erewrite bind_run.
  2:{ erewrite bind_run by apply run_load_new. by rewrite Hqs. }
  cbn [mbind result_bind pd.assign].
  match goal with
  | |- context [method ?f _ ≫= _] =>
      rewrite (bind_run _ _ _ _ _
                 (run_method f _ _ df2
                    (pd.set_column "DISTANCE_WEATHER_STATION_KM"
                       (Float <$> qs) df2)
                    (lookup_new s1 df2) eq_refl))
  end.
  fold s2. set (df3 := pd.set_column _ _ df2).
  erewrite bind_run by apply run_load_new.
  unfold mbind at 1, M_bind. rewrite run_lift.
  by destruct (_ ≫= _).
Qed.

End ResolverRun.


(** ** The resolver: what it returns *)

Section ResolverResult.
Context `{Externals}.

Lemma reset_index_lookup (df : DataFrame) (i : nat) (r : Z * dict) :
  rows (pd.reset_index df) !! i = Some r ↔
  ∃ r0, rows df !! i = Some r0 ∧ r = (Z.of_nat i, r0.2).
Proof. unfold pd.reset_index. cbn. apply list_lookup_imap_Some. Qed.

(** C1. On a catalog that carries the two date columns and the two
    coordinate columns, with at least one eligible station and a
    distance defined for every eligible station, the resolver returns
    an eligible station, with its distance; no eligible station is
    nearer, and every eligible station before it in catalog order is
    strictly farther. *)
Theorem closest_weather_station_nearest
    (latitude longitude : Q) (date_ : date) (weather_stations : ref)
    (s : state) (catalog : DataFrame) :
  store s !! weather_stations = Some catalog →
  dated catalog →
  "LATITUDE" ∈ columns catalog →
  "LONGITUDE" ∈ columns catalog →
  Forall (fun st : Z * dict =>
            ∃ q, station_distance latitude longitude st.2 = Ok q)
    (eligible_stations date_ catalog) →
  eligible_stations date_ catalog ≠ [] →
  ∃ (i : nat) (station : Z * dict) (q : Q),
    eligible_stations date_ catalog !! i = Some station
    ∧ station_distance latitude longitude station.2 = Ok q
    ∧ (closest_weather_station latitude longitude date_ weather_stations s).1
      = Ret (with_distance catalog station.2 q)
    ∧ (∀ j st q',
         eligible_stations date_ catalog !! j = Some st →
         station_distance latitude longitude st.2 = Ok q' →
         (q <= q')%Q)
    ∧ (∀ j st q',
         (j < i)%nat →
         eligible_stations date_ catalog !! j = Some st →
         station_distance latitude longitude st.2 = Ok q' →
         (q < q')%Q).
Proof.
  intros Hcat Hdated Hlat Hlon Hdist Hne. rewrite Forall_forall in Hdist.
  rewrite (closest_weather_station_run _ _ _ _ _ _ Hcat).
  unfold nearest. rewrite (query_dated _ _ Hdated). cbn [mbind result_bind].
  set (df := pd.reset_index _).
  rewrite apply_rows_distance by done.
  destruct (mapM_total
              (fun r : Z * dict => station_distance latitude longitude r.2)
              (rows df)) as [qs Hqs].
  { intros r [i Hi]%list_elem_of_lookup.
    apply reset_index_lookup in Hi as (r0 & Hr0 & ->).
    apply (Hdist r0), list_elem_of_lookup. exists i. exact Hr0. }
  rewrite Hqs. cbn [mbind result_bind pd.assign].
  pose proof (mapM_Ok_inv _ _ _ Hqs) as Hall.
  assert (Hlen : length (rows df) = length (eligible_stations date_ catalog)).
  { unfold df. cbn. by rewrite length_imap. }
  destruct (nearest_of_distances df qs) as (i & q & r & Hsel & Hr & Hq & Hmin & Hfirst).
  { intros i r (r0 & _ & ->)%reset_index_lookup. done. }
  { symmetry. by eapply Forall2_length. }
  { intros ->. apply Forall2_length in Hall. rewrite Hlen in Hall.
    by destruct (eligible_stations date_ catalog). }
  apply reset_index_lookup in Hr as Hr0. destruct Hr0 as (st & Hst & ->).
  assert (Hdistances : ∀ j st' q',
             eligible_stations date_ catalog !! j = Some st' →
             station_distance latitude longitude st'.2 = Ok q' →
             qs !! j = Some q').
  { intros j st' q' Hj Hq'.
    assert (Hrj : rows df !! j = Some (Z.of_nat j, st'.2)).
    { apply reset_index_lookup. by exists st'. }
    destruct (Forall2_lookup_l _ _ _ _ _ Hall Hrj) as (q'' & Hq'' & Heq).
    cbn in Heq. congruence. }
  exists i, st, q. split_and!.
  - done.
  - destruct (Forall2_lookup_l _ _ _ _ _ Hall Hr) as (q' & Hq' & Heq).
    cbn in Heq. congruence.
  - rewrite Hsel. done.
  - intros j st' q' Hj Hq'. eapply Hmin. by eapply Hdistances.
  - intros j st' q' Hlt Hj Hq'. eapply Hfirst; [done|]. by eapply Hdistances.
Qed.

(** C4 (the code does not do this). With no eligible station the
    resolver fails inside pandas, taking the minimum of an empty
    column: the exception that escapes is the library's [ValueError],
    not an error of its own that names the condition. *)
Theorem closest_weather_station_no_eligible
    (latitude longitude : Q) (date_ : date) (weather_stations : ref)
    (s : state) (catalog : DataFrame) :
  store s !! weather_stations = Some catalog →
  dated catalog →
  eligible_stations date_ catalog = [] →
  (closest_weather_station latitude longitude date_ weather_stations s).1
  = Exn ValueError.
Proof.
  intros Hcat Hdated Hnone.
  rewrite (closest_weather_station_run _ _ _ _ _ _ Hcat).
  unfold nearest. rewrite (query_dated _ _ Hdated), Hnone.
  cbn. unfold pd.column. rewrite decide_True; [done|].
  cbn. case_decide; [done|]. apply elem_of_app. right. by left.
Qed.

End ResolverResult.


(** ** The station catalog fetcher: failures *)

Section Failures.
Context `{Externals}.

Lemma guarded_silent {A : Type} (m : M A) :
  (∀ s, trace (m s).2 = trace s) → guarded m.
Proof.
  intros Hm s. exists []. rewrite app_nil_r. split; [apply Hm | by left].
Qed.

Lemma guarded_ret {A : Type} (a : A) : guarded (mret a).
Proof. by apply guarded_silent. Qed.

Lemma guarded_lift {A : Type} (r : result A) : guarded (lift r).
Proof. apply guarded_silent. intros s. unfold lift. by destruct r. Qed.

Lemma guarded_timeout {A : Type} : guarded (timeout (A := A)).
Proof. by apply guarded_silent. Qed.

Lemma guarded_new (df : DataFrame) : guarded (new df).
Proof. by apply guarded_silent. Qed.

Lemma guarded_load (r : ref) : guarded (load r).
Proof.
  apply guarded_silent. intros s. unfold load. by destruct (store s !! r).
Qed.

Lemma guarded_save (r : ref) (df : DataFrame) : guarded (save r df).
Proof. by apply guarded_silent. Qed.

Lemma guarded_bind {A B : Type} (m : M A) (f : A → M B) :
  guarded m → (∀ a, guarded (f a)) → guarded (m ≫= f).
Proof.
  intros Hm Hf s. destruct (Hm s) as (new1 & Ht1 & H1).
  unfold mbind, M_bind.
  destruct (m s) as [[a|e| |] s1] eqn:Hms; cbn [fst snd] in *.
  - destruct (Hf a s1) as (new2 & Ht2 & H2).
    exists (new1 ++ new2). split; [by rewrite Ht2, Ht1, app_assoc|].
    destruct H1 as [Hclean | (pre & x & e & _ & _ & _ & ?)]; [|done].
    destruct H2 as [Hclean2 | (pre & x & e & -> & Hpre & Hx & Hout)].
    + left. by apply Forall_app.
    + right. exists (new1 ++ pre), x, e.
      split_and!; [by rewrite app_assoc | by apply Forall_app | done | done].
  - exists new1. split; [done|].
    destruct H1 as [Hclean | (pre & x & e' & -> & Hpre & Hx & [= ->])];
      [by left|].
    right. by exists pre, x, e'.
  - exists new1. split; [done|].
    destruct H1 as [Hclean | (pre & x & e' & _ & _ & _ & ?)]; [by left | done].
  - exists new1. split; [done|].
    destruct H1 as [Hclean | (pre & x & e' & _ & _ & _ & ?)]; [by left | done].
Qed.

Lemma guarded_method (f : DataFrame → result DataFrame) (r : ref) :
  guarded (method f r).
Proof.
  unfold method.
  repeat first [ apply guarded_load | apply guarded_lift | apply guarded_new
               | apply guarded_bind; [| intros ?] ].
Qed.

Lemma guarded_method_inplace (f : DataFrame → result DataFrame) (r : ref) :
  guarded (method_inplace f r).
Proof.
  unfold method_inplace.
  repeat first [ apply guarded_load | apply guarded_lift | apply guarded_save
               | apply guarded_bind; [| intros ?] ].
Qed.

(** The one place where the trace grows. *)
Lemma guarded_get_properties (url : string) (params : dict) :
  guarded (get_properties url params).
Proof.
  intros s. unfold get_properties, mbind, M_bind, get.
  destruct (requests_get url params (world s)) as [answer w].
  set (x := {| url := url; params := params; reply := answer |}).
  exists [x]. destruct answer as [| |b]; cbn [fst snd trace].
  - split; [done|]. right. by exists [], x, ConnectionError.
  - split; [done|]. right. by exists [], x, JSONDecodeError.
  - unfold lift.
    destruct (features_properties (Json b)) as [recs|e] eqn:Hfp;
      cbn [fst snd trace]; (split; [done|]).
    + left. constructor; [|done]. unfold failure. cbn [reply x].
      by rewrite Hfp.
    + right. exists [], x, e. split_and!; try done.
      unfold failure. cbn [reply x]. by rewrite Hfp.
Qed.

Lemma guarded_scrape_pages (fuel : nat) (query_url : string) (params : dict)
    (r : ref) :
  guarded (scrape_pages fuel query_url params r).
Proof.
  revert params r. induction fuel as [|fuel IH]; intros params r; cbn.
  - apply guarded_timeout.
  - repeat first
      [ apply guarded_get_properties | apply guarded_load | apply guarded_new
      | apply guarded_ret | apply guarded_lift
      | apply guarded_bind; [| intros ?] ].
    case_decide;
      repeat first [ apply IH | apply guarded_ret | apply guarded_lift
                   | apply guarded_bind; [| intros ?] ].
Qed.

Lemma guarded_scrape_provinces (fuel : nat) (query_url : string)
    (provinces : list string) (r : ref) :
  guarded (scrape_provinces fuel query_url provinces r).
Proof.
  revert r. induction provinces as [|province provinces IH]; intros r; cbn.
  - apply guarded_ret.
  - apply guarded_bind; [apply guarded_scrape_pages | intros r'; apply IH].
Qed.

Lemma guarded_scrape_weather_stations (fuel : nat)
    (provinces : string + list string) :
  guarded (scrape_weather_stations fuel provinces).
Proof.
  unfold scrape_weather_stations, scrape_all, fix_column_types.
  repeat first
    [ apply guarded_scrape_provinces | apply guarded_method
    | apply guarded_method_inplace | apply guarded_new | apply guarded_ret
    | apply guarded_bind; [| intros ?] ].
Qed.

(** C8. When an exchange made during a fetch fails (the request itself,
    or the decoding of its answer into records), the fetch makes no
    further request and ends by raising the exception of that
    exchange: it returns no catalog, not even the pages fetched
    before. *)
Theorem scrape_weather_stations_aborts
    (fuel : nat) (provinces : string + list string) (s : state)
    (x : exchange) (e : exn) :
  x ∈ drop (length (trace s))
        (trace (scrape_weather_stations fuel provinces s).2) →
  failure x = Some e →
  (scrape_weather_stations fuel provinces s).1 = Exn e
  ∧ last (trace (scrape_weather_stations fuel provinces s).2) = Some x.
Proof.
  intros Hx Hfail.
  destruct (guarded_scrape_weather_stations fuel provinces s)
    as (new & Htrace & Hnew).
  rewrite Htrace in Hx |- *. rewrite drop_app_length in Hx.
  destruct Hnew as [Hclean | (pre & x' & e' & -> & Hpre & Hx' & Hout)].
  - rewrite Forall_forall in Hclean. specialize (Hclean x Hx). congruence.
  - apply elem_of_app in Hx as [Hx | Hx].
    + rewrite Forall_forall in Hpre. specialize (Hpre x Hx). congruence.
    + apply list_elem_of_singleton in Hx as ->.
      rewrite app_assoc, last_snoc. split; [congruence | done].
Qed.

(** C9. A province given as a string is fetched as the one-element
    list holding that string: same outcome, same catalog, same
    requests. *)
Theorem scrape_weather_stations_str_is_singleton
    (fuel : nat) (province : string) (s : state) :
  scrape_weather_stations fuel (inl province) s
  = scrape_weather_stations fuel (inr [province]) s.
Proof. reflexivity. Qed.

End Failures.


(** ** The station catalog fetcher: column types *)

Section ColumnTypes.
Context `{Externals}.

Lemma cell_dict_set_ne (c c' : string) (v : value) (d : dict) :
  c ≠ c' → pd.cell c (dict_set c' v d) = pd.cell c d.
Proof.
  intros Hne. unfold pd.cell. induction d as [|[k w] d IH]; cbn.
  - by rewrite decide_False.
  - destruct (decide (c' = k)) as [->|Hk]; cbn.
    + by rewrite !decide_False.
    + destruct (decide (c = k)); [done | exact IH].
Qed.

Lemma method_inv (f : DataFrame → result DataFrame) (r r' : ref)
    (s s' : state) :
  method f r s = (Ret r', s') →
  ∃ df df', store s !! r = Some df ∧ f df = Ok df'
            ∧ r' = length (store s)
            ∧ s' = with_store (store s ++ [df']) s.
Proof.
  unfold method, mbind, M_bind, load, lift, new.
  destruct (store s !! r) as [df|]; [|done].
  destruct (f df) as [df'|] eqn:Hf; [|done].
  intros [= <- <-]. by exists df, df'.
Qed.

(** A keyword [c=lambda x: f(x[c])] of [assign], when it goes through. *)
Lemma assign_map_column (c : string) (f : value → result value)
    (kwargs : list (string * (DataFrame → result (list value))))
    (df df' : DataFrame) :
  pd.assign ((c, fun x => pd.column c x ≫= fun s => mapM f (values s))
             :: kwargs) df = Ok df' →
  ∃ df1, columns df1 = columns df
         ∧ Forall2 (cell_mapped c f) (rows df) (rows df1)
         ∧ pd.assign kwargs df1 = Ok df'.
Proof.
  cbn [pd.assign]. unfold pd.column.
  destruct (decide (c ∈ columns df)) as [Hc|]; [|done]. cbn [mbind result_bind].
  destruct (mapM f _) as [vals|] eqn:Hvals; [|done]. cbn [mbind result_bind].
  intros Hrest. eexists. split_and!; [| |exact Hrest].
  - cbn. by rewrite decide_True.
  - apply mapM_Ok_inv in Hvals. unfold values in Hvals.
    rewrite <- list_fmap_compose in Hvals. apply Forall2_fmap_l in Hvals.
    cbn [rows pd.set_column]. clear Hrest.
    induction Hvals as [|r v rs vs Hv _ IH]; cbn; [constructor|].
    constructor; [|exact IH]. split; [done|]. by exists v.
Qed.

Lemma Forall2_compose {A B C : Type} (R : A → B → Prop) (S : B → C → Prop)
    (l1 : list A) (l2 : list B) (l3 : list C) :
  Forall2 R l1 l2 → Forall2 S l2 l3 →
  Forall2 (fun a c => ∃ b, R a b ∧ S b c) l1 l3.
Proof.
  intros H12. revert l3. induction H12 as [|a b l1 l2 Hab _ IH]; intros l3 H23.
  - inversion H23. constructor.
  - inversion H23 as [|? c ? l3' Hbc H23']; subst.
    constructor; [by exists b | by apply IH].
Qed.

(** Lines 56-64 on a frame: every row comes out [fixed]. *)
Lemma fix_column_types_rows (r r' : ref) (s s' : state) :
  fix_column_types r s = (Ret r', s') →
  ∃ raw df,
    store s !! r = Some raw
    ∧ store s' !! r' = Some df
    ∧ columns df = columns raw
    ∧ Forall2 fixed (rows raw) (rows df).
Proof.
  unfold fix_column_types. intros Hrun.
  apply method_inv in Hrun as (raw & df & Hraw & Hassign & -> & ->).
  exists raw, df. split; [done|]. split; [apply lookup_new|].
  apply assign_map_column in Hassign as (df1 & Hc1 & H1 & Hassign).
  apply assign_map_column in Hassign as (df2 & Hc2 & H2 & Hassign).
  apply assign_map_column in Hassign as (df3 & Hc3 & H3 & Hassign).
  apply assign_map_column in Hassign as (df4 & Hc4 & H4 & Hassign).
  apply assign_map_column in Hassign as (df5 & Hc5 & H5 & Hassign).
  apply assign_map_column in Hassign as (df6 & Hc6 & H6 & [= <-]).
  split; [congruence|].
  pose proof (Forall2_compose _ _ _ _ _ H1
               (Forall2_compose _ _ _ _ _ H2
                 (Forall2_compose _ _ _ _ _ H3
                   (Forall2_compose _ _ _ _ _ H4
                     (Forall2_compose _ _ _ _ _ H5 H6))))) as Hall.
  eapply Forall2_impl; [exact Hall|]. clear.
  intros r0 r6
    (r1 & (Hl1 & v1 & Hv1 & Hd1) & r2 & (Hl2 & v2 & Hv2 & Hd2)
        & r3 & (Hl3 & v3 & Hv3 & Hd3) & r4 & (Hl4 & v4 & Hv4 & Hd4)
        & r5 & (Hl5 & v5 & Hv5 & Hd5) & (Hl6 & v6 & Hv6 & Hd6)).
  rewrite Hd5, Hd4, Hd3, Hd2, Hd1 in Hv6.
  rewrite Hd4, Hd3, Hd2, Hd1 in Hv5.
  rewrite Hd3, Hd2, Hd1 in Hv4.
  rewrite Hd2, Hd1 in Hv3.
  rewrite Hd1 in Hv2.
  repeat rewrite cell_dict_set_ne in Hv2 by (intros ?; discriminate).
  repeat rewrite cell_dict_set_ne in Hv3 by (intros ?; discriminate).
  repeat rewrite cell_dict_set_ne in Hv4 by (intros ?; discriminate).
  repeat rewrite cell_dict_set_ne in Hv5 by (intros ?; discriminate).
  repeat rewrite cell_dict_set_ne in Hv6 by (intros ?; discriminate).
  unfold fixed. rewrite Hd6, Hd5, Hd4, Hd3, Hd2, Hd1.
  split_and!;
    try (repeat rewrite cell_dict_set_ne by (intros ?; discriminate);
         rewrite cell_dict_set; assumption).
  - congruence.
  - intros c Hc. rewrite !cell_dict_set_ne; [done|..];
      intros ->; apply Hc; repeat first [by left | right].
Qed.

(** C7. In the catalog [scrape_weather_stations] returns, every record
    is the record fetched (same place in the table, same label) with
    LONGITUDE and LATITUDE divided by 10,000,000 (the source's [10e6]),
    each of FIRST_DATE, LAST_DATE, DLY_FIRST_DATE and DLY_LAST_DATE
    parsed by [to_datetime], and every other field as fetched. *)
Theorem scrape_weather_stations_fixes_columns
    (fuel : nat) (provinces : string + list string) (s s' : state)
    (catalog : ref) :
  scrape_weather_stations fuel provinces s = (Ret catalog, s') →
  ∃ (fetched : ref) (s1 : state) (raw df : DataFrame),
    scrape_all fuel
      (match provinces with inl p => [p] | inr ps => ps end) s
    = (Ret fetched, s1)
    ∧ store s1 !! fetched = Some raw
    ∧ store s' !! catalog = Some df
    ∧ columns df = columns raw
    ∧ Forall2 fixed (rows raw) (rows df).
Proof.
  unfold scrape_weather_stations. intros Hrun.
  unfold mbind at 1, M_bind in Hrun.
  destruct (scrape_all fuel _ s) as [[fetched|e| |] s1] eqn:Hall; try done.
  unfold mbind, M_bind in Hrun.
  destruct (fix_column_types fetched s1) as [[r'|e| |] s2] eqn:Hfix; try done.
  injection Hrun as <- <-.
  destruct (fix_column_types_rows _ _ _ _ Hfix) as (raw & df & ? & ? & ? & ?).
  by exists fetched, s1, raw, df.
Qed.

End ColumnTypes.


(** ** The daily observation fetcher *)

Section Observations.
Context `{Externals}.

Lemma run_lift_ok {A : Type} (r : result A) (a : A) (s : state) :
  r = Ok a → lift r s = (Ret a, s).
Proof. by intros ->. Qed.

Lemma run_new (df : DataFrame) (s : state) :
  new df s = (Ret (length (store s)), with_store (store s ++ [df]) s).
Proof. reflexivity. Qed.

Lemma run_get_properties (url : string) (params : dict) (s : state)
    (records : list dict) :
  answer url params s = Ok records →
  get_properties url params s = (Ret records, exchanged url params s).
Proof.
  unfold answer, get_properties, exchanged, mbind, M_bind, get.
  destruct (requests_get url params (world s)) as [[| |b] w]; cbn; try done.
  unfold lift. by intros ->.
Qed.

Lemma run_method_inplace (f : DataFrame → result DataFrame) (r : ref)
    (s : state) (df df' : DataFrame) :
  store s !! r = Some df → f df = Ok df' →
  method_inplace f r s = (Ret (), with_store (<[r := df']> (store s)) s).
Proof.
  intros Hr Hf. unfold method_inplace.
  rewrite (bind_run _ _ _ _ _ (run_load _ _ _ Hr)).
  unfold mbind, M_bind, lift. by rewrite Hf.
Qed.

Lemma getitem_cell (k : string) (d : dict) :
  k ∈ keys d → getitem k d = Ok (pd.cell k d).
Proof.
  unfold getitem, pd.cell, keys. induction d as [|[k' v] d IH]; cbn.
  - by intros ?%elem_of_nil.
  - intros Hk. destruct (decide (k = k')) as [->|Hne]; [done|].
    apply IH. by apply elem_of_cons in Hk as [?|?].
Qed.

Lemma getitem_columns_Ok (cs : list string) (df : DataFrame) :
  Forall (fun c => c ∈ columns df) cs →
  pd.getitem_columns cs df
  = Ok {| columns := cs;
          rows := (fun r => (r.1, pd.reindex cs r.2)) <$> rows df |}.
Proof.
  intros Hcs. unfold pd.getitem_columns.
  destruct (list_find _ cs) as [[i c]|] eqn:Hfind; [|done].
  apply list_find_Some in Hfind as (Hi & Hc & _).
  rewrite Forall_forall in Hcs. destruct Hc.
  apply Hcs, list_elem_of_lookup. by exists i.
Qed.

Lemma drop_columns_Ok (labels : list string) (df : DataFrame) :
  Forall (fun c => c ∈ columns df) labels →
  pd.drop_columns labels df
  = Ok {| columns := filter (fun c => c ∉ labels) (columns df);
          rows := (fun r : Z * dict =>
                     (r.1, filter (fun kv : string * value => kv.1 ∉ labels)
                             r.2))
                  <$> rows df |}.
Proof.
  intros Hcs. unfold pd.drop_columns.
  destruct (list_find _ labels) as [[i c]|] eqn:Hfind; [|done].
  apply list_find_Some in Hfind as (Hi & Hc & _).
  rewrite Forall_forall in Hcs. destruct Hc.
  apply Hcs, list_elem_of_lookup. by exists i.
Qed.

(** C5. When the resolver has returned a station that carries a name, a
    station id and a climate identifier, and the observation endpoint
    answers the query for that station and date with no row, then
    [weather_data] returns a table of one row, labelled 0, whose
    columns are STATION_NAME, STN_ID, CLIMATE_IDENTIFIER and
    DISTANCE_WEATHER_STATION_KM, in that order, holding the station's
    values. *)
Theorem weather_data_fallback
    (latitude longitude : Q) (date_ : date) (weather_stations : ref)
    (s s1 : state) (station : dict) :
  closest_weather_station latitude longitude date_ weather_stations s
  = (Ret station, s1) →
  Forall (fun c => c ∈ keys station) fallback_columns →
  answer daily_url
    (daily_params (pd.cell "CLIMATE_IDENTIFIER" station) date_) s1 = Ok [] →
  ∃ (weather : ref) (s' : state),
    weather_data latitude longitude date_ weather_stations s
    = (Ret weather, s')
    ∧ store s' !! weather
      = Some {| columns := fallback_columns;
                rows := [(0, pd.reindex fallback_columns station)] |}.
Proof.
  intros Hstation Hkeys Hanswer.
  assert (Hci : "CLIMATE_IDENTIFIER" ∈ keys station).
  { rewrite Forall_forall in Hkeys. apply Hkeys.
    unfold fallback_columns. repeat first [by left | right]. }
  unfold weather_data.
  rewrite (bind_run _ _ _ _ _ Hstation).
  rewrite (bind_run _ _ _ _ _ (run_lift_ok _ _ _ (getitem_cell _ _ Hci))).
  rewrite (bind_run _ _ _ _ _ (run_get_properties _ _ _ _ Hanswer)).
  rewrite decide_True by done.
  set (s2 := exchanged _ _ s1).
  rewrite (bind_run _ _ _ _ _ (run_new _ _)).
  rewrite (bind_run _ _ _ _ _
             (run_method _ _ _ _ _ (lookup_new _ _)
                (getitem_columns_Ok fallback_columns
                   (pd.DataFrame_of_scalars station [0]) Hkeys))).
  eexists _, _. split; [reflexivity|]. apply lookup_new.
Qed.

Lemma lookup_saved (s : state) (r : ref) (df df' : DataFrame) :
  store s !! r = Some df →
  store (with_store (<[r := df']> (store s)) s) !! r = Some df'.
Proof.
  intros Hr. cbn. apply list_lookup_insert_eq. by eapply lookup_lt_Some.
Qed.

Lemma insert_Ok (loc : nat) (c : string) (v : value) (df : DataFrame) :
  c ∉ columns df → (loc ≤ length (columns df))%nat →
  pd.insert loc c v df
  = Ok {| columns := pd.list_insert_at loc c (columns df);
          rows := (fun r => (r.1, pd.list_insert_at loc (c, v) r.2))
                  <$> rows df |}.
Proof.
  intros Hc Hloc. unfold pd.insert.
  by rewrite decide_False, decide_True.
Qed.

Lemma elem_of_list_insert_at {A : Type} (loc : nat) (x y : A) (l : list A) :
  y ∈ pd.list_insert_at loc x l → y = x ∨ y ∈ l.
Proof.
  unfold pd.list_insert_at.
  rewrite elem_of_app, elem_of_cons.
  intros [Hy | [-> | Hy]]; [right | by left | right].
  - by eapply subseteq_take.
  - by eapply subseteq_drop.
Qed.

(** C6. When the resolver has returned a station that carries a
    climate identifier, a station id and its distance, and the
    observation endpoint answers with at least one row, rows that
    carry the six redundant columns and at least one more, none of
    them named STN_ID or DISTANCE_WEATHER_STATION_KM, then
    [weather_data] returns the table of those rows without the six
    columns LOCAL_DATE, LOCAL_DAY, LOCAL_MONTH, LOCAL_YEAR, ID and
    PROVINCE_CODE, and with STN_ID at column index 1 and
    DISTANCE_WEATHER_STATION_KM at index 2, right after the first of
    the columns kept; in every row the two hold the station's id and
    distance. *)
Theorem weather_data_observations
    (latitude longitude : Q) (date_ : date) (weather_stations : ref)
    (s s1 : state) (station : dict) (observations : list dict) :
  closest_weather_station latitude longitude date_ weather_stations s
  = (Ret station, s1) →
  "CLIMATE_IDENTIFIER" ∈ keys station →
  "STN_ID" ∈ keys station →
  "DISTANCE_WEATHER_STATION_KM" ∈ keys station →
  answer daily_url
    (daily_params (pd.cell "CLIMATE_IDENTIFIER" station) date_) s1
  = Ok observations →
  observations ≠ [] →
  let table := pd.DataFrame_of_records observations in
  let kept := filter (fun c => c ∉ redundant_columns) (columns table) in
  Forall (fun c => c ∈ columns table) redundant_columns →
  kept ≠ [] →
  "STN_ID" ∉ kept →
  "DISTANCE_WEATHER_STATION_KM" ∉ kept →
  ∃ (weather : ref) (s' : state) (df : DataFrame),
    weather_data latitude longitude date_ weather_stations s
    = (Ret weather, s')
    ∧ store s' !! weather = Some df
    ∧ columns df
      = take 1 kept ++ "STN_ID" :: "DISTANCE_WEATHER_STATION_KM"
                       :: drop 1 kept
    ∧ Forall (fun c => c ∉ columns df) redundant_columns
    ∧ rows df
      = (fun r : Z * dict =>
           (r.1,
            pd.list_insert_at 1 ("STN_ID", pd.cell "STN_ID" station)
              (pd.list_insert_at 1
                 ("DISTANCE_WEATHER_STATION_KM",
                  pd.cell "DISTANCE_WEATHER_STATION_KM" station)
                 (filter (fun kv : string * value => kv.1 ∉ redundant_columns)
                    r.2))))
        <$> rows table.
Proof.
  intros Hstation Hci Hstn Hkm Hanswer Hrows table kept Hredundant Hkept
    Hno_stn Hno_km.
  unfold weather_data.
  rewrite (bind_run _ _ _ _ _ Hstation).
  rewrite (bind_run _ _ _ _ _ (run_lift_ok _ _ _ (getitem_cell _ _ Hci))).
  rewrite (bind_run _ _ _ _ _ (run_get_properties _ _ _ _ Hanswer)).
  rewrite decide_False by (by destruct observations).
  set (s2 := exchanged _ _ s1).
  rewrite (bind_run _ _ _ _ _ (run_new _ _)). fold table.
  set (s3 := with_store (store s2 ++ [table]) s2).
  rewrite (bind_run _ _ _ _ _
             (run_method _ _ _ _ _ (lookup_new s2 table)
                (drop_columns_Ok redundant_columns table Hredundant))).
  fold s3 kept.
  set (dropped := {| columns := kept; rows := _ |}).
  set (s4 := with_store (store s3 ++ [dropped]) s3).
  rewrite (bind_run _ _ _ _ _ (run_lift_ok _ _ _ (getitem_cell _ _ Hkm))).
  assert (Hlen : (1 ≤ length kept)%nat) by (destruct kept; [done | cbn; lia]).
  pose proof (insert_Ok 1 "DISTANCE_WEATHER_STATION_KM"
                (pd.cell "DISTANCE_WEATHER_STATION_KM" station) dropped
                Hno_km Hlen) as Hins1.
  rewrite (bind_run _ _ _ _ _
             (run_method_inplace _ _ _ _ _ (lookup_new s3 dropped) Hins1)).
  set (with_km := {| columns := pd.list_insert_at 1 _ (columns dropped);
                     rows := _ |}) in *.
  set (s5 := with_store (<[length (store s3) := with_km]> (store s4)) s4).
  rewrite (bind_run _ _ _ _ _ (run_lift_ok _ _ _ (getitem_cell _ _ Hstn))).
  assert (Hat : store s5 !! length (store s3) = Some with_km).
  { unfold s5. eapply lookup_saved. apply lookup_new. }
  assert (Hins2 : pd.insert 1 "STN_ID" (pd.cell "STN_ID" station) with_km
                  = Ok {| columns := pd.list_insert_at 1 "STN_ID"
                                       (columns with_km);
                          rows := (fun r => (r.1, pd.list_insert_at 1
                                     ("STN_ID", pd.cell "STN_ID" station) r.2))
                                  <$> rows with_km |}).
  { apply insert_Ok.
    - intros [?|?]%elem_of_list_insert_at; done.
    - unfold with_km, pd.list_insert_at. cbn [columns].
      rewrite length_app. cbn. lia. }
  rewrite (bind_run _ _ _ _ _ (run_method_inplace _ _ _ _ _ Hat Hins2)).
  eexists _, _, _. split; [reflexivity|].
  split; [eapply lookup_saved, Hat|].
  assert (Hcols : pd.list_insert_at 1 "STN_ID" (columns with_km)
                  = take 1 kept ++ "STN_ID" :: "DISTANCE_WEATHER_STATION_KM"
                                   :: drop 1 kept).
  { unfold with_km. cbn [columns dropped]. by destruct kept. }
  cbn [columns rows]. split; [exact Hcols|]. split.
  - rewrite Hcols. apply Forall_forall. intros c Hc Hin.
    assert (c ∈ kept) as [Hnot _]%list_elem_of_filter; [|done].
    apply elem_of_app in Hin as [Hin | Hin]; [by eapply subseteq_take|].
    apply elem_of_cons in Hin as [-> | Hin].
    { exfalso. revert Hc. apply (proj1 (bool_decide_eq_false _)).
      reflexivity. }
    apply elem_of_cons in Hin as [-> | Hin]; [|by eapply subseteq_drop].
    exfalso. revert Hc. apply (proj1 (bool_decide_eq_false _)).
    reflexivity.
  - unfold with_km, dropped. cbn [rows].
    rewrite <- !list_fmap_compose. done.
Qed.

End Observations.


(** ** pandas: concatenating pages *)

Section Concat.

Lemma add_keys_app (cols ks1 ks2 : list string) :
  pd.add_keys cols (ks1 ++ ks2) = pd.add_keys (pd.add_keys cols ks1) ks2.
Proof.
  revert cols. induction ks1 as [|k ks1 IH]; intros cols; cbn; [done|].
  apply IH.
Qed.

Lemma elem_of_add_keys (k : string) (cols ks : list string) :
  k ∈ pd.add_keys cols ks ↔ k ∈ cols ∨ k ∈ ks.
Proof.
  revert cols. induction ks as [|k' ks IH]; intros cols; cbn.
  - rewrite elem_of_nil. tauto.
  - rewrite IH, elem_of_cons. case_decide as Hin.
    + split; [tauto|]. intros [?|[->|?]]; tauto.
    + rewrite elem_of_app, list_elem_of_singleton. tauto.
Qed.

Lemma add_keys_add_keys (a c b : list string) :
  pd.add_keys a (pd.add_keys c b) = pd.add_keys (pd.add_keys a c) b.
Proof.
  revert c. induction b as [|k b IH]; intros c; cbn; [done|].
  rewrite IH. f_equal.
  destruct (decide (k ∈ c)) as [Hc|Hc].
  - rewrite decide_True; [done|]. apply elem_of_add_keys. by right.
  - by rewrite add_keys_app.
Qed.

Lemma columns_of_app (pre p : list dict) :
  columns_of (pre ++ p) = pd.add_keys (columns_of pre) (columns_of p).
Proof.
  unfold columns_of. induction p as [|d p IH] using rev_ind.
  - by rewrite app_nil_r.
  - rewrite app_assoc, !foldl_snoc, IH. by rewrite add_keys_add_keys.
Qed.

Lemma keys_columns_of (d : dict) (records : list dict) :
  d ∈ records → keys d ⊆ columns_of records.
Proof.
  intros (l1 & l2 & ->)%list_elem_of_split k Hk.
  change (d :: l2) with ([d] ++ l2).
  rewrite !columns_of_app. rewrite !elem_of_add_keys.
  right. left. unfold columns_of. cbn. apply elem_of_add_keys. by right.
Qed.

Lemma cell_absent (c : string) (d : dict) : c ∉ keys d → pd.cell c d = NaN.
Proof.
  unfold pd.cell, keys. induction d as [|[k v] d IH]; cbn; [done|].
  intros Hc. rewrite decide_False.
  - apply IH. intros ?. apply Hc. by right.
  - intros ->. apply Hc. by left.
Qed.

Lemma cell_reindex (c : string) (cols : list string) (d : dict) :
  pd.cell c (pd.reindex cols d)
  = if decide (c ∈ cols) then pd.cell c d else NaN.
Proof.
  unfold pd.reindex. induction cols as [|k cols IH]; [done|].
  rewrite fmap_cons. unfold pd.cell at 1. cbn [dict_get].
  destruct (decide (c = k)) as [->|Hne].
  - by rewrite decide_True by left.
  - fold (pd.cell c ((fun c0 => (c0, pd.cell c0 d)) <$> cols)). rewrite IH.
    destruct (decide (c ∈ cols)) as [Hin|Hin].
    + by rewrite decide_True by (by right).
    + rewrite decide_False; [done|]. by intros [?|?]%elem_of_cons.
Qed.

Lemma reindex_reindex (cols cols' : list string) (d : dict) :
  keys d ⊆ cols → pd.reindex cols' (pd.reindex cols d) = pd.reindex cols' d.
Proof.
  intros Hsub. unfold pd.reindex at 1 3. apply list_fmap_ext.
  intros _ c _. f_equal. rewrite cell_reindex. case_decide as Hc; [done|].
  symmetry. apply cell_absent. intros ?. by apply Hc, Hsub.
Qed.

Lemma rows_of_records (records : list dict) :
  (rows (pd.DataFrame_of_records records)).*2
  = pd.reindex (columns_of records) <$> records.
Proof.
  cbn. fold (columns_of records). rewrite fmap_imap.
  generalize (columns_of records) as cols. intros cols.
  induction records as [|d records IH] using rev_ind; [done|].
  by rewrite imap_app, fmap_app, IH.
Qed.

Lemma holds_of_records (records : list dict) :
  holds records (pd.DataFrame_of_records records).
Proof. split; [done | apply rows_of_records]. Qed.

(** Concatenation of a frame that holds [pre] with the frame of a page
    holds [pre] followed by the page. *)
Lemma holds_concat (pre p : list dict) (a : DataFrame) :
  holds pre a → holds (pre ++ p) (pd.concat a (pd.DataFrame_of_records p)).
Proof.
  intros [Hcols Hrows]. split.
  - cbn. fold (columns_of p). by rewrite columns_of_app, Hcols.
  - cbn [rows pd.concat].
    change (columns (pd.DataFrame_of_records p)) with (columns_of p).
    rewrite Hcols, <- columns_of_app.
    set (cols := columns_of (pre ++ p)).
    rewrite !fmap_app. f_equal.
    + transitivity (pd.reindex cols <$> (rows a).*2).
      { by rewrite <- !list_fmap_compose. }
      rewrite Hrows, <- list_fmap_compose.
      apply list_fmap_ext. intros i d Hd. cbn.
      apply reindex_reindex, keys_columns_of, list_elem_of_lookup. eauto.
    + transitivity (pd.reindex cols <$> (rows (pd.DataFrame_of_records p)).*2).
      { by rewrite <- !list_fmap_compose. }
      rewrite rows_of_records, <- list_fmap_compose.
      apply list_fmap_ext. intros i d Hd. cbn.
      apply reindex_reindex, keys_columns_of, list_elem_of_lookup. eauto.
Qed.

(** Relabelling a frame that holds [records] gives the frame of the
    records. *)
Lemma reset_index_holds (records : list dict) (df : DataFrame) :
  holds records df → pd.reset_index df = pd.DataFrame_of_records records.
Proof.
  intros [Hcols Hrows]. unfold pd.reset_index, pd.DataFrame_of_records.
  fold (columns_of records). rewrite Hcols. f_equal.
  transitivity (imap (fun i d => (Z.of_nat i, d)) (rows df).*2).
  - by rewrite imap_fmap.
  - by rewrite Hrows, imap_fmap.
Qed.

End Concat.


(** ** The station catalog fetcher: pagination *)

Section Pagination.
Context `{Externals}.

Lemma features_properties_page_reply (records : list dict) (startindex : Z) :
  features_properties (page_reply records startindex)
  = Ok (page records startindex).
Proof.
  unfold page_reply, features_properties. cbn.
  generalize (page records startindex) as l. intros l.
  induction l as [|d l IH]; [done|].
  cbn in *. by rewrite IH.
Qed.

Lemma answer_serves (records : list dict) (url province : string)
    (startindex : Z) (s : state) :
  serves records →
  answer url (station_params province startindex) s
  = Ok (page records startindex).
Proof.
  intros Hserves. unfold answer. rewrite Hserves.
  apply features_properties_page_reply.
Qed.

(** One turn of the [while True] loop on an answer that decodes. *)
Lemma scrape_pages_step (fuel : nat) (url : string) (params : dict) (r : ref)
    (s : state) (a : DataFrame) (recs : list dict) :
  store s !! r = Some a →
  answer url params s = Ok recs →
  scrape_pages (S fuel) url params r s
  = let s2 := exchanged url params s in
    let s3 := with_store
                ((store s2 ++ [pd.DataFrame_of_records recs])
                 ++ [pd.concat a (pd.DataFrame_of_records recs)]) s2 in
    let r3 := S (length (store s)) in
    if decide (Z.of_nat (length recs) = 500)
    then (lift (getitem "startindex" params ≫= add 500)
          ≫= fun startindex =>
               scrape_pages fuel url (dict_set "startindex" startindex params)
                 r3) s3
    else (Ret r3, s3).
Proof.
  intros Hr Hanswer. cbn [scrape_pages].
  rewrite (bind_run _ _ _ _ _ (run_get_properties _ _ _ _ Hanswer)).
  set (s2 := exchanged url params s).
  rewrite (bind_run _ _ _ _ _ (run_new _ _)).
  set (page_frame := pd.DataFrame_of_records recs).
  set (s2' := with_store (store s2 ++ [page_frame]) s2).
  assert (Ha : store s2' !! r = Some a).
  { cbn. by apply lookup_app_l_Some. }
  assert (Hb : store s2' !! length (store s2) = Some page_frame).
  { apply lookup_new. }
  erewrite bind_run.
  2:{ rewrite (bind_run _ _ _ _ _ (run_load _ _ _ Ha)).
      rewrite (bind_run _ _ _ _ _ (run_load _ _ _ Hb)).
      apply run_new. }
  set (s3 := with_store (store s2' ++ [pd.concat a page_frame]) s2').
  assert (Hb' : store s3 !! length (store s2) = Some page_frame).
  { cbn. apply lookup_app_l_Some. apply lookup_new. }
  erewrite bind_run.
  2:{ by rewrite (bind_run _ _ _ _ _ (run_load _ _ _ Hb')). }
  unfold pd.shape0, page_frame. cbn [rows pd.DataFrame_of_records].
  rewrite length_imap.
  assert (Hlen : length (store s2') = S (length (store s))).
  { cbn. rewrite length_app. cbn. lia. }
  rewrite Hlen. by case_decide.
Qed.

Lemma page_at (records : list dict) (k : nat) :
  page records (1 + 500 * Z.of_nat k) = take 500 (drop (500 * k) records).
Proof. unfold page. do 2 f_equal. lia. Qed.

(** The loop from page [k] on, against an API that serves [records]:
    it asks for the pages up to the first short one and leaves a frame
    that holds all the records. *)
Lemma scrape_pages_serves (records : list dict) (url province : string) :
  serves records →
  ∀ (d k fuel : nat) (r : ref) (s : state) (a : DataFrame),
    (k + d = length records / 500)%nat →
    (d < fuel)%nat →
    store s !! r = Some a →
    holds (take (500 * k) records) a →
    ∃ (r' : ref) (s' : state) (a' : DataFrame) (new : list exchange),
      scrape_pages fuel url (station_params province (1 + 500 * Z.of_nat k))
        r s = (Ret r', s')
      ∧ store s' !! r' = Some a'
      ∧ holds records a'
      ∧ trace s' = trace s ++ new
      ∧ params <$> new
        = station_params province
          <$> ((fun j => 1 + 500 * Z.of_nat j) <$> seq k (S d)).
Proof.
  intros Hserves d.
  pose proof (Nat.div_mod_eq (length records) 500) as Hdiv.
  pose proof (Nat.mod_upper_bound (length records) 500) as Hmod.
  induction d as [|d IH]; intros k fuel r s a Hk Hfuel Hr Ha;
    (destruct fuel as [|fuel]; [lia|]);
    rewrite (scrape_pages_step _ _ _ _ _ _ _ Hr
               (answer_serves _ url province _ s Hserves));
    cbn zeta; rewrite page_at;
    set (p := take 500 (drop (500 * k) records));
    set (s2 := exchanged _ _ s);
    set (s3 := with_store _ s2);
    (assert (Hr3 : store s3 !! S (length (store s))
                   = Some (pd.concat a (pd.DataFrame_of_records p)));
     [ cbn; apply list_lookup_middle; rewrite length_app; cbn; lia |]);
    (assert (Ha3 : holds (take (500 * k + 500) records)
                     (pd.concat a (pd.DataFrame_of_records p)));
     [ rewrite <- take_take_drop; by apply holds_concat |]).
  - rewrite decide_False.
    2:{ unfold p. rewrite length_take, length_drop. lia. }
    eexists _, _, _, _. split_and!; [done | exact Hr3 | | done | done].
    rewrite take_ge in Ha3; [done | lia].
  - rewrite decide_True.
    2:{ unfold p. rewrite length_take, length_drop. lia. }
    rewrite (bind_run _ _ _ _ _
               (run_lift_ok _ (Int (1 + 500 * Z.of_nat k + 500)) _ eq_refl)).
    cbn [dict_set station_params]. rewrite !decide_False by done.
    rewrite decide_True by done.
    replace (1 + 500 * Z.of_nat k + 500) with (1 + 500 * Z.of_nat (S k))
      by lia.
    destruct (IH (S k) fuel (S (length (store s))) s3
                (pd.concat a (pd.DataFrame_of_records p)))
      as (r' & s' & a' & new & Hrun & Hr' & Ha' & Htrace & Hparams);
      [lia | lia | exact Hr3 | |].
    { replace (500 * S k)%nat with (500 * k + 500)%nat by lia. exact Ha3. }
    fold (station_params province (1 + 500 * Z.of_nat (S k))).
    rewrite Hrun.
    eexists r', s', a', (_ :: new).
    split_and!; [done | done | done | |].
    + rewrite Htrace. cbn [trace s3 s2 with_store exchanged].
      by rewrite <- app_assoc.
    + rewrite fmap_cons, Hparams. done.
Qed.

Lemma trace_method (f : DataFrame → result DataFrame) (r : ref) (s : state) :
  trace (method f r s).2 = trace s.
Proof.
  unfold method, mbind, M_bind, load, lift, new.
  destruct (store s !! r) as [df|]; [|done]. by destruct (f df).
Qed.

(** C3 (amended). Against an API that serves [n] records in pages of
    500, one province costs exactly n/500 + 1 requests (the quotient
    rounded down), at start indexes 1, 501, 1001, ...: the loop stops
    at the first page shorter than 500, so that a last page that is
    full is followed by one more request, which comes back empty.  The
    table assembled from the pages holds the [n] records, one row each,
    in request order, labelled 0 to n-1. *)
Theorem scrape_pagination
    (records : list dict) (fuel : nat) (province : string) (s : state) :
  serves records →
  (length records / 500 < fuel)%nat →
  ∃ (all_weather_stations : ref) (s' : state) (new : list exchange),
    scrape_all fuel [province] s = (Ret all_weather_stations, s')
    ∧ store s' !! all_weather_stations
      = Some (pd.DataFrame_of_records records)
    ∧ trace s' = trace s ++ new
    ∧ length new = (length records / 500 + 1)%nat
    ∧ params <$> new
      = station_params province
        <$> start_indexes (length records / 500 + 1)
    ∧ trace (scrape_weather_stations fuel (inl province) s).2 = trace s'.
Proof.
  intros Hserves Hfuel.
  set (s0 := with_store (store s ++ [pd.DataFrame_empty]) s).
  destruct (scrape_pages_serves records stations_url province Hserves
              (length records / 500) 0 fuel (length (store s)) s0
              pd.DataFrame_empty)
    as (r' & s1 & a' & new & Hrun & Hr' & Ha' & Htrace & Hparams);
    [lia | done | apply lookup_new | done |].
  assert (Hall : scrape_all fuel [province] s
                 = (Ret r', with_store
                              (<[r' := pd.reset_index a']> (store s1)) s1)).
  { unfold scrape_all.
    rewrite (bind_run _ _ _ _ _ (run_new _ _)). fold s0.
    cbn [scrape_provinces].
    erewrite bind_run.
    2:{ erewrite bind_run; [reflexivity | exact Hrun]. }
    by rewrite (bind_run _ _ _ _ _
                  (run_method_inplace (fun df => Ok (pd.reset_index df))
                     r' s1 a' (pd.reset_index a') Hr' eq_refl)). }
  eexists _, _, new. split_and!.
  - exact Hall.
  - erewrite lookup_saved by exact Hr'. f_equal. by apply reset_index_holds.
  - exact Htrace.
  - rewrite <- (length_fmap params), Hparams, !length_fmap, length_seq.
    by rewrite Nat.add_1_r.
  - rewrite Hparams. unfold start_indexes. by rewrite Nat.add_1_r.
  - unfold scrape_weather_stations.
    rewrite (bind_run _ _ _ _ _ Hall).
    unfold fix_column_types, mbind, M_bind.
    pose proof (trace_method
                  (pd.assign
                     [("LONGITUDE", fun x => pd.column "LONGITUDE" x ≫= fun s => mapM (pd.truediv 10e6) (values s));
                      ("LATITUDE", fun x => pd.column "LATITUDE" x ≫= fun s => mapM (pd.truediv 10e6) (values s));
                      ("DLY_FIRST_DATE", fun x => pd.column "DLY_FIRST_DATE" x ≫= fun s => mapM to_datetime (values s));
                      ("DLY_LAST_DATE", fun x => pd.column "DLY_LAST_DATE" x ≫= fun s => mapM to_datetime (values s));
                      ("FIRST_DATE", fun x => pd.column "FIRST_DATE" x ≫= fun s => mapM to_datetime (values s));
                      ("LAST_DATE", fun x => pd.column "LAST_DATE" x ≫= fun s => mapM to_datetime (values s))])
                  r' (with_store (<[r' := pd.reset_index a']> (store s1)) s1))
      as Hsilent.
    destruct (method _ r' _) as [[?|?| |] ?]; exact Hsilent.
Qed.

End Pagination.


(** * Further properties *)

(** ** Requests: who makes them *)

Section Silent.
Context `{Externals}.

Lemma silent_ret {A : Type} (a : A) : silent (mret a).
Proof. by intros s. Qed.

Lemma silent_lift {A : Type} (r : result A) : silent (lift r).
Proof. intros s. unfold lift. by destruct r. Qed.

Lemma silent_new (df : DataFrame) : silent (new df).
Proof. by intros s. Qed.

Lemma silent_load (r : ref) : silent (load r).
Proof. intros s. unfold load. by destruct (store s !! r). Qed.

Lemma silent_save (r : ref) (df : DataFrame) : silent (save r df).
Proof. by intros s. Qed.

Lemma silent_bind {A B : Type} (m : M A) (f : A → M B) :
  silent m → (∀ a, silent (f a)) → silent (m ≫= f).
Proof.
  intros Hm Hf s. destruct (Hm s) as [Ht Hw].
  unfold mbind, M_bind.
  destruct (m s) as [[a|e| |] s1]; cbn [fst snd] in *; try done.
  destruct (Hf a s1) as [Ht' Hw']. split; congruence.
Qed.

Lemma silent_method (f : DataFrame → result DataFrame) (r : ref) :
  silent (method f r).
Proof.
  unfold method.
  repeat first [ apply silent_load | apply silent_lift | apply silent_new
               | apply silent_bind; [| intros ?] ].
Qed.

Lemma silent_method_inplace (f : DataFrame → result DataFrame) (r : ref) :
  silent (method_inplace f r).
Proof.
  unfold method_inplace.
  repeat first [ apply silent_load | apply silent_lift | apply silent_save
               | apply silent_bind; [| intros ?] ].
Qed.

Lemma silent_closest_weather_station latitude longitude date_ r :
  silent (closest_weather_station latitude longitude date_ r).
Proof.
  unfold closest_weather_station.
  repeat first
    [ apply silent_method | apply silent_load | apply silent_lift
    | apply silent_ret | apply silent_bind; [| intros ?] ].
Qed.

(** X1. The resolver works on the catalog it is handed and nothing else:
    it makes no request. *)
Theorem closest_weather_station_makes_no_request
    (latitude longitude : Q) (date_ : date) (weather_stations : ref)
    (s : state) :
  trace (closest_weather_station latitude longitude date_ weather_stations s).2
  = trace s
  ∧ world (closest_weather_station latitude longitude date_ weather_stations s).2
    = world s.
Proof. apply silent_closest_weather_station. Qed.

Lemma run_get_properties_raise (url : string) (params : dict) (s : state)
    (e : exn) :
  answer url params s = Raise e →
  get_properties url params s = (Exn e, exchanged url params s).
Proof.
  unfold answer, get_properties, exchanged, M_bind, get.
  unfold mbind at 1, M_bind.
  destruct (requests_get url params (world s)) as [r w]. cbn [fst snd].
  intros Hfp. destruct r as [| |b].
  - cbn in Hfp. by injection Hfp as <-.
  - cbn in Hfp. by injection Hfp as <-.
  - unfold lift. by rewrite Hfp.
Qed.

(** What is left of [weather_data] once the observations are in
    hand. *)
Lemma silent_weather_table (closest_station : dict) (weather_list : list dict) :
  silent
    (if decide (length weather_list = 0%nat)
     then
       weather ← new (pd.DataFrame_of_scalars closest_station [0]);
       weather ←
         method (pd.getitem_columns
                   ["STATION_NAME"; "STN_ID"; "CLIMATE_IDENTIFIER";
                    "DISTANCE_WEATHER_STATION_KM"])
           weather;
       mret weather
     else
       weather ← new (pd.DataFrame_of_records weather_list);
       weather ←
         method (pd.drop_columns
                   ["LOCAL_DATE"; "LOCAL_DAY"; "LOCAL_MONTH"; "LOCAL_YEAR";
                    "ID"; "PROVINCE_CODE"])
           weather;
       distance ← lift (getitem "DISTANCE_WEATHER_STATION_KM" closest_station);
       method_inplace (pd.insert 1 "DISTANCE_WEATHER_STATION_KM" distance) weather;;
       stn_id ← lift (getitem "STN_ID" closest_station);
       method_inplace (pd.insert 1 "STN_ID" stn_id) weather;;
       mret weather).
Proof.
  case_decide;
    repeat first
      [ apply silent_method | apply silent_method_inplace | apply silent_new
      | apply silent_lift | apply silent_ret
      | apply silent_bind; [| intros ?] ].
Qed.

(** X2. When the resolver has returned a station that carries a climate
    identifier, [weather_data] makes one request and no more, whatever
    comes back: to the daily observations, for that station and the
    day, month and year of the date. *)
Theorem weather_data_one_request
    (latitude longitude : Q) (date_ : date) (weather_stations : ref)
    (s s1 : state) (station : dict) :
  closest_weather_station latitude longitude date_ weather_stations s
  = (Ret station, s1) →
  "CLIMATE_IDENTIFIER" ∈ keys station →
  let params := daily_params (pd.cell "CLIMATE_IDENTIFIER" station) date_ in
  trace (weather_data latitude longitude date_ weather_stations s).2
  = trace s ++ [{| url := daily_url; params := params;
                   reply := (requests_get daily_url params (world s)).1 |}].
Proof.
  intros Hstation Hci params.
  destruct (silent_closest_weather_station latitude longitude date_
              weather_stations s) as [Ht Hw].
  rewrite Hstation in Ht, Hw. cbn [snd] in Ht, Hw.
  unfold weather_data.
  rewrite (bind_run _ _ _ _ _ Hstation).
  rewrite (bind_run _ _ _ _ _ (run_lift_ok _ _ _ (getitem_cell _ _ Hci))).
  fold params.
  destruct (answer daily_url params s1) as [recs|e] eqn:Hanswer.
  - rewrite (bind_run _ _ _ _ _ (run_get_properties _ _ _ _ Hanswer)).
    destruct (silent_weather_table station recs (exchanged daily_url params s1))
      as [Ht' _].
    rewrite Ht'. cbn [trace exchanged]. by rewrite Ht, Hw.
  - rewrite (bind_exn _ _ _ _ _ (run_get_properties_raise _ _ _ _ Hanswer)).
    cbn [snd trace exchanged]. by rewrite Ht, Hw.
Qed.

(** X3. A request for the observations that fails, or whose answer does
    not decode into records, makes [weather_data] raise the exception
    of that request; no table is built. *)
Theorem weather_data_request_fails
    (latitude longitude : Q) (date_ : date) (weather_stations : ref)
    (s s1 : state) (station : dict) (e : exn) :
  closest_weather_station latitude longitude date_ weather_stations s
  = (Ret station, s1) →
  "CLIMATE_IDENTIFIER" ∈ keys station →
  answer daily_url
    (daily_params (pd.cell "CLIMATE_IDENTIFIER" station) date_) s1
  = Raise e →
  (weather_data latitude longitude date_ weather_stations s).1 = Exn e
  ∧ store (weather_data latitude longitude date_ weather_stations s).2
    = store s1.
Proof.
  intros Hstation Hci Hanswer.
  unfold weather_data.
  rewrite (bind_run _ _ _ _ _ Hstation).
  rewrite (bind_run _ _ _ _ _ (run_lift_ok _ _ _ (getitem_cell _ _ Hci))).
  by rewrite (bind_exn _ _ _ _ _ (run_get_properties_raise _ _ _ _ Hanswer)).
Qed.

End Silent.

(** ** The resolver: what a returned record is *)

Section ResolverSound.
Context `{Externals}.

Lemma nearest_no_eligible latitude longitude date_ (catalog : DataFrame) :
  dated catalog →
  eligible_stations date_ catalog = [] →
  nearest latitude longitude date_ catalog = Raise ValueError.
Proof.
  intros Hdated Hnone.
  unfold nearest. rewrite (query_dated _ _ Hdated), Hnone.
  cbn. unfold pd.column. rewrite decide_True; [done|].
  cbn. case_decide; [done|]. apply elem_of_app. right. by left.
Qed.

Lemma keys_reindex (cols : list string) (d : dict) :
  keys (pd.reindex cols d) = cols.
Proof.
  unfold keys, pd.reindex. rewrite <- list_fmap_compose.
  induction cols as [|c cols IH]; [done|]. cbn. by rewrite IH.
Qed.

(** Whatever [nearest] returns is an eligible station with its
    distance. *)
Lemma nearest_inv latitude longitude date_ (catalog : DataFrame) (d : dict) :
  nearest latitude longitude date_ catalog = Ok d →
  ∃ (i : nat) (station : Z * dict) (q : Q),
    eligible_stations date_ catalog !! i = Some station
    ∧ station_distance latitude longitude station.2 = Ok q
    ∧ d = with_distance catalog station.2 q.
Proof.
  unfold nearest.
  destruct (pd.query _ catalog) as [dfq|e] eqn:Hq; [|done].
  apply query_Ok in Hq as ->. cbn [mbind result_bind].
  set (df := pd.reset_index _).
  destruct (apply_rows _ df) as [qs|e] eqn:Hqs;
    cbn [mbind result_bind pd.assign]; [|intros [=]].
  pose proof (mapM_Ok_inv _ _ _ Hqs) as Hall.
  pose proof (Forall2_length _ _ _ Hall) as Hlen.
  destruct (decide (qs = [])) as [-> | Hne].
  { destruct (rows df) as [|] eqn:Hrows; [|done].
    clear Hall. unfold pd.column. cbn [pd.set_column rows columns].
    rewrite Hrows.
    destruct (decide ("DISTANCE_WEATHER_STATION_KM" ∈ _)); cbn; intros [=]. }
  destruct (nearest_of_distances df qs) as (i & q & r & Hsel & Hr & Hq & _).
  { intros i r (r0 & _ & ->)%reset_index_lookup. done. }
  { done. }
  { done. }
  rewrite Hsel. intros [= <-].
  apply reset_index_lookup in Hr as Hr0. destruct Hr0 as (st & Hst & ->).
  exists i, st, q. split; [exact Hst|]. split; [|done].
  destruct (Forall2_lookup_l _ _ _ _ _ Hall Hr) as (q' & Hq' & Heq).
  assert (q' = q) as -> by congruence.
  cbn [snd] in Heq. unfold station_distance.
  repeat case_decide; try done.
Qed.

(** X4. Whenever the resolver returns, the record it returns is a station
    of the catalog whose dates strictly contain the query date: it has
    the catalog's columns and then the distance, every field of the
    station as the catalog has it, and the distance from the query
    point to that station. *)
Theorem closest_weather_station_returns_station
    (latitude longitude : Q) (date_ : date) (weather_stations : ref)
    (s : state) (catalog : DataFrame) (closest_station : dict) :
  store s !! weather_stations = Some catalog →
  "DISTANCE_WEATHER_STATION_KM" ∉ columns catalog →
  (closest_weather_station latitude longitude date_ weather_stations s).1
  = Ret closest_station →
  ∃ (station : Z * dict) (q : Q),
    station ∈ rows catalog
    ∧ eligible date_ station.2 = true
    ∧ station_distance latitude longitude station.2 = Ok q
    ∧ keys closest_station
      = columns catalog ++ ["DISTANCE_WEATHER_STATION_KM"]
    ∧ pd.cell "DISTANCE_WEATHER_STATION_KM" closest_station = Float q
    ∧ ∀ c, c ∈ columns catalog →
           pd.cell c closest_station = pd.cell c station.2.
Proof.
  intros Hcat Hfresh Hret.
  rewrite (closest_weather_station_run _ _ _ _ _ _ Hcat) in Hret.
  destruct (nearest _ _ _ catalog) as [d|e] eqn:Hnearest; [|done].
  injection Hret as ->.
  apply nearest_inv in Hnearest as (i & station & q & Hi & Hq & ->).
  apply list_elem_of_lookup_2 in Hi.
  apply list_elem_of_filter in Hi as [Hel Hin].
  exists station, q. unfold with_distance. rewrite decide_False by done.
  split_and!; [done | by apply Is_true_true | done | apply keys_reindex | |].
  - rewrite cell_reindex, decide_True; [apply cell_dict_set|].
    apply elem_of_app. right. by left.
  - intros c Hc. rewrite cell_reindex, decide_True.
    2:{ apply elem_of_app. by left. }
    apply cell_dict_set_ne. by intros ->.
Qed.

End ResolverSound.

(** ** The daily observation fetcher: when the resolver has no answer *)

Section ObservationsFail.
Context `{Externals}.

Lemma run_lift_raise {A : Type} (r : result A) (e : exn) (s : state) :
  r = Raise e → lift r s = (Exn e, s).
Proof. by intros ->. Qed.

(** X5. For a date no station of the catalog is open on, [weather_data]
    raises pandas' [ValueError], as the resolver does, before any
    request is made. *)
Theorem weather_data_no_eligible
    (latitude longitude : Q) (date_ : date) (weather_stations : ref)
    (s : state) (catalog : DataFrame) :
  store s !! weather_stations = Some catalog →
  dated catalog →
  eligible_stations date_ catalog = [] →
  (weather_data latitude longitude date_ weather_stations s).1
  = Exn ValueError
  ∧ trace (weather_data latitude longitude date_ weather_stations s).2
    = trace s.
Proof.
  intros Hcat Hdated Hnone.
  pose proof (closest_weather_station_run latitude longitude date_
                _ _ _ Hcat) as Hrun.
  rewrite (nearest_no_eligible _ _ _ _ Hdated Hnone) in Hrun.
  destruct (silent_closest_weather_station latitude longitude date_
              weather_stations s) as [Ht _].
  unfold weather_data.
  destruct (closest_weather_station _ _ _ _ s) as [o s1] eqn:Hcl.
  cbn [fst snd outcome_of] in *. subst o.
  by rewrite (bind_exn _ _ _ _ _ Hcl).
Qed.

(** X6. On a catalog without a CLIMATE_IDENTIFIER column, [weather_data]
    raises [KeyError] once the resolver has found a station, before any
    request is made. *)
Theorem weather_data_no_climate_identifier
    (latitude longitude : Q) (date_ : date) (weather_stations : ref)
    (s : state) (catalog : DataFrame) (closest_station : dict) :
  store s !! weather_stations = Some catalog →
  "CLIMATE_IDENTIFIER" ∉ columns catalog →
  (closest_weather_station latitude longitude date_ weather_stations s).1
  = Ret closest_station →
  (weather_data latitude longitude date_ weather_stations s).1
  = Exn (KeyError "CLIMATE_IDENTIFIER")
  ∧ trace (weather_data latitude longitude date_ weather_stations s).2
    = trace s.
Proof.
  intros Hcat Hno Hret.
  pose proof (closest_weather_station_run latitude longitude date_
                _ _ _ Hcat) as Hrun.
  rewrite Hret in Hrun.
  destruct (nearest _ _ _ catalog) as [d|e] eqn:Hnearest; [|done].
  injection Hrun as ->.
  apply nearest_inv in Hnearest as (i & station & q & _ & _ & ->).
  destruct (silent_closest_weather_station latitude longitude date_
              weather_stations s) as [Ht _].
  unfold weather_data.
  destruct (closest_weather_station _ _ _ _ s) as [o s1] eqn:Hcl.
  cbn [fst snd] in *. subst o.
  rewrite (bind_run _ _ _ _ _ Hcl).
  assert (Hget : getitem "CLIMATE_IDENTIFIER" (with_distance catalog station.2 q)
                 = Raise (KeyError "CLIMATE_IDENTIFIER")).
  { unfold getitem.
    destruct (dict_get _ _) as [v|] eqn:Hv; [|done].
    exfalso. assert (Hk : "CLIMATE_IDENTIFIER" ∈ keys (with_distance catalog station.2 q)).
    { clear -Hv. induction (with_distance catalog station.2 q) as [|[k w] l IH];
        [done|]. cbn in Hv. case_decide as Hd.
      - subst k. by left.
      - right. by apply IH. }
    unfold with_distance in Hk. rewrite keys_reindex in Hk.
    case_decide; [done|].
    apply elem_of_app in Hk as [Hk | Hk]; [done|].
    by apply list_elem_of_singleton in Hk. }
  by rewrite (bind_exn _ _ _ _ _ (run_lift_raise _ _ _ Hget)).
Qed.

End ObservationsFail.

(** ** The resolver: catalogs it cannot read, and row labels *)

Section ResolverEdges.
Context `{Externals}.

(** X7. On a catalog without a FIRST_DATE column the query of lines 85-87
    cannot name its variable: the resolver raises pandas'
    [UndefinedVariableError]. *)
Theorem closest_weather_station_no_first_date
    (latitude longitude : Q) (date_ : date) (weather_stations : ref)
    (s : state) (catalog : DataFrame) :
  store s !! weather_stations = Some catalog →
  "FIRST_DATE" ∉ columns catalog →
  (closest_weather_station latitude longitude date_ weather_stations s).1
  = Exn (UndefinedVariableError "FIRST_DATE").
Proof.
  intros Hcat Hno.
  rewrite (closest_weather_station_run _ _ _ _ _ _ Hcat).
  unfold nearest, pd.query. cbn [pd.eval].
  by destruct (decide ("FIRST_DATE" ∈ columns catalog)).
Qed.

(** X8. On a catalog without a LATITUDE column, with a station open on the
    date, the resolver raises [KeyError] when it reads the coordinates
    of the first such station. *)
Theorem closest_weather_station_no_latitude
    (latitude longitude : Q) (date_ : date) (weather_stations : ref)
    (s : state) (catalog : DataFrame) :
  store s !! weather_stations = Some catalog →
  dated catalog →
  eligible_stations date_ catalog ≠ [] →
  "LATITUDE" ∉ columns catalog →
  (closest_weather_station latitude longitude date_ weather_stations s).1
  = Exn (KeyError "LATITUDE").
Proof.
  intros Hcat Hdated Hne Hno.
  rewrite (closest_weather_station_run _ _ _ _ _ _ Hcat).
  unfold nearest. rewrite (query_dated _ _ Hdated). cbn [mbind result_bind].
  destruct (eligible_stations date_ catalog) as [|st sts]; [done|].
  unfold apply_rows. cbn [pd.reset_index rows columns imap mapM].
  by destruct (decide ("LATITUDE" ∈ columns catalog)).
Qed.

Lemma mapM_fmap {A B C : Type} (f : B → result C) (g : A → B) (l : list A) :
  mapM f (g <$> l) = mapM (fun x => f (g x)) l.
Proof. induction l as [|x l IH]; [done|]. cbn. by rewrite IH. Qed.

Lemma eval_ext (e : pd.expr) (df1 df2 : DataFrame) :
  columns df1 = columns df2 →
  (rows df1).*2 = (rows df2).*2 →
  pd.eval e df1 = pd.eval e df2.
Proof.
  intros Hc Hr. induction e as [c d|c d|e1 IH1 e2 IH2]; cbn [pd.eval].
  - rewrite Hc. case_decide; [|done].
    rewrite <- (mapM_fmap (fun row => pd.lt_date (pd.cell c row) d) snd
                  (rows df1)).
    rewrite <- (mapM_fmap (fun row => pd.lt_date (pd.cell c row) d) snd
                  (rows df2)).
    by rewrite Hr.
  - rewrite Hc. case_decide; [|done].
    rewrite <- (mapM_fmap (fun row => pd.gt_date (pd.cell c row) d) snd
                  (rows df1)).
    rewrite <- (mapM_fmap (fun row => pd.gt_date (pd.cell c row) d) snd
                  (rows df2)).
    by rewrite Hr.
  - by rewrite IH1, IH2.
Qed.

Lemma select_snd (l1 l2 : list (Z * dict)) (mask : list bool) :
  l1.*2 = l2.*2 → (pd.select l1 mask).*2 = (pd.select l2 mask).*2.
Proof.
  revert l2 mask. induction l1 as [|x l1 IH]; intros [|y l2] mask Heq;
    try done.
  destruct mask as [|b mask]; [done|].
  rewrite !fmap_cons in Heq. injection Heq as Hxy Heq.
  cbn [pd.select]. destruct b; [|by apply IH].
  rewrite !fmap_cons, Hxy. f_equal. by apply IH.
Qed.

Lemma reset_index_ext (df1 df2 : DataFrame) :
  columns df1 = columns df2 →
  (rows df1).*2 = (rows df2).*2 →
  pd.reset_index df1 = pd.reset_index df2.
Proof.
  intros Hc Hr. unfold pd.reset_index. rewrite Hc. f_equal.
  change (imap (fun (i : nat) (r : Z * dict) => (Z.of_nat i, r.2)) (rows df1))
    with (imap (fun i => (fun d : dict => (Z.of_nat i, d)) ∘ snd) (rows df1)).
  change (imap (fun (i : nat) (r : Z * dict) => (Z.of_nat i, r.2)) (rows df2))
    with (imap (fun i => (fun d : dict => (Z.of_nat i, d)) ∘ snd) (rows df2)).
  by rewrite <- !imap_fmap, Hr.
Qed.

Lemma nearest_ext latitude longitude date_ (c1 c2 : DataFrame) :
  columns c1 = columns c2 →
  (rows c1).*2 = (rows c2).*2 →
  nearest latitude longitude date_ c1 = nearest latitude longitude date_ c2.
Proof.
  intros Hc Hr. unfold nearest, pd.query.
  rewrite (eval_ext _ c1 c2 Hc Hr).
  destruct (pd.eval _ c2) as [mask|e]; [|done]. cbn [mbind result_bind].
  by rewrite (reset_index_ext
                {| columns := columns c1; rows := pd.select (rows c1) mask |}
                {| columns := columns c2; rows := pd.select (rows c2) mask |}
                Hc (select_snd _ _ _ Hr)).
Qed.

(** X9. The resolver does not look at the row labels of the catalog: two
    catalogs with the same columns and the same records in the same
    order, labelled differently, get the same answer.  (It relabels
    the stations it selects from before it takes the label of the
    minimum as a position.) *)
Theorem closest_weather_station_ignores_labels
    (latitude longitude : Q) (date_ : date) (r1 r2 : ref) (s1 s2 : state)
    (c1 c2 : DataFrame) :
  store s1 !! r1 = Some c1 →
  store s2 !! r2 = Some c2 →
  columns c1 = columns c2 →
  (rows c1).*2 = (rows c2).*2 →
  (closest_weather_station latitude longitude date_ r1 s1).1
  = (closest_weather_station latitude longitude date_ r2 s2).1.
Proof.
  intros H1 H2 Hc Hr.
  rewrite (closest_weather_station_run _ _ _ _ _ _ H1).
  rewrite (closest_weather_station_run _ _ _ _ _ _ H2).
  by rewrite (nearest_ext _ _ _ c1 c2 Hc Hr).
Qed.

End ResolverEdges.

Section ResolverEligibleOnly.
Context `{Externals}.

(** X10. Only the stations open on the date count: two catalogs with the
    same columns whose eligible stations are the same records in the
    same order get the same answer, whatever other stations they
    list. *)
Theorem closest_weather_station_only_eligible
    (latitude longitude : Q) (date_ : date) (r1 r2 : ref) (s1 s2 : state)
    (c1 c2 : DataFrame) :
  store s1 !! r1 = Some c1 →
  store s2 !! r2 = Some c2 →
  dated c1 →
  dated c2 →
  columns c1 = columns c2 →
  (eligible_stations date_ c1).*2 = (eligible_stations date_ c2).*2 →
  (closest_weather_station latitude longitude date_ r1 s1).1
  = (closest_weather_station latitude longitude date_ r2 s2).1.
Proof.
  intros H1 H2 Hd1 Hd2 Hc Hr.
  rewrite (closest_weather_station_run _ _ _ _ _ _ H1).
  rewrite (closest_weather_station_run _ _ _ _ _ _ H2).
  unfold nearest. rewrite (query_dated _ _ Hd1), (query_dated _ _ Hd2).
  cbn [mbind result_bind].
  by rewrite (reset_index_ext
                {| columns := columns c1;
                   rows := eligible_stations date_ c1 |}
                {| columns := columns c2;
                   rows := eligible_stations date_ c2 |} Hc Hr).
Qed.

End ResolverEligibleOnly.

(** ** The daily observation fetcher: a station without a name *)

Section FallbackRaise.
Context `{Externals}.

Lemma getitem_columns_Raise (cs : list string) (df : DataFrame) (c : string) :
  c ∈ cs → c ∉ columns df →
  ∃ c', c' ∈ cs ∧ (c' ∉ columns df)
        ∧ pd.getitem_columns cs df = Raise (KeyError c').
Proof.
  intros Hc Hno. unfold pd.getitem_columns.
  destruct (list_find _ cs) as [[i c']|] eqn:Hfind.
  - apply list_find_Some in Hfind as (Hi & Hc' & _).
    exists c'. split_and!; [by eapply list_elem_of_lookup_2 | done | done].
  - apply list_find_None in Hfind. rewrite Forall_forall in Hfind.
    by destruct (Hfind c Hc).
Qed.

(** X11. The fallback record wants the station's name and id: when the
    endpoint has no observation and the station returned by the
    resolver lacks one of STATION_NAME and STN_ID (the catalog has no
    such column), [weather_data] raises [KeyError] on a missing one,
    after the request. *)
Theorem weather_data_fallback_missing_key
    (latitude longitude : Q) (date_ : date) (weather_stations : ref)
    (s s1 : state) (station : dict) (c : string) :
  closest_weather_station latitude longitude date_ weather_stations s
  = (Ret station, s1) →
  "CLIMATE_IDENTIFIER" ∈ keys station →
  answer daily_url
    (daily_params (pd.cell "CLIMATE_IDENTIFIER" station) date_) s1 = Ok [] →
  c ∈ fallback_columns →
  c ∉ keys station →
  ∃ c' : string,
    c' ∈ fallback_columns
    ∧ (c' ∉ keys station)
    ∧ weather_data latitude longitude date_ weather_stations s
      = (Exn (KeyError c'),
         with_store
           (store s1 ++ [pd.DataFrame_of_scalars station [0]])
           (exchanged daily_url
              (daily_params (pd.cell "CLIMATE_IDENTIFIER" station) date_)
              s1)).
Proof.
  intros Hstation Hci Hanswer Hc Hno.
  destruct (getitem_columns_Raise fallback_columns
              (pd.DataFrame_of_scalars station [0]) c Hc Hno)
    as (c' & Hc' & Hno' & Hget).
  exists c'. split; [done|]. split; [done|].
  unfold weather_data.
  rewrite (bind_run _ _ _ _ _ Hstation).
  rewrite (bind_run _ _ _ _ _ (run_lift_ok _ _ _ (getitem_cell _ _ Hci))).
  rewrite (bind_run _ _ _ _ _ (run_get_properties _ _ _ _ Hanswer)).
  rewrite decide_True by done.
  rewrite (bind_run _ _ _ _ _ (run_new _ _)).
  by rewrite (bind_exn _ _ _ _ _
                (run_method_raise _ _ _ _ _ (lookup_new _ _) Hget)).
Qed.

End FallbackRaise.

(** ** The station catalog fetcher: what it asks for *)

Section Requests.
Context `{Externals}.

Lemma asks_silent {A : Type} (P : exchange → Prop) (m : M A) :
  silent m → asks P m.
Proof.
  intros Hm s. exists []. rewrite app_nil_r. split; [apply Hm | constructor].
Qed.

Lemma asks_bind {A B : Type} (P : exchange → Prop) (m : M A) (f : A → M B) :
  asks P m → (∀ a, asks P (f a)) → asks P (m ≫= f).
Proof.
  intros Hm Hf s. destruct (Hm s) as (new1 & Ht1 & H1).
  unfold mbind, M_bind.
  destruct (m s) as [[a|e| |] s1]; cbn [fst snd] in *;
    try (by exists new1).
  destruct (Hf a s1) as (new2 & Ht2 & H2).
  exists (new1 ++ new2). split; [by rewrite Ht2, Ht1, app_assoc|].
  by apply Forall_app.
Qed.

Lemma asks_mono {A : Type} (P Q : exchange → Prop) (m : M A) :
  (∀ x, P x → Q x) → asks P m → asks Q m.
Proof.
  intros HPQ Hm s. destruct (Hm s) as (new & Ht & Hnew).
  exists new. split; [done|]. by eapply Forall_impl.
Qed.

Lemma asks_get_properties (P : exchange → Prop) (url : string)
    (params : dict) :
  (∀ reply, P {| url := url; params := params; reply := reply |}) →
  asks P (get_properties url params).
Proof.
  intros HP s. unfold get_properties, mbind, M_bind, get.
  destruct (requests_get url params (world s)) as [answer w].
  exists [{| url := url; params := params; reply := answer |}].
  split; [|by constructor].
  destruct answer as [| |b]; cbn [fst snd trace]; try done.
  unfold lift. by destruct (features_properties (Json b)).
Qed.

Lemma next_startindex (province : string) (i : Z) :
  getitem "startindex" (station_params province i) ≫= add 500
  = Ok (Int (i + 500)).
Proof. reflexivity. Qed.

Lemma set_startindex (province : string) (i j : Z) :
  dict_set "startindex" (Int j) (station_params province i)
  = station_params province j.
Proof. reflexivity. Qed.

Lemma asks_scrape_pages (province : string) (fuel : nat) :
  ∀ (k : nat) (r : ref),
    asks (station_request [province])
      (scrape_pages fuel stations_url
         (station_params province (1 + 500 * Z.of_nat k)) r).
Proof.
  induction fuel as [|fuel IH]; intros k r; cbn [scrape_pages].
  - by apply asks_silent.
  - apply asks_bind.
    { apply asks_get_properties. intros reply. split; [done|].
      exists province, k. split; [by left | done]. }
    intros recs. apply asks_bind; [apply asks_silent, silent_new|].
    intros page. apply asks_bind.
    { apply asks_silent.
      repeat first [ apply silent_load | apply silent_new
                   | apply silent_bind; [| intros ?] ]. }
    intros all. apply asks_bind.
    { apply asks_silent.
      repeat first [ apply silent_load | apply silent_ret
                   | apply silent_bind; [| intros ?] ]. }
    intros n. case_decide; [|apply asks_silent, silent_ret].
    rewrite next_startindex. intros s.
    change ((lift (Ok (Int (1 + 500 * Z.of_nat k + 500))) ≫= _) s)
      with (scrape_pages fuel stations_url
              (dict_set "startindex" (Int (1 + 500 * Z.of_nat k + 500))
                 (station_params province (1 + 500 * Z.of_nat k))) all s).
    rewrite set_startindex.
    replace (1 + 500 * Z.of_nat k + 500) with (1 + 500 * Z.of_nat (S k))
      by lia.
    apply IH.
Qed.

Lemma asks_scrape_provinces (fuel : nat) (provinces : list string) :
  ∀ r : ref,
    asks (station_request provinces)
      (scrape_provinces fuel stations_url provinces r).
Proof.
  induction provinces as [|province provinces IH]; intros r;
    cbn [scrape_provinces].
  - apply asks_silent, silent_ret.
  - apply asks_bind.
    + eapply asks_mono; [|exact (asks_scrape_pages province fuel 0 r)].
      intros x (Hurl & p & k & Hp & Hparams). split; [done|].
      exists p, k. split; [|done].
      apply list_elem_of_singleton in Hp as ->. by left.
    + intros r'. eapply asks_mono; [|apply IH].
      intros x (Hurl & p & k & Hp & Hparams). split; [done|].
      exists p, k. split; [by right | done].
Qed.

(** X12. Whatever the API answers, [scrape_weather_stations] asks for
    nothing but pages of the station collection: every request goes to
    the climate-stations items, for one of the provinces given, in
    JSON, from a start index 1, 501, 1001, ... *)
Theorem scrape_weather_stations_requests
    (fuel : nat) (provinces : string + list string) (s : state) :
  ∃ new : list exchange,
    trace (scrape_weather_stations fuel provinces s).2 = trace s ++ new
    ∧ Forall (station_request
                (match provinces with
                 | inl province => [province]
                 | inr provinces => provinces
                 end)) new.
Proof.
  revert s. change (asks (station_request
                            (match provinces with
                             | inl province => [province]
                             | inr provinces => provinces
                             end))
                      (scrape_weather_stations fuel provinces)).
  unfold scrape_weather_stations, scrape_all, fix_column_types.
  apply asks_bind.
  - apply asks_bind; [apply asks_silent, silent_new|]. intros r.
    apply asks_bind; [apply asks_scrape_provinces|]. intros r'.
    apply asks_silent.
    repeat first [ apply silent_method_inplace | apply silent_ret
                 | apply silent_bind; [| intros ?] ].
  - intros r. apply asks_silent.
    repeat first [ apply silent_method | apply silent_ret
                 | apply silent_bind; [| intros ?] ].
Qed.

End Requests.

(** ** The station catalog fetcher: several provinces *)

Section Provinces.
Context `{Externals}.

Lemma answer_serves_by (records : string → list dict) (url province : string)
    (startindex : Z) (s : state) :
  serves_by records →
  answer url (station_params province startindex) s
  = Ok (page (records province) startindex).
Proof.
  intros Hserves. unfold answer. rewrite Hserves.
  apply features_properties_page_reply.
Qed.

(** The loop from page [k] of a province on, with the records of the
    provinces before it already in the frame. *)
Lemma scrape_pages_serves_by (records : string → list dict)
    (url province : string) (pre : list dict) :
  serves_by records →
  ∀ (d k fuel : nat) (r : ref) (s : state) (a : DataFrame),
    (k + d = length (records province) / 500)%nat →
    (d < fuel)%nat →
    store s !! r = Some a →
    holds (pre ++ take (500 * k) (records province)) a →
    ∃ (r' : ref) (s' : state) (a' : DataFrame) (new : list exchange),
      scrape_pages fuel url (station_params province (1 + 500 * Z.of_nat k))
        r s = (Ret r', s')
      ∧ store s' !! r' = Some a'
      ∧ holds (pre ++ records province) a'
      ∧ trace s' = trace s ++ new
      ∧ params <$> new
        = station_params province
          <$> ((fun j => 1 + 500 * Z.of_nat j) <$> seq k (S d)).
Proof.
  intros Hserves d. set (recs := records province).
  pose proof (Nat.div_mod_eq (length recs) 500) as Hdiv.
  pose proof (Nat.mod_upper_bound (length recs) 500) as Hmod.
  induction d as [|d IH]; intros k fuel r s a Hk Hfuel Hr Ha;
    (destruct fuel as [|fuel]; [lia|]);
    rewrite (scrape_pages_step _ _ _ _ _ _ _ Hr
               (answer_serves_by _ url province _ s Hserves));
    cbn zeta; rewrite page_at; fold recs;
    set (p := take 500 (drop (500 * k) recs));
    set (s2 := exchanged _ _ s);
    set (s3 := with_store _ s2);
    (assert (Hr3 : store s3 !! S (length (store s))
                   = Some (pd.concat a (pd.DataFrame_of_records p)));
     [ cbn; apply list_lookup_middle; rewrite length_app; cbn; lia |]);
    (assert (Ha3 : holds (pre ++ take (500 * k + 500) recs)
                     (pd.concat a (pd.DataFrame_of_records p)));
     [ rewrite <- take_take_drop, app_assoc; by apply holds_concat |]).
  - rewrite decide_False.
    2:{ unfold p. rewrite length_take, length_drop. lia. }
    eexists _, _, _, _. split_and!; [done | exact Hr3 | | done | done].
    rewrite take_ge in Ha3; [done | lia].
  - rewrite decide_True.
    2:{ unfold p. rewrite length_take, length_drop. lia. }
    rewrite (bind_run _ _ _ _ _
               (run_lift_ok _ (Int (1 + 500 * Z.of_nat k + 500)) _ eq_refl)).
    cbn [dict_set station_params]. rewrite !decide_False by done.
    rewrite decide_True by done.
    replace (1 + 500 * Z.of_nat k + 500) with (1 + 500 * Z.of_nat (S k))
      by lia.
    destruct (IH (S k) fuel (S (length (store s))) s3
                (pd.concat a (pd.DataFrame_of_records p)))
      as (r' & s' & a' & new & Hrun & Hr' & Ha' & Htrace & Hparams);
      [lia | lia | exact Hr3 | |].
    { replace (500 * S k)%nat with (500 * k + 500)%nat by lia. exact Ha3. }
    fold (station_params province (1 + 500 * Z.of_nat (S k))).
    rewrite Hrun.
    eexists r', s', a', (_ :: new).
    split_and!; [done | done | done | |].
    + rewrite Htrace. cbn [trace s3 s2 with_store exchanged].
      by rewrite <- app_assoc.
    + rewrite fmap_cons, Hparams. done.
Qed.

(** The loop over the provinces: the pages of each one in turn. *)
Lemma scrape_provinces_serves_by (records : string → list dict)
    (url : string) (fuel : nat) :
  serves_by records →
  ∀ (provinces : list string) (pre : list dict) (r : ref) (s : state)
    (a : DataFrame),
    Forall (fun province => (length (records province) / 500 < fuel)%nat)
      provinces →
    store s !! r = Some a →
    holds pre a →
    ∃ (r' : ref) (s' : state) (a' : DataFrame) (new : list exchange),
      scrape_provinces fuel url provinces r s = (Ret r', s')
      ∧ store s' !! r' = Some a'
      ∧ holds (pre ++ (provinces ≫= records)) a'
      ∧ trace s' = trace s ++ new
      ∧ params <$> new
        = provinces ≫= fun province =>
            province_requests province (length (records province)).
Proof.
  intros Hserves provinces.
  induction provinces as [|province provinces IH];
    intros pre r s a Hfuel Hr Ha; cbn [scrape_provinces].
  - exists r, s, a, []. rewrite !app_nil_r. by split_and!.
  - apply Forall_cons in Hfuel as [Hfuel1 Hfuel].
    destruct (scrape_pages_serves_by records url province pre Hserves
                (length (records province) / 500) 0 fuel r s a)
      as (r1 & s1 & a1 & new1 & Hrun1 & Hr1 & Ha1 & Htrace1 & Hparams1);
      [lia | done | done | by rewrite app_nil_r |].
    destruct (IH (pre ++ records province) r1 s1 a1 Hfuel Hr1 Ha1)
      as (r2 & s2 & a2 & new2 & Hrun2 & Hr2 & Ha2 & Htrace2 & Hparams2).
    exists r2, s2, a2, (new1 ++ new2).
    split_and!.
    + rewrite <- Hrun2. apply bind_run. exact Hrun1.
    + done.
    + rewrite bind_cons, app_assoc. exact Ha2.
    + by rewrite Htrace2, Htrace1, app_assoc.
    + rewrite fmap_app, Hparams1, Hparams2, bind_cons.
      f_equal. unfold province_requests, start_indexes.
      by rewrite Nat.add_1_r.
Qed.

(** Lines 33-54 against such an API. *)
Lemma scrape_all_serves_by (records : string → list dict) (fuel : nat)
    (provinces : list string) (s : state) :
  serves_by records →
  Forall (fun province => (length (records province) / 500 < fuel)%nat)
    provinces →
  ∃ (all_weather_stations : ref) (s' : state) (new : list exchange),
    scrape_all fuel provinces s = (Ret all_weather_stations, s')
    ∧ store s' !! all_weather_stations
      = Some (pd.DataFrame_of_records (provinces ≫= records))
    ∧ trace s' = trace s ++ new
    ∧ params <$> new
      = provinces ≫= fun province =>
          province_requests province (length (records province)).
Proof.
  intros Hserves Hfuel.
  set (s0 := with_store (store s ++ [pd.DataFrame_empty]) s).
  destruct (scrape_provinces_serves_by records stations_url fuel Hserves
              provinces [] (length (store s)) s0 pd.DataFrame_empty Hfuel)
    as (r' & s1 & a' & new & Hrun & Hr' & Ha' & Htrace & Hparams);
    [apply lookup_new | done |].
  exists r', (with_store (<[r' := pd.reset_index a']> (store s1)) s1), new.
  split_and!.
  - unfold scrape_all.
    rewrite (bind_run _ _ _ _ _ (run_new _ _)). fold s0.
    rewrite (bind_run _ _ _ _ _ Hrun).
    by rewrite (bind_run _ _ _ _ _
                  (run_method_inplace (fun df => Ok (pd.reset_index df))
                     r' s1 a' (pd.reset_index a') Hr' eq_refl)).
  - erewrite lookup_saved by exact Hr'. f_equal. by apply reset_index_holds.
  - exact Htrace.
  - exact Hparams.
Qed.

Lemma silent_fix_column_types (r : ref) : silent (fix_column_types r).
Proof. apply silent_method. Qed.

(** X13. Against an API that serves the stations of every province in
    pages of 500, the table [scrape_weather_stations] assembles (lines
    33-54) holds the records of the provinces in the order the
    provinces are given, one row each, labelled from 0 on across the
    provinces; the requests are those of each province in turn, each
    province from start index 1 to its first short page, and they are
    all the requests [scrape_weather_stations] makes. *)
Theorem scrape_all_provinces
    (records : string → list dict) (fuel : nat) (provinces : list string)
    (s : state) :
  serves_by records →
  Forall (fun province => (length (records province) / 500 < fuel)%nat)
    provinces →
  ∃ (all_weather_stations : ref) (s' : state) (new : list exchange),
    scrape_all fuel provinces s = (Ret all_weather_stations, s')
    ∧ store s' !! all_weather_stations
      = Some (pd.DataFrame_of_records (provinces ≫= records))
    ∧ trace s' = trace s ++ new
    ∧ params <$> new
      = (provinces ≫= fun province =>
           province_requests province (length (records province)))
    ∧ trace (scrape_weather_stations fuel (inr provinces) s).2 = trace s'.
Proof.
  intros Hserves Hfuel.
  destruct (scrape_all_serves_by records fuel provinces s Hserves Hfuel)
    as (r & s' & new & Hall & Hr & Htrace & Hparams).
  exists r, s', new. split_and!; try done.
  unfold scrape_weather_stations. rewrite (bind_run _ _ _ _ _ Hall).
  apply silent_bind; [apply silent_fix_column_types|].
  intros a. apply silent_ret.
Qed.

End Provinces.

(** ** The station catalog fetcher: the catalog it returns *)

Section Catalog.
Context `{Externals}.

Lemma method_inplace_inv (f : DataFrame → result DataFrame) (r : ref)
    (s s' : state) (u : unit) :
  method_inplace f r s = (Ret u, s') →
  ∃ df df', store s !! r = Some df ∧ f df = Ok df'
            ∧ s' = with_store (<[r := df']> (store s)) s.
Proof.
  unfold method_inplace, mbind, M_bind, load, lift, save.
  destruct (store s !! r) as [df|]; [|done].
  destruct (f df) as [df'|] eqn:Hf; [|done].
  intros [= <-]. by exists df, df'.
Qed.

(** The table lines 33-54 leave is one that was relabelled. *)
Lemma scrape_all_inv (fuel : nat) (provinces : list string) (r : ref)
    (s s1 : state) :
  scrape_all fuel provinces s = (Ret r, s1) →
  ∃ a, store s1 !! r = Some (pd.reset_index a).
Proof.
  unfold scrape_all. rewrite (bind_run _ _ _ _ _ (run_new _ _)).
  unfold mbind at 1, M_bind.
  destruct (scrape_provinces _ _ _ _ _) as [[r'|e| |] s0]; try done.
  unfold mbind at 1, M_bind.
  destruct (method_inplace _ r' s0) as [[u|e| |] s0'] eqn:Hreset; try done.
  intros [= <- <-].
  apply method_inplace_inv in Hreset as (a & a' & Ha & [= <-] & ->).
  exists a. by eapply lookup_saved.
Qed.

Lemma reset_index_labels (df : DataFrame) :
  (rows (pd.reset_index df)).*1 = Z.of_nat <$> seq 0 (length (rows df)).
Proof.
  unfold pd.reset_index. cbn [rows].
  generalize (rows df). intros l.
  change (fun (i : nat) (r : Z * dict) => (Z.of_nat i, r.2))
    with (fun (i : nat) (r : Z * dict) => (Z.of_nat (0 + i), r.2)).
  generalize 0%nat. induction l as [|x l IH]; intros n; [done|].
  rewrite imap_cons. cbn [fmap list_fmap length seq fst]. rewrite Nat.add_0_r.
  f_equal. rewrite <- IH. f_equal. apply imap_ext. intros i y _. cbn.
  by rewrite Nat.add_succ_r.
Qed.

Lemma fixed_labels (raw df : list (Z * dict)) :
  Forall2 fixed raw df → df.*1 = raw.*1.
Proof.
  induction 1 as [|r r' raw df [Hl _] _ IH]; [done|].
  cbn. by rewrite Hl, IH.
Qed.

Lemma assign_map_column_in (c : string) (f : value → result value)
    (kwargs : list (string * (DataFrame → result (list value))))
    (df df' : DataFrame) :
  pd.assign ((c, fun x => pd.column c x ≫= fun s => mapM f (values s))
             :: kwargs) df = Ok df' →
  c ∈ columns df.
Proof.
  cbn [pd.assign]. unfold pd.column.
  by destruct (decide (c ∈ columns df)).
Qed.

Lemma truediv_is_float (d : Q) (v w : value) :
  pd.truediv d v = Ok w → is_float w.
Proof. destruct v; cbn; intros [= <-]; done. Qed.

(** Lines 56-64 need the six columns. *)
Lemma fix_column_types_columns (r r' : ref) (s s' : state) :
  fix_column_types r s = (Ret r', s') →
  ∃ raw, store s !! r = Some raw
         ∧ Forall (fun c => c ∈ columns raw) fixed_columns.
Proof.
  unfold fix_column_types. intros Hrun.
  apply method_inv in Hrun as (raw & df & Hraw & Hassign & -> & ->).
  exists raw. split; [done|].
  pose proof (assign_map_column_in _ _ _ _ _ Hassign) as Hin1.
  apply assign_map_column in Hassign as (df1 & Hc1 & _ & Hassign).
  pose proof (assign_map_column_in _ _ _ _ _ Hassign) as Hin2.
  apply assign_map_column in Hassign as (df2 & Hc2 & _ & Hassign).
  pose proof (assign_map_column_in _ _ _ _ _ Hassign) as Hin3.
  apply assign_map_column in Hassign as (df3 & Hc3 & _ & Hassign).
  pose proof (assign_map_column_in _ _ _ _ _ Hassign) as Hin4.
  apply assign_map_column in Hassign as (df4 & Hc4 & _ & Hassign).
  pose proof (assign_map_column_in _ _ _ _ _ Hassign) as Hin5.
  apply assign_map_column in Hassign as (df5 & Hc5 & _ & Hassign).
  pose proof (assign_map_column_in _ _ _ _ _ Hassign) as Hin6.
  rewrite Hc5, Hc4, Hc3, Hc2, Hc1 in Hin6.
  rewrite Hc4, Hc3, Hc2, Hc1 in Hin5.
  rewrite Hc3, Hc2, Hc1 in Hin4.
  rewrite Hc2, Hc1 in Hin3.
  rewrite Hc1 in Hin2.
  unfold fixed_columns. repeat constructor; done.
Qed.

(** X14. A catalog [scrape_weather_stations] returns has its rows labelled
    0, 1, 2, ... in order, whatever the pages they came from; it has
    the six columns LONGITUDE, LATITUDE, DLY_FIRST_DATE, DLY_LAST_DATE,
    FIRST_DATE and LAST_DATE; and its coordinates are floats. *)
Theorem scrape_weather_stations_catalog
    (fuel : nat) (provinces : string + list string) (s s' : state)
    (catalog : ref) :
  scrape_weather_stations fuel provinces s = (Ret catalog, s') →
  ∃ df : DataFrame,
    store s' !! catalog = Some df
    ∧ (rows df).*1 = Z.of_nat <$> seq 0 (length (rows df))
    ∧ Forall (fun c => c ∈ columns df) fixed_columns
    ∧ Forall (fun r : Z * dict =>
                is_float (pd.cell "LONGITUDE" r.2)
                ∧ is_float (pd.cell "LATITUDE" r.2))
        (rows df).
Proof.
  unfold scrape_weather_stations. intros Hrun.
  unfold mbind at 1, M_bind in Hrun.
  destruct (scrape_all fuel _ s) as [[fetched|e| |] s1] eqn:Hall; try done.
  unfold mbind, M_bind in Hrun.
  destruct (fix_column_types fetched s1) as [[r'|e| |] s2] eqn:Hfix; try done.
  injection Hrun as <- <-.
  destruct (fix_column_types_rows _ _ _ _ Hfix)
    as (raw & df & Hraw & Hdf & Hcols & Hrows).
  destruct (fix_column_types_columns _ _ _ _ Hfix) as (raw' & Hraw' & Hin).
  assert (raw' = raw) as -> by congruence.
  apply scrape_all_inv in Hall as (a & Ha).
  assert (raw = pd.reset_index a) as -> by congruence.
  exists df. split_and!.
  - done.
  - rewrite (fixed_labels _ _ Hrows), reset_index_labels.
    apply Forall2_length in Hrows. rewrite <- Hrows.
    unfold pd.reset_index. cbn [rows]. by rewrite length_imap.
  - by rewrite Hcols.
  - apply Forall_forall. intros row Hrow.
    apply list_elem_of_lookup in Hrow as [i Hi].
    destruct (Forall2_lookup_r _ _ _ _ _ Hrows Hi)
      as (r0 & _ & _ & Hlon & Hlat & _).
    split; by eapply truediv_is_float.
Qed.

Lemma run_fix_column_types_no_longitude (r : ref) (s : state)
    (raw : DataFrame) :
  store s !! r = Some raw →
  "LONGITUDE" ∉ columns raw →
  fix_column_types r s = (Exn (KeyError "LONGITUDE"), s).
Proof.
  intros Hraw Hno. unfold fix_column_types.
  eapply run_method_raise; [exact Hraw|].
  cbn [pd.assign]. unfold pd.column. by rewrite decide_False.
Qed.

(** X15. When the table assembled from the pages has no LONGITUDE column,
    as when no record was fetched at all, [scrape_weather_stations]
    returns no catalog: it raises [KeyError]. *)
Theorem scrape_weather_stations_no_longitude
    (fuel : nat) (provinces : string + list string) (s s1 : state)
    (fetched : ref) (raw : DataFrame) :
  scrape_all fuel
    (match provinces with inl p => [p] | inr ps => ps end) s
  = (Ret fetched, s1) →
  store s1 !! fetched = Some raw →
  "LONGITUDE" ∉ columns raw →
  scrape_weather_stations fuel provinces s
  = (Exn (KeyError "LONGITUDE"), s1).
Proof.
  intros Hall Hraw Hno. unfold scrape_weather_stations.
  rewrite (bind_run _ _ _ _ _ Hall).
  by rewrite (bind_exn _ _ _ _ _
                (run_fix_column_types_no_longitude _ _ _ Hraw Hno)).
Qed.

(** X16. Asked for provinces the API lists no station of (or for no
    province at all), [scrape_weather_stations] makes one request per
    province and then raises [KeyError] on the missing LONGITUDE
    column, where an empty catalog might be expected. *)
Theorem scrape_weather_stations_no_station
    (records : string → list dict) (fuel : nat) (provinces : list string)
    (s : state) :
  serves_by records →
  Forall (fun province => records province = []) provinces →
  (0 < fuel)%nat →
  ∃ new : list exchange,
    (scrape_weather_stations fuel (inr provinces) s).1
    = Exn (KeyError "LONGITUDE")
    ∧ trace (scrape_weather_stations fuel (inr provinces) s).2
      = trace s ++ new
    ∧ params <$> new
      = (fun province => station_params province 1) <$> provinces.
Proof.
  intros Hserves Hnone Hfuel.
  destruct (scrape_all_serves_by records fuel provinces s Hserves)
    as (r & s' & new & Hall & Hr & Htrace & Hparams).
  { eapply Forall_impl; [exact Hnone|]. intros p ->. exact Hfuel. }
  assert (Hempty : provinces ≫= records = []).
  { clear -Hnone. induction Hnone as [|p ps Hp _ IH]; [done|].
    by rewrite bind_cons, Hp, IH. }
  rewrite Hempty in Hr.
  unfold scrape_weather_stations. rewrite (bind_run _ _ _ _ _ Hall).
  rewrite (bind_exn _ _ _ _ _
             (run_fix_column_types_no_longitude _ _ _ Hr
                (not_elem_of_nil _))).
  exists new. split_and!; [done | done |].
  rewrite Hparams. clear -Hnone.
  induction Hnone as [|p ps Hp _ IH]; [done|].
  rewrite bind_cons, fmap_cons, IH, Hp. done.
Qed.

End Catalog.

(** ** The daily observation fetcher: the frames it touches *)

Section Keeps.
Context `{Externals}.

Lemma keeps_allocates {A : Type} (n : nat) (m : M A) :
  allocates m → keeps n m.
Proof.
  intros Hm s Hn. destruct (Hm s) as [k Hk]. rewrite Hk.
  split; [by apply take_app_le | rewrite length_app; lia].
Qed.

Lemma keeps_bind_fresh {B : Type} (n : nat) (m : M ref) (f : ref → M B) :
  keeps n m → fresh n m → (∀ r, (n ≤ r)%nat → keeps n (f r)) →
  keeps n (m ≫= f).
Proof.
  intros Hm Hfresh Hf s Hn. destruct (Hm s Hn) as [Ht Hl].
  specialize (Hfresh s). unfold mbind, M_bind.
  destruct (m s) as [[r|e| |] s1]; cbn [fst snd] in *; try done.
  destruct (Hf r (Hfresh r Hn eq_refl) s1 Hl) as [Ht' Hl'].
  split; [congruence | done].
Qed.

Lemma keeps_bind {A B : Type} (n : nat) (m : M A) (f : A → M B) :
  keeps n m → (∀ a, keeps n (f a)) → keeps n (m ≫= f).
Proof.
  intros Hm Hf s Hn. destruct (Hm s Hn) as [Ht Hl].
  unfold mbind, M_bind.
  destruct (m s) as [[a|e| |] s1]; cbn [fst snd] in *; try done.
  destruct (Hf a s1 Hl) as [Ht' Hl']. split; [congruence | done].
Qed.

Lemma keeps_get_properties (n : nat) (url : string) (params : dict) :
  keeps n (get_properties url params).
Proof.
  intros s Hn. unfold get_properties, mbind, M_bind, get.
  destruct (requests_get url params (world s)) as [answer w].
  destruct answer as [| |b]; cbn [fst snd store]; try done.
  unfold lift. by destruct (features_properties (Json b)).
Qed.

Lemma keeps_method_inplace (n : nat) (f : DataFrame → result DataFrame)
    (r : ref) :
  (n ≤ r)%nat → keeps n (method_inplace f r).
Proof.
  intros Hr s Hn. unfold method_inplace, mbind, M_bind, load, lift, save.
  destruct (store s !! r) as [df|]; [|done].
  destruct (f df) as [df'|]; [|done]. cbn [fst snd store with_store].
  split; [by apply take_insert_ge | by rewrite length_insert].
Qed.

Lemma fresh_new (n : nat) (df : DataFrame) : fresh n (new df).
Proof. intros s r Hn [= <-]. done. Qed.

Lemma fresh_method (n : nat) (f : DataFrame → result DataFrame) (r : ref) :
  fresh n (method f r).
Proof.
  intros s r' Hn Hrun.
  destruct (method f r s) as [o s'] eqn:Hm. cbn in Hrun. subst o.
  apply method_inv in Hm as (_ & _ & _ & _ & -> & _). done.
Qed.

Lemma keeps_weather_data (n : nat) latitude longitude date_ r :
  keeps n (weather_data latitude longitude date_ r).
Proof.
  unfold weather_data.
  apply keeps_bind;
    [apply keeps_allocates, closest_weather_station_allocates|].
  intros closest_station.
  apply keeps_bind; [apply keeps_allocates, allocates_lift|].
  intros climate_identifier.
  apply keeps_bind; [apply keeps_get_properties|].
  intros weather_list. case_decide.
  - apply keeps_allocates.
    repeat first [ apply allocates_new | apply allocates_method
                 | apply allocates_ret | apply allocates_bind; [| intros ?] ].
  - apply keeps_bind; [apply keeps_allocates, allocates_new|].
    intros table.
    apply keeps_bind_fresh;
      [apply keeps_allocates, allocates_method | apply fresh_method |].
    intros weather Hweather.
    repeat first
      [ apply keeps_method_inplace; exact Hweather
      | apply keeps_allocates, allocates_lift
      | apply keeps_allocates, allocates_ret
      | apply keeps_bind; [| intros ?] ].
Qed.

(** X17. [weather_data] changes a frame in place, by [insert], but only the
    table it has built itself: whatever the outcome, the catalog it was
    handed is as it was. *)
Theorem weather_data_keeps_catalog
    (latitude longitude : Q) (date_ : date) (weather_stations : ref)
    (s : state) (catalog : DataFrame) :
  store s !! weather_stations = Some catalog →
  store (weather_data latitude longitude date_ weather_stations s).2
    !! weather_stations = Some catalog.
Proof.
  intros Hcat.
  destruct (keeps_weather_data (length (store s)) latitude longitude date_
              weather_stations s) as [Ht _]; [done|].
  apply lookup_lt_Some in Hcat as Hlt.
  rewrite <- (lookup_take_lt _ (length (store s))) by done.
  rewrite Ht. by rewrite lookup_take_lt.
Qed.

End Keeps.

(** ** The daily observation fetcher: observations it cannot lay out *)

Section ObservationsRaise.
Context `{Externals}.

Lemma drop_columns_Raise (labels : list string) (df : DataFrame) (c : string) :
  c ∈ labels → c ∉ columns df →
  ∃ c', c' ∈ labels ∧ (c' ∉ columns df)
        ∧ pd.drop_columns labels df = Raise (KeyError c').
Proof.
  intros Hc Hno. unfold pd.drop_columns.
  destruct (list_find _ labels) as [[i c']|] eqn:Hfind.
  - apply list_find_Some in Hfind as (Hi & Hc' & _).
    exists c'. split_and!; [by eapply list_elem_of_lookup_2 | done | done].
  - apply list_find_None in Hfind. rewrite Forall_forall in Hfind.
    by destruct (Hfind c Hc).
Qed.

Lemma run_method_inplace_raise (f : DataFrame → result DataFrame) (r : ref)
    (s : state) (df : DataFrame) (e : exn) :
  store s !! r = Some df → f df = Raise e →
  method_inplace f r s = (Exn e, s).
Proof.
  intros Hr Hf. unfold method_inplace.
  rewrite (bind_run _ _ _ _ _ (run_load _ _ _ Hr)).
  unfold mbind, M_bind, lift. by rewrite Hf.
Qed.

(** X18. [drop] wants all six columns: observations that lack one of
    LOCAL_DATE, LOCAL_DAY, LOCAL_MONTH, LOCAL_YEAR, ID and
    PROVINCE_CODE make [weather_data] raise [KeyError] on a column
    that is missing. *)
Theorem weather_data_missing_column
    (latitude longitude : Q) (date_ : date) (weather_stations : ref)
    (s s1 : state) (station : dict) (observations : list dict) (c : string) :
  closest_weather_station latitude longitude date_ weather_stations s
  = (Ret station, s1) →
  "CLIMATE_IDENTIFIER" ∈ keys station →
  answer daily_url
    (daily_params (pd.cell "CLIMATE_IDENTIFIER" station) date_) s1
  = Ok observations →
  observations ≠ [] →
  c ∈ redundant_columns →
  c ∉ columns (pd.DataFrame_of_records observations) →
  ∃ c' : string,
    c' ∈ redundant_columns
    ∧ (c' ∉ columns (pd.DataFrame_of_records observations))
    ∧ (weather_data latitude longitude date_ weather_stations s).1
      = Exn (KeyError c').
Proof.
  intros Hstation Hci Hanswer Hrows Hc Hno.
  destruct (drop_columns_Raise redundant_columns _ c Hc Hno)
    as (c' & Hc' & Hno' & Hdrop).
  exists c'. split; [done|]. split; [done|].
  unfold weather_data.
  rewrite (bind_run _ _ _ _ _ Hstation).
  rewrite (bind_run _ _ _ _ _ (run_lift_ok _ _ _ (getitem_cell _ _ Hci))).
  rewrite (bind_run _ _ _ _ _ (run_get_properties _ _ _ _ Hanswer)).
  rewrite decide_False by (by destruct observations).
  rewrite (bind_run _ _ _ _ _ (run_new _ _)).
  by rewrite (bind_exn _ _ _ _ _
                (run_method_raise _ _ _ _ _ (lookup_new _ _) Hdrop)).
Qed.

(** X19. [insert] refuses a column that exists: observations that already
    carry a column named STN_ID or DISTANCE_WEATHER_STATION_KM make
    [weather_data] raise [ValueError]. *)
Theorem weather_data_column_exists
    (latitude longitude : Q) (date_ : date) (weather_stations : ref)
    (s s1 : state) (station : dict) (observations : list dict) :
  closest_weather_station latitude longitude date_ weather_stations s
  = (Ret station, s1) →
  "CLIMATE_IDENTIFIER" ∈ keys station →
  "STN_ID" ∈ keys station →
  "DISTANCE_WEATHER_STATION_KM" ∈ keys station →
  answer daily_url
    (daily_params (pd.cell "CLIMATE_IDENTIFIER" station) date_) s1
  = Ok observations →
  observations ≠ [] →
  Forall (fun c => c ∈ columns (pd.DataFrame_of_records observations))
    redundant_columns →
  "STN_ID" ∈ columns (pd.DataFrame_of_records observations)
  ∨ "DISTANCE_WEATHER_STATION_KM"
    ∈ columns (pd.DataFrame_of_records observations) →
  (weather_data latitude longitude date_ weather_stations s).1
  = Exn ValueError.
Proof.
  intros Hstation Hci Hstn Hkm Hanswer Hrows Hredundant Hexists.
  set (table := pd.DataFrame_of_records observations) in *.
  set (kept := filter (fun c => c ∉ redundant_columns) (columns table)).
  assert (Hkept : ∀ c, c ∉ redundant_columns → c ∈ columns table → c ∈ kept).
  { intros c Hc Hin. by apply list_elem_of_filter. }
  assert (Hstn_kept : "STN_ID" ∈ columns table → "STN_ID" ∈ kept).
  { apply Hkept. apply (proj1 (bool_decide_eq_false _)). reflexivity. }
  assert (Hkm_kept : "DISTANCE_WEATHER_STATION_KM" ∈ columns table
                     → "DISTANCE_WEATHER_STATION_KM" ∈ kept).
  { apply Hkept. apply (proj1 (bool_decide_eq_false _)). reflexivity. }
  unfold weather_data.
  rewrite (bind_run _ _ _ _ _ Hstation).
  rewrite (bind_run _ _ _ _ _ (run_lift_ok _ _ _ (getitem_cell _ _ Hci))).
  rewrite (bind_run _ _ _ _ _ (run_get_properties _ _ _ _ Hanswer)).
  rewrite decide_False by (by destruct observations).
  set (s2 := exchanged _ _ s1).
  rewrite (bind_run _ _ _ _ _ (run_new _ _)). fold table.
  set (s3 := with_store (store s2 ++ [table]) s2).
  rewrite (bind_run _ _ _ _ _
             (run_method _ _ _ _ _ (lookup_new s2 table)
                (drop_columns_Ok redundant_columns table Hredundant))).
  fold s3 kept.
  set (dropped := {| columns := kept; rows := _ |}).
  set (s4 := with_store (store s3 ++ [dropped]) s3).
  rewrite (bind_run _ _ _ _ _ (run_lift_ok _ _ _ (getitem_cell _ _ Hkm))).
  destruct (decide ("DISTANCE_WEATHER_STATION_KM" ∈ kept)) as [Hin | Hno_km].
  { erewrite bind_exn; [done|].
    eapply run_method_inplace_raise; [apply (lookup_new s3 dropped)|].
    unfold pd.insert. by rewrite decide_True. }
  assert (Hin : "STN_ID" ∈ kept).
  { destruct Hexists as [?|?]; [by apply Hstn_kept|].
    by destruct Hno_km; apply Hkm_kept. }
  assert (Hlen : (1 ≤ length kept)%nat).
  { destruct kept; [by apply elem_of_nil in Hin | cbn; lia]. }
  pose proof (insert_Ok 1 "DISTANCE_WEATHER_STATION_KM"
                (pd.cell "DISTANCE_WEATHER_STATION_KM" station) dropped
                Hno_km Hlen) as Hins1.
  rewrite (bind_run _ _ _ _ _
             (run_method_inplace _ _ _ _ _ (lookup_new s3 dropped) Hins1)).
  set (with_km := {| columns := pd.list_insert_at 1 _ (columns dropped);
                     rows := _ |}) in *.
  rewrite (bind_run _ _ _ _ _ (run_lift_ok _ _ _ (getitem_cell _ _ Hstn))).
  erewrite bind_exn; [done|].
  eapply run_method_inplace_raise.
  { eapply lookup_saved. apply (lookup_new s3 dropped). }
  unfold pd.insert. rewrite decide_True; [done|].
  unfold with_km, pd.list_insert_at. cbn [columns dropped].
  rewrite <- (take_drop 1 kept) in Hin.
  apply elem_of_app in Hin as [Hin | Hin]; apply elem_of_app;
    [by left | right; by right].
Qed.

End ObservationsRaise.


(** * The properties at work on the fixtures *)

Lemma closest_weather_station_keeps_catalog_witness :
  store (closest_weather_station (H := offline (daily_api []))
           45 (-75) (new_year 2000) 0%nat
           (initial (daily_api []) [sample_catalog])).2 !! 0%nat
  = Some sample_catalog.
Proof.
  apply (closest_weather_station_keeps_catalog (H := offline (daily_api []))).
  reflexivity.
Defined.

Lemma eligible_iff_strictly_inside_witness :
  (∀ station,
     station ∈ rows sample_selected
     ↔ station ∈ rows sample_catalog
       ∧ before (new_year 2000) (pd.cell "FIRST_DATE" station.2) = true
       ∧ after (new_year 2000) (pd.cell "LAST_DATE" station.2) = true)
  ∧ (∀ station,
       station ∈ rows sample_catalog →
       pd.cell "FIRST_DATE" station.2 = Timestamp (new_year 2000) 0
       ∨ pd.cell "LAST_DATE" station.2 = Timestamp (new_year 2000) 0 →
       station ∉ rows sample_selected).
Proof.
  apply (eligible_iff_strictly_inside (H := offline (daily_api []))
           45 (-75) (new_year 2000) 0%nat
           (initial (daily_api []) [sample_catalog])
           sample_catalog sample_selected).
  - reflexivity.
  - vm_compute. reflexivity.
Defined.

Lemma closest_weather_station_nearest_witness :
  ∃ (i : nat) (station : Z * dict) (q : Q),
    eligible_stations (new_year 2000) sample_catalog !! i = Some station
    ∧ station_distance (H := offline (daily_api [])) 45 (-75) station.2
      = Ok q
    ∧ (closest_weather_station (H := offline (daily_api []))
         45 (-75) (new_year 2000) 0%nat
         (initial (daily_api []) [sample_catalog])).1
      = Ret (with_distance sample_catalog station.2 q)
    ∧ (∀ j st q',
         eligible_stations (new_year 2000) sample_catalog !! j = Some st →
         station_distance (H := offline (daily_api [])) 45 (-75) st.2
         = Ok q' →
         (q <= q')%Q)
    ∧ (∀ j st q',
         (j < i)%nat →
         eligible_stations (new_year 2000) sample_catalog !! j = Some st →
         station_distance (H := offline (daily_api [])) 45 (-75) st.2
         = Ok q' →
         (q < q')%Q).
Proof.
  apply (closest_weather_station_nearest (H := offline (daily_api []))).
  - reflexivity.
  - vm_compute. repeat constructor.
  - vm_compute. repeat constructor.
  - vm_compute. repeat constructor.
  - vm_compute. repeat (constructor; [eexists; reflexivity|]). constructor.
  - vm_compute. discriminate.
Defined.

Lemma closest_weather_station_no_eligible_witness :
  (closest_weather_station (H := offline (daily_api []))
     45 (-75) (new_year 2000) 0%nat
     (initial (daily_api []) [boundary_catalog])).1
  = Exn ValueError.
Proof.
  apply (closest_weather_station_no_eligible (H := offline (daily_api []))
           45 (-75) (new_year 2000) 0%nat
           (initial (daily_api []) [boundary_catalog]) boundary_catalog).
  - reflexivity.
  - vm_compute. repeat constructor.
  - vm_compute. reflexivity.
Defined.

Lemma scrape_weather_stations_aborts_witness :
  (scrape_weather_stations (H := offline failing_api) 3 (inl "ONTARIO")
     (initial failing_api [])).1
  = Exn JSONDecodeError
  ∧ last (trace (scrape_weather_stations (H := offline failing_api) 3
                   (inl "ONTARIO") (initial failing_api [])).2)
    = Some {| url := stations_url;
              params := station_params "ONTARIO" 501;
              reply := Undecodable |}.
Proof.
  apply (scrape_weather_stations_aborts (H := offline failing_api)).
  - vm_compute. repeat constructor.
  - reflexivity.
Defined.

Lemma scrape_weather_stations_fixes_columns_witness :
  ∃ (catalog : ref) (s' : state (H := offline (stations_api (raw_stations 2)))),
    scrape_weather_stations (H := offline (stations_api (raw_stations 2)))
      3 (inl "ONTARIO") (initial (stations_api (raw_stations 2)) [])
    = (Ret catalog, s')
    ∧ ∃ (fetched : ref) (s1 : state) (raw df : DataFrame),
        scrape_all 3 ["ONTARIO"] (initial (stations_api (raw_stations 2)) [])
        = (Ret fetched, s1)
        ∧ store s1 !! fetched = Some raw
        ∧ store s' !! catalog = Some df
        ∧ columns df = columns raw
        ∧ Forall2 (fixed (H := offline (stations_api (raw_stations 2))))
            (rows raw) (rows df).
Proof.
  eexists _, _. split.
  - vm_compute. reflexivity.
  - apply (scrape_weather_stations_fixes_columns
             (H := offline (stations_api (raw_stations 2)))
             3 (inl "ONTARIO")).
    vm_compute. reflexivity.
Defined.

Lemma weather_data_fallback_witness :
  ∃ (weather : ref) (s' : state (H := offline (daily_api []))),
    weather_data (H := offline (daily_api [])) 45 (-75) (new_year 2000) 0%nat
      (initial (daily_api []) [sample_catalog])
    = (Ret weather, s')
    ∧ store s' !! weather
      = Some {| columns := fallback_columns;
                rows := [(0, pd.reindex fallback_columns sample_nearest)] |}.
Proof.
  eapply (weather_data_fallback (H := offline (daily_api []))
            45 (-75) (new_year 2000) 0%nat
            (initial (daily_api []) [sample_catalog]) _ sample_nearest).
  - vm_compute. reflexivity.
  - vm_compute. repeat constructor.
  - vm_compute. reflexivity.
Defined.

Lemma weather_data_observations_witness :
  ∃ (weather : ref) (s' : state (H := offline (daily_api [observation])))
    (df : DataFrame),
    weather_data (H := offline (daily_api [observation]))
      45 (-75) (new_year 2000) 0%nat
      (initial (daily_api [observation]) [sample_catalog])
    = (Ret weather, s')
    ∧ store s' !! weather = Some df
    ∧ columns df
      = take 1 ["STATION_NAME"; "CLIMATE_IDENTIFIER"; "MEAN_TEMPERATURE";
                "TOTAL_PRECIPITATION"]
        ++ "STN_ID" :: "DISTANCE_WEATHER_STATION_KM"
           :: drop 1 ["STATION_NAME"; "CLIMATE_IDENTIFIER";
                      "MEAN_TEMPERATURE"; "TOTAL_PRECIPITATION"]
    ∧ Forall (fun c => c ∉ columns df) redundant_columns
    ∧ rows df
      = (fun r : Z * dict =>
           (r.1,
            pd.list_insert_at 1 ("STN_ID", pd.cell "STN_ID" sample_nearest)
              (pd.list_insert_at 1
                 ("DISTANCE_WEATHER_STATION_KM",
                  pd.cell "DISTANCE_WEATHER_STATION_KM" sample_nearest)
                 (filter (fun kv : string * value => kv.1 ∉ redundant_columns)
                    r.2))))
        <$> rows (pd.DataFrame_of_records [observation]).
Proof.
  eapply (weather_data_observations (H := offline (daily_api [observation]))
            45 (-75) (new_year 2000) 0%nat
            (initial (daily_api [observation]) [sample_catalog])
            _ sample_nearest [observation]).
  - vm_compute. reflexivity.
  - vm_compute. repeat constructor.
  - vm_compute. repeat constructor.
  - vm_compute. repeat constructor.
  - vm_compute. reflexivity.
  - discriminate.
  - vm_compute. repeat constructor.
  - vm_compute. discriminate.
  - apply (proj1 (bool_decide_eq_false _)). vm_compute. reflexivity.
  - apply (proj1 (bool_decide_eq_false _)). vm_compute. reflexivity.
Defined.

Lemma scrape_pagination_witness :
  ∃ (all_weather_stations : ref)
    (s' : state (H := offline (stations_api (raw_stations 500))))
    (new : list exchange),
    scrape_all 3 ["ONTARIO"] (initial (stations_api (raw_stations 500)) [])
    = (Ret all_weather_stations, s')
    ∧ store s' !! all_weather_stations
      = Some (pd.DataFrame_of_records (raw_stations 500))
    ∧ trace s' = trace (initial (stations_api (raw_stations 500)) []) ++ new
    ∧ length new = (length (raw_stations 500) / 500 + 1)%nat
    ∧ params <$> new
      = station_params "ONTARIO"
        <$> start_indexes (length (raw_stations 500) / 500 + 1)
    ∧ trace (scrape_weather_stations 3 (inl "ONTARIO")
               (initial (stations_api (raw_stations 500)) [])).2
      = trace s'.
Proof.
  apply (scrape_pagination (H := offline (stations_api (raw_stations 500)))
           (raw_stations 500) 3 "ONTARIO"
           (initial (stations_api (raw_stations 500)) [])).
  - intros url province startindex w. reflexivity.
  - vm_compute. lia.
Defined.

(** Five hundred records cost two requests, and no record costs one,
    where pages of 500 would need one and none. *)
Lemma scrape_pagination_counterexample :
  length (raw_stations 500) = 500%nat
  ∧ length (trace (scrape_weather_stations
                     (H := offline (stations_api (raw_stations 500)))
                     3 (inl "ONTARIO")
                     (initial (stations_api (raw_stations 500)) [])).2)
    = 2%nat
  ∧ pages_needed 500 = 1%nat
  ∧ length (trace (scrape_weather_stations
                     (H := offline (stations_api []))
                     3 (inl "ONTARIO")
                     (initial (stations_api []) [])).2)
    = 1%nat
  ∧ pages_needed 0 = 0%nat.
Proof. vm_compute. repeat split. Qed.

Lemma weather_data_one_request_witness :
  trace (weather_data (H := offline (daily_api []))
           45 (-75) (new_year 2000) 0%nat
           (initial (daily_api []) [sample_catalog])).2
  = [{| url := daily_url;
        params := daily_params (Str "6105976") (new_year 2000);
        reply := Json {| features := Some [] |} |}].
Proof.
  eapply (weather_data_one_request (H := offline (daily_api []))
            45 (-75) (new_year 2000) 0%nat
            (initial (daily_api []) [sample_catalog]) _ sample_nearest).
  - vm_compute. reflexivity.
  - vm_compute. repeat constructor.
Defined.

Lemma weather_data_request_fails_witness :
  ∃ s1 : state (H := offline failing_api),
    closest_weather_station (H := offline failing_api)
      45 (-75) (new_year 2000) 0%nat (initial failing_api [sample_catalog])
    = (Ret sample_nearest, s1)
    ∧ (weather_data (H := offline failing_api)
         45 (-75) (new_year 2000) 0%nat
         (initial failing_api [sample_catalog])).1
      = Exn JSONDecodeError
    ∧ store (weather_data (H := offline failing_api)
               45 (-75) (new_year 2000) 0%nat
               (initial failing_api [sample_catalog])).2
      = store s1.
Proof.
  eexists. split; [vm_compute; reflexivity|].
  eapply (weather_data_request_fails (H := offline failing_api)
            45 (-75) (new_year 2000) 0%nat
            (initial failing_api [sample_catalog]) _ sample_nearest).
  - vm_compute. reflexivity.
  - vm_compute. repeat constructor.
  - vm_compute. reflexivity.
Defined.

Lemma closest_weather_station_returns_station_witness :
  ∃ (station : Z * dict) (q : Q),
    station ∈ rows sample_catalog
    ∧ eligible (new_year 2000) station.2 = true
    ∧ station_distance (H := offline (daily_api [])) 45 (-75) station.2
      = Ok q
    ∧ keys sample_nearest
      = columns sample_catalog ++ ["DISTANCE_WEATHER_STATION_KM"]
    ∧ pd.cell "DISTANCE_WEATHER_STATION_KM" sample_nearest = Float q
    ∧ ∀ c, c ∈ columns sample_catalog →
           pd.cell c sample_nearest = pd.cell c station.2.
Proof.
  apply (closest_weather_station_returns_station (H := offline (daily_api []))
           45 (-75) (new_year 2000) 0%nat
           (initial (daily_api []) [sample_catalog])).
  - reflexivity.
  - apply (proj1 (bool_decide_eq_false _)). vm_compute. reflexivity.
  - vm_compute. reflexivity.
Defined.

Lemma weather_data_no_eligible_witness :
  (weather_data (H := offline (daily_api []))
     45 (-75) (new_year 2000) 0%nat
     (initial (daily_api []) [boundary_catalog])).1
  = Exn ValueError
  ∧ trace (weather_data (H := offline (daily_api []))
             45 (-75) (new_year 2000) 0%nat
             (initial (daily_api []) [boundary_catalog])).2
    = trace (initial (daily_api []) [boundary_catalog]).
Proof.
  apply (weather_data_no_eligible (H := offline (daily_api []))
           45 (-75) (new_year 2000) 0%nat
           (initial (daily_api []) [boundary_catalog]) boundary_catalog).
  - reflexivity.
  - vm_compute. repeat constructor.
  - vm_compute. reflexivity.
Defined.

Lemma weather_data_no_climate_identifier_witness :
  (weather_data (H := offline (daily_api []))
     45 (-75) (new_year 2000) 0%nat
     (initial (daily_api []) [unnamed_catalog])).1
  = Exn (KeyError "CLIMATE_IDENTIFIER")
  ∧ trace (weather_data (H := offline (daily_api []))
             45 (-75) (new_year 2000) 0%nat
             (initial (daily_api []) [unnamed_catalog])).2
    = trace (initial (daily_api []) [unnamed_catalog]).
Proof.
  eapply (weather_data_no_climate_identifier (H := offline (daily_api []))
            45 (-75) (new_year 2000) 0%nat
            (initial (daily_api []) [unnamed_catalog]) unnamed_catalog).
  - reflexivity.
  - apply (proj1 (bool_decide_eq_false _)). vm_compute. reflexivity.
  - vm_compute. reflexivity.
Defined.

Lemma scrape_all_provinces_witness :
  ∃ (all_weather_stations : ref)
    (s' : state (H := offline (provinces_api by_province)))
    (new : list exchange),
    scrape_all 3 ["ONTARIO"; "QUEBEC"] (initial (provinces_api by_province) [])
    = (Ret all_weather_stations, s')
    ∧ store s' !! all_weather_stations
      = Some (pd.DataFrame_of_records
                (["ONTARIO"; "QUEBEC"] ≫= by_province))
    ∧ trace s' = trace (initial (provinces_api by_province) []) ++ new
    ∧ params <$> new
      = (["ONTARIO"; "QUEBEC"] ≫= fun province =>
           province_requests province (length (by_province province)))
    ∧ trace (scrape_weather_stations 3 (inr ["ONTARIO"; "QUEBEC"])
               (initial (provinces_api by_province) [])).2
      = trace s'.
Proof.
  apply (scrape_all_provinces (H := offline (provinces_api by_province))
           by_province 3 ["ONTARIO"; "QUEBEC"]
           (initial (provinces_api by_province) [])).
  - intros url province startindex w. reflexivity.
  - repeat (constructor; [vm_compute; lia|]). constructor.
Defined.

Lemma scrape_weather_stations_catalog_witness :
  ∃ (catalog : ref) (s' : state (H := offline (stations_api (raw_stations 2)))),
    scrape_weather_stations (H := offline (stations_api (raw_stations 2)))
      3 (inl "ONTARIO") (initial (stations_api (raw_stations 2)) [])
    = (Ret catalog, s')
    ∧ ∃ df : DataFrame,
        store s' !! catalog = Some df
        ∧ (rows df).*1 = Z.of_nat <$> seq 0 (length (rows df))
        ∧ Forall (fun c => c ∈ columns df) fixed_columns
        ∧ Forall (fun r : Z * dict =>
                    is_float (pd.cell "LONGITUDE" r.2)
                    ∧ is_float (pd.cell "LATITUDE" r.2))
            (rows df).
Proof.
  eexists _, _. split.
  - vm_compute. reflexivity.
  - apply (scrape_weather_stations_catalog
             (H := offline (stations_api (raw_stations 2)))
             3 (inl "ONTARIO")
             (initial (stations_api (raw_stations 2)) [])).
    vm_compute. reflexivity.
Defined.

Lemma scrape_weather_stations_no_longitude_witness :
  ∃ (fetched : ref) (s1 : state (H := offline (stations_api []))),
    scrape_all 3 ["ONTARIO"] (initial (stations_api []) [])
    = (Ret fetched, s1)
    ∧ scrape_weather_stations 3 (inl "ONTARIO") (initial (stations_api []) [])
      = (Exn (KeyError "LONGITUDE"), s1).
Proof.
  eexists _, _. split.
  - vm_compute. reflexivity.
  - eapply (scrape_weather_stations_no_longitude
              (H := offline (stations_api []))
              3 (inl "ONTARIO") (initial (stations_api []) [])).
    + vm_compute. reflexivity.
    + vm_compute. reflexivity.
    + apply not_elem_of_nil.
Defined.

Lemma scrape_weather_stations_no_station_witness :
  ∃ new : list exchange,
    (scrape_weather_stations (H := offline (provinces_api nowhere))
       1 (inr ["ONTARIO"; "QUEBEC"]) (initial (provinces_api nowhere) [])).1
    = Exn (KeyError "LONGITUDE")
    ∧ trace (scrape_weather_stations (H := offline (provinces_api nowhere))
               1 (inr ["ONTARIO"; "QUEBEC"])
               (initial (provinces_api nowhere) [])).2
      = trace (initial (provinces_api nowhere) []) ++ new
    ∧ params <$> new
      = (fun province => station_params province 1)
        <$> ["ONTARIO"; "QUEBEC"].
Proof.
  apply (scrape_weather_stations_no_station
           (H := offline (provinces_api nowhere))
           nowhere 1 ["ONTARIO"; "QUEBEC"]
           (initial (provinces_api nowhere) [])).
  - intros url province startindex w. reflexivity.
  - repeat constructor.
  - lia.
Defined.

Lemma weather_data_keeps_catalog_witness :
  store (weather_data (H := offline (daily_api [observation]))
           45 (-75) (new_year 2000) 0%nat
           (initial (daily_api [observation]) [sample_catalog])).2 !! 0%nat
  = Some sample_catalog.
Proof.
  apply (weather_data_keeps_catalog (H := offline (daily_api [observation]))).
  reflexivity.
Defined.

Lemma weather_data_missing_column_witness :
  ∃ c' : string,
    c' ∈ redundant_columns
    ∧ (c' ∉ columns (pd.DataFrame_of_records [partial_observation]))
    ∧ (weather_data (H := offline (daily_api [partial_observation]))
         45 (-75) (new_year 2000) 0%nat
         (initial (daily_api [partial_observation]) [sample_catalog])).1
      = Exn (KeyError c').
Proof.
  eapply (weather_data_missing_column
            (H := offline (daily_api [partial_observation]))
            45 (-75) (new_year 2000) 0%nat
            (initial (daily_api [partial_observation]) [sample_catalog])
            _ sample_nearest [partial_observation] "PROVINCE_CODE").
  - vm_compute. reflexivity.
  - vm_compute. repeat constructor.
  - vm_compute. reflexivity.
  - discriminate.
  - vm_compute. repeat constructor.
  - apply (proj1 (bool_decide_eq_false _)). vm_compute. reflexivity.
Defined.

Lemma weather_data_column_exists_witness :
  (weather_data (H := offline (daily_api [labelled_observation]))
     45 (-75) (new_year 2000) 0%nat
     (initial (daily_api [labelled_observation]) [sample_catalog])).1
  = Exn ValueError.
Proof.
  eapply (weather_data_column_exists
            (H := offline (daily_api [labelled_observation]))
            45 (-75) (new_year 2000) 0%nat
            (initial (daily_api [labelled_observation]) [sample_catalog])
            _ sample_nearest [labelled_observation]).
  - vm_compute. reflexivity.
  - vm_compute. repeat constructor.
  - vm_compute. repeat constructor.
  - vm_compute. repeat constructor.
  - vm_compute. reflexivity.
  - discriminate.
  - vm_compute. repeat constructor.
  - left. vm_compute. repeat constructor.
Defined.

Lemma closest_weather_station_no_first_date_witness :
  (closest_weather_station (H := offline (daily_api []))
     45 (-75) (new_year 2000) 0%nat
     (initial (daily_api []) [undated_catalog])).1
  = Exn (UndefinedVariableError "FIRST_DATE").
Proof.
  apply (closest_weather_station_no_first_date (H := offline (daily_api []))
           45 (-75) (new_year 2000) 0%nat
           (initial (daily_api []) [undated_catalog]) undated_catalog).
  - reflexivity.
  - apply (proj1 (bool_decide_eq_false _)). vm_compute. reflexivity.
Defined.

Lemma closest_weather_station_no_latitude_witness :
  (closest_weather_station (H := offline (daily_api []))
     45 (-75) (new_year 2000) 0%nat
     (initial (daily_api []) [unplaced_catalog])).1
  = Exn (KeyError "LATITUDE").
Proof.
  apply (closest_weather_station_no_latitude (H := offline (daily_api []))
           45 (-75) (new_year 2000) 0%nat
           (initial (daily_api []) [unplaced_catalog]) unplaced_catalog).
  - reflexivity.
  - vm_compute. repeat constructor.
  - vm_compute. discriminate.
  - apply (proj1 (bool_decide_eq_false _)). vm_compute. reflexivity.
Defined.

Lemma closest_weather_station_ignores_labels_witness :
  (closest_weather_station (H := offline (daily_api []))
     45 (-75) (new_year 2000) 0%nat
     (initial (daily_api []) [sample_catalog])).1
  = (closest_weather_station (H := offline (daily_api []))
       45 (-75) (new_year 2000) 0%nat
       (initial (daily_api []) [relabelled_catalog])).1.
Proof.
  apply (closest_weather_station_ignores_labels (H := offline (daily_api []))
           45 (-75) (new_year 2000) 0%nat 0%nat
           (initial (daily_api []) [sample_catalog])
           (initial (daily_api []) [relabelled_catalog])
           sample_catalog relabelled_catalog).
  - reflexivity.
  - reflexivity.
  - reflexivity.
  - vm_compute. reflexivity.
Defined.

Lemma closest_weather_station_only_eligible_witness :
  (closest_weather_station (H := offline (daily_api []))
     45 (-75) (new_year 2000) 0%nat
     (initial (daily_api []) [sample_catalog])).1
  = (closest_weather_station (H := offline (daily_api []))
       45 (-75) (new_year 2000) 0%nat
       (initial (daily_api []) [open_catalog])).1.
Proof.
  apply (closest_weather_station_only_eligible (H := offline (daily_api []))
           45 (-75) (new_year 2000) 0%nat 0%nat
           (initial (daily_api []) [sample_catalog])
           (initial (daily_api []) [open_catalog])
           sample_catalog open_catalog).
  - reflexivity.
  - reflexivity.
  - vm_compute. repeat constructor.
  - vm_compute. repeat constructor.
  - reflexivity.
  - vm_compute. reflexivity.
Defined.

Lemma weather_data_fallback_missing_key_witness :
  ∃ (station : dict) (s1 : state (H := offline (daily_api []))) (c' : string),
    c' ∈ fallback_columns
    ∧ (c' ∉ keys station)
    ∧ weather_data (H := offline (daily_api []))
        45 (-75) (new_year 2000) 0%nat
        (initial (daily_api []) [nameless_catalog])
      = (Exn (KeyError c'),
         with_store
           (store s1 ++ [pd.DataFrame_of_scalars station [0]])
           (exchanged daily_url
              (daily_params (pd.cell "CLIMATE_IDENTIFIER" station)
                 (new_year 2000))
              s1)).
Proof.
  eexists _, _.
  eapply (weather_data_fallback_missing_key (H := offline (daily_api []))
            45 (-75) (new_year 2000) 0%nat
            (initial (daily_api []) [nameless_catalog]) _ _ "STATION_NAME").
  - vm_compute. reflexivity.
  - vm_compute. repeat constructor.
  - vm_compute. reflexivity.
  - vm_compute. repeat constructor.
  - apply (proj1 (bool_decide_eq_false _)). vm_compute. reflexivity.
Defined.
